(** * StyleMirror: session and token lifecycle of the try-on server

    A shallow embedding of [server/storage.ts] and of the route handlers of
    [server/routes.ts] that issue QR grants, exchange them for customer
    sessions, attach photos, run try-ons, log users in and reset passwords.

    The database is a record of tables; a table is the list of its rows in
    insertion order, and [const [row] = await db.select()...] is the first
    row the [where] clause keeps.  A handler is a function from the
    database to a response and the database it leaves behind; an early
    [return res.status(..).json(..)] stops the handler, and a storage call
    the database refuses throws into the [catch] of the handler, which
    answers 500 and keeps what was written before.  Instants ([Date]) are
    integers, milliseconds since the epoch. *)

From Stdlib Require Import ZArith List String Ascii Bool Lia.
From Stdlib Require Import DecimalString Permutation.
Import ListNotations.

Local Open Scope string_scope.
Local Open Scope Z_scope.

(** ** JavaScript values the handlers test *)

(** [!x] for a value that is a string or [undefined]/[null]. *)
Definition falsy (x : option string) : bool :=
  match x with
  | None => true
  | Some s => String.eqb s EmptyString
  end.

(** [s.startsWith(p)] *)
Definition startsWith (s p : string) : bool := String.prefix p s.

(** [s.split(sep)] for a one-character separator. *)
Fixpoint split (sep : ascii) (s : string) : list string :=
  match s with
  | EmptyString => [EmptyString]
  | String c rest =>
      if Ascii.eqb c sep then EmptyString :: split sep rest
      else match split sep rest with
           | [] => [String c EmptyString]
           | w :: ws => String c w :: ws
           end
  end.

(** Template-literal rendering of an integer. *)
Definition showZ (n : Z) : string := NilZero.string_of_int (Z.to_int n).

(** The argument of a [JSON.stringify] call, before it is rendered. *)
Inductive JsonValue :=
| JString (s : string)
| JBool (b : bool).

Definition JsonObject := list (string * JsonValue).

(** ** Rows of the schema

    Only the columns the embedded code reads or writes are kept; the
    columns the schema fills by default ([createdAt], [updatedAt]) are
    read by none of the functions below. *)

Module User.
Record t := mk {
  id : string;
  email : string;
  password : string;
  role : string;
  storeId : option string;
  mustResetPassword : bool;
  isActive : bool
}.

(** [Partial<User>], as [db.update(users).set(data)] receives it. *)
Record partial := mkPartial {
  set_password : option string;
  set_mustResetPassword : option bool
}.

(** A [set({})] with no key: drizzle throws "No values to set". *)
Definition no_values (data : partial) : bool :=
  match set_password data, set_mustResetPassword data with
  | None, None => true
  | _, _ => false
  end.

Definition set (data : partial) (u : t) : t :=
  mk (id u) (email u)
     (match set_password data with Some p => p | None => password u end)
     (role u) (storeId u)
     (match set_mustResetPassword data with
      | Some b => b
      | None => mustResetPassword u
      end)
     (isActive u).
End User.

Module Store.
Record t := mk {
  id : string;
  name : string;
  isActive : bool
}.
End Store.

Module ClothingItem.
Record t := mk {
  id : string;
  storeId : string;
  name : string;
  category : string;
  barcode : option string;
  imageUrl : string;
  isAvailable : bool;
  tryOnCount : Z
}.

(** [SET try_on_count = try_on_count + 1] *)
Definition bump (i : t) : t :=
  mk (id i) (storeId i) (name i) (category i) (barcode i) (imageUrl i)
     (isAvailable i) (tryOnCount i + 1).
End ClothingItem.

Module QrSession.
Record t := mk {
  id : string;
  storeId : string;
  token : string;
  expiresAt : Z
}.

Record insert := mkInsert {
  new_storeId : string;
  new_token : string;
  new_expiresAt : Z
}.
End QrSession.

Module CustomerSession.
Record t := mk {
  id : string;
  qrSessionId : string;
  storeId : string;
  expiresAt : Z;
  photoUrl : option string
}.

Record insert := mkInsert {
  new_qrSessionId : string;
  new_storeId : string;
  new_expiresAt : Z
}.

(** [Partial<CustomerSession>]; the routes only ever set [photoUrl]. *)
Record partial := mkPartial {
  set_photoUrl : option string
}.

Definition no_values (data : partial) : bool :=
  match set_photoUrl data with
  | None => true
  | Some _ => false
  end.

Definition set (data : partial) (s : t) : t :=
  mk (id s) (qrSessionId s) (storeId s) (expiresAt s)
     (match set_photoUrl data with
      | Some p => Some p
      | None => photoUrl s
      end).
End CustomerSession.

Module TryOnHistory.
Record t := mk {
  id : string;
  customerSessionId : string;
  clothingItemId : string;
  resultImageUrl : string
}.

Record insert := mkInsert {
  new_customerSessionId : string;
  new_clothingItemId : string;
  new_resultImageUrl : string
}.
End TryOnHistory.

Module UsageLog.
Record t := mk {
  id : string;
  storeId : string;
  action : string;
  metadata : JsonObject
}.

Record insert := mkInsert {
  new_storeId : string;
  new_action : string;
  new_metadata : JsonObject
}.
End UsageLog.

(** ** The database *)

Record Db := mkDb {
  users : list User.t;
  stores : list Store.t;
  clothingItems : list ClothingItem.t;
  qrSessions : list QrSession.t;
  customerSessions : list CustomerSession.t;
  tryOnHistory : list TryOnHistory.t;
  usageLogs : list UsageLog.t
}.

Definition with_users (db : Db) (l : list User.t) : Db :=
  mkDb l (stores db) (clothingItems db) (qrSessions db)
       (customerSessions db) (tryOnHistory db) (usageLogs db).

Definition with_clothingItems (db : Db) (l : list ClothingItem.t) : Db :=
  mkDb (users db) (stores db) l (qrSessions db)
       (customerSessions db) (tryOnHistory db) (usageLogs db).

Definition with_qrSessions (db : Db) (l : list QrSession.t) : Db :=
  mkDb (users db) (stores db) (clothingItems db) l
       (customerSessions db) (tryOnHistory db) (usageLogs db).

Definition with_customerSessions (db : Db) (l : list CustomerSession.t) : Db :=
  mkDb (users db) (stores db) (clothingItems db) (qrSessions db)
       l (tryOnHistory db) (usageLogs db).

Definition with_tryOnHistory (db : Db) (l : list TryOnHistory.t) : Db :=
  mkDb (users db) (stores db) (clothingItems db) (qrSessions db)
       (customerSessions db) l (usageLogs db).

Definition with_usageLogs (db : Db) (l : list UsageLog.t) : Db :=
  mkDb (users db) (stores db) (clothingItems db) (qrSessions db)
       (customerSessions db) (tryOnHistory db) l.

(** [UPDATE t SET .. WHERE p]: every row [p] keeps is rewritten in place. *)
Definition update_where {A : Type} (p : A -> bool) (f : A -> A)
  (rows : list A) : list A :=
  map (fun r => if p r then f r else r) rows.

(** ** PostgreSQL integers

    The try-on counter is an [integer] column, as the [::int] casts of its
    sums in [storage.ts] have it: a statement that would produce a value
    outside the 32-bit range is refused by the database, and the call that
    sent it throws. *)

Definition int4_max : Z := 2147483647.

Definition int4_min : Z := -2147483648.

(** [x::int]: the value, or [None] when the database answers "integer out
    of range". *)
Definition int4 (x : Z) : option Z :=
  if (int4_min <=? x) && (x <=? int4_max) then Some x else None.

(** ** HTTP responses *)

Record UserView := mkUserView {
  view_id : string;
  view_email : string;
  view_role : string;
  view_storeId : option string;
  view_storeName : option string;
  view_mustResetPassword : bool
}.

Inductive Body :=
| Message (message : string)
| LoginBody (token : string) (user : UserView)
| TempPasswordBody (tempPassword message : string)
| QrBody (qrCode token : string) (expiresAt : Z)
| SessionBody (sessionId storeId storeName : string) (expiresAt : Z)
| PhotoBody (photoUrl : string)
| TryOnBody (resultImageUrl : string) (message : option string).

Record Response := mkResponse {
  status : Z;
  body : Body
}.

(** [res.status(code).json({ message })] *)
Definition refuse (code : Z) (msg : string) : Response :=
  mkResponse code (Message msg).

(** [res.json(b)] *)
Definition json (b : Body) : Response := mkResponse 200 b.

(** ** Handlers: database threading with early return *)

Inductive Step (A : Type) :=
| Continue (a : A)
| Return (r : Response).
Arguments Continue {A} a.
Arguments Return {A} r.

Definition Handler (A : Type) : Type := Db -> Step A * Db.

Definition ret {A} (a : A) : Handler A := fun db => (Continue a, db).

Definition reply {A} (r : Response) : Handler A := fun db => (Return r, db).

Definition bind {A B} (h : Handler A) (k : A -> Handler B) : Handler B :=
  fun db =>
    match h db with
    | (Continue a, db') => k a db'
    | (Return r, db') => (Return r, db')
    end.

(** A storage read. *)
Definition query {A} (q : Db -> A) : Handler A := fun db => (Continue (q db), db).

(** A storage write that returns the row it wrote. *)
Definition exec {A} (w : Db -> A * Db) : Handler A :=
  fun db => let (a, db') := w db in (Continue a, db').

(** A storage call that may throw ([None]), made inside the [try] of a
    handler whose [catch] answers [caught]; what was written before the
    throw stays written. *)
Definition attempt {A} (w : Db -> option (A * Db)) (caught : Response)
  : Handler A :=
  fun db =>
    match w db with
    | Some (a, db') => (Continue a, db')
    | None => (Return caught, db)
    end.

(** A storage read that may throw, inside the same [try]. *)
Definition try_query {A} (q : Db -> option A) (caught : Response)
  : Handler A :=
  attempt (fun db => option_map (fun a => (a, db)) (q db)) caught.

(** [await Promise.all(promises)]: every value, or the throw of one. *)
Fixpoint all_settled {A} (results : list (option A)) : option (list A) :=
  match results with
  | [] => Some []
  | None :: _ => None
  | Some a :: rest => option_map (cons a) (all_settled rest)
  end.

(** [if (c) return res...;] *)
Definition reject_if (c : bool) (r : Response) : Handler unit :=
  if c then reply r else ret tt.

Declare Scope handler_scope.
Delimit Scope handler_scope with handler.
Notation "x <- h ;; k" := (bind h (fun x => k))
  (at level 61, h at next level, right associativity) : handler_scope.
Notation "h ;;; k" := (bind h (fun _ => k))
  (at level 61, right associativity) : handler_scope.

(** What the client receives, and the database after the request. *)
Definition serve (h : Handler Response) (db : Db) : Response * Db :=
  match h db with
  | (Continue r, db') => (r, db')
  | (Return r, db') => (r, db')
  end.

(** ** What a request brings with it *)

(** The payload of a bearer token ([req.user]). *)
Record Claims := mkClaims {
  claim_id : string;
  claim_email : string;
  claim_role : string;
  claim_storeId : option string
}.

(** Readings of the outside world taken while one request is served:
    the clock, the random sources, and the process environment. *)
Record World := mkWorld {
  now : Z;                       (* new Date(), Date.now() *)
  later : Z;                     (* a second Date.now() in the same request *)
  randomHex : string;            (* randomBytes(n).toString("hex") *)
  randomRound : Z;               (* Math.round(Math.random() * 1e9) *)
  salt : string;                 (* the salt bcrypt.hash draws *)
  GEMINI_API_KEY : option string (* process.env.GEMINI_API_KEY *)
}.

Record LoginInput := mkLoginInput {
  login_email : string;
  login_password : string
}.

Record ResetInput := mkResetInput {
  currentPassword : string;
  newPassword : string
}.

(** [req.file] after multer stored the upload. *)
Record UploadedFile := mkUploadedFile {
  filename : string
}.


(** ** Stand-ins for the collaborators

    Small executable instances of the collaborators the sources import
    (primary keys, bcrypt, jsonwebtoken, zod, qrcode, the image generator)
    and a small database, on which the handlers are run in the examples
    that close this file. *)

Module Sample.

(** A key that is longer than every key in use. *)
Definition fresh_key (used : list string) : string :=
  String "#" (String.concat EmptyString used).

Definition hash (salt password : string) : string := "h:" ++ password.

Definition compare (password hashed : string) : bool :=
  String.eqb hashed ("h:" ++ password).

Definition owner : Claims :=
  mkClaims "u-owner" "admin@stylemirror.com" "company_owner" None.

Definition manager : Claims :=
  mkClaims "u-mgr" "mgr@boutique.example" "store_manager" (Some "store-1").

Definition sign (c : Claims) (at_ : Z) : string :=
  claim_role c ++ "/" ++ claim_id c.

Definition verify (token : string) (at_ : Z) : option Claims :=
  if String.eqb token "company_owner/u-owner" then Some owner
  else if String.eqb token "store_manager/u-mgr" then Some manager
  else None.

Definition RawBody : Type := string * string.

Definition parseLogin (raw : RawBody) : option LoginInput :=
  Some (mkLoginInput (fst raw) (snd raw)).

Definition parseReset (raw : RawBody) : option ResetInput :=
  Some (mkResetInput (fst raw) (snd raw)).

Definition toDataURL (url : string) : string := "data:image/png," ++ url.

Definition generate (userPhoto clothing output : string) : option string :=
  Some output.

Definition db : Db :=
  mkDb
    [ User.mk "u-owner" "admin@stylemirror.com" "h:admin123"
              "company_owner" None false true;
      User.mk "u-mgr" "mgr@boutique.example" "h:secret1"
              "store_manager" (Some "store-1") true true;
      User.mk "u-old" "old@boutique.example" "h:secret2"
              "store_manager" (Some "store-2") false false ]
    [ Store.mk "store-1" "Boutique" true;
      Store.mk "store-2" "Outlet" true;
      Store.mk "store-3" "Closed" false ]
    [ ClothingItem.mk "item-1" "store-1" "Shirt" "tops" None
                      "/uploads/clothing/shirt.png" true 4;
      ClothingItem.mk "item-2" "store-2" "Coat" "outerwear" None
                      "/uploads/clothing/coat.png" true 0 ]
    [ QrSession.mk "qr-1" "store-1" "tok-1" 5000;
      QrSession.mk "qr-3" "store-3" "tok-3" 5000 ]
    [ CustomerSession.mk "cs-1" "qr-1" "store-1" 5000
                         (Some "/uploads/customers/me.png");
      CustomerSession.mk "cs-2" "qr-1" "store-1" 5000 None ]
    []
    [].

(** A request served at instant [t], with no Gemini key configured. *)
Definition at_instant (t : Z) : World :=
  mkWorld t t "9f3c2a1b" 123456789 "salt" None.

End Sample.

(** ** Rows and payloads of the routes around the session flow *)

Definition with_stores (db : Db) (l : list Store.t) : Db :=
  mkDb (users db) l (clothingItems db) (qrSessions db)
       (customerSessions db) (tryOnHistory db) (usageLogs db).

(** [Partial<Store>], as [db.update(stores).set(data)] receives it. *)
Module PartialStore.
Record t := mk {
  set_name : option string;
  set_isActive : option bool
}.

Definition no_values (data : t) : bool :=
  match set_name data, set_isActive data with
  | None, None => true
  | _, _ => false
  end.

Definition set (data : t) (s : Store.t) : Store.t :=
  Store.mk (Store.id s)
           (match set_name data with Some n => n | None => Store.name s end)
           (match set_isActive data with
            | Some b => b
            | None => Store.isActive s
            end).
End PartialStore.

(** The object [getStoreStats] returns. *)
Module StoreStats.
Record t := mk {
  clothingCount : Z;
  availableCount : Z;
  tryOnCount : Z;
  sessionCount : Z
}.
End StoreStats.

(** The object [getStoreWithStats] returns. *)
Module StoreWithStats.
Record stats := mkStats {
  clothingCount : Z;
  tryOnCount : Z;
  sessionCount : Z
}.

Record t := mk {
  store : Store.t;
  its_stats : stats
}.
End StoreWithStats.

(** The object [getGlobalStats] returns. *)
Module GlobalStats.
Record t := mk {
  totalStores : Z;
  totalApiCalls : Z;
  totalSessions : Z;
  totalClothingItems : Z
}.
End GlobalStats.

(** ** The customer page: session timer and saved session

    [SessionTimer] of [pages/customer-tryon.tsx] recomputes two state
    variables from the clock and the session's [expiresAt]; [AuthProvider]
    of [lib/auth.tsx] keeps a saved session only while it has time left. *)

Module Client.

Inductive Urgency := normal | warning | urgent.

(** [s.padStart(n, c)] for a one-character pad. *)
Definition padStart (n : nat) (c : ascii) (s : string) : string :=
  string_of_list_ascii (repeat c (n - String.length s)) ++ s.

(** [updateTimer]: the values it passes to [setTimeLeft] and [setUrgency]. *)
Definition updateTimer (clock expiresAt : Z) : string * Urgency :=
  let diff := expiresAt - clock in
  if diff <=? 0 then ("Expired", urgent)
  else
    let minutes := diff / 60000 in
    let seconds := Z.rem diff 60000 / 1000 in
    (showZ minutes ++ ":" ++ padStart 2 "0" (showZ seconds),
     if minutes <? 5 then urgent
     else if minutes <? 15 then warning
     else normal).

(** [new Date(session.expiresAt) > new Date()]: the saved session is put
    back into the state; otherwise it is removed from localStorage. *)
Definition keepsSavedSession (clock expiresAt : Z) : bool :=
  clock <? expiresAt.

End Client.

(** ** A shop with barcodes, for the examples of the inventory routes *)

Module Shop.

Definition newest_first (A : Type) (l : list A) : list A := rev l.

Definition isCategory (c : string) : bool :=
  existsb (String.eqb c) ["tops"; "bottoms"; "outerwear"].

Definition shirt : ClothingItem.t :=
  ClothingItem.mk "item-1" "store-1" "Shirt" "tops" (Some "4006381333931")
                  "/uploads/clothing/shirt.png" true 4.

Definition coat : ClothingItem.t :=
  ClothingItem.mk "item-2" "store-2" "Coat" "outerwear" (Some "4006381333931")
                  "/uploads/clothing/coat.png" true 0.

Definition scarf : ClothingItem.t :=
  ClothingItem.mk "item-3" "store-1" "Scarf" "tops" (Some "5901234123457")
                  "/uploads/clothing/scarf.png" false 2.

Definition jeans : ClothingItem.t :=
  ClothingItem.mk "item-4" "store-1" "Jeans" "bottoms" None
                  "/uploads/clothing/jeans.png" true 7.

Definition db : Db :=
  with_clothingItems Sample.db [shirt; coat; scarf; jeans].

(** An item that has been tried on as often as the counter can tell. *)
Definition cap : ClothingItem.t :=
  ClothingItem.mk "item-9" "store-1" "Cap" "tops" None
                  "/uploads/clothing/cap.png" true 2147483647.

Definition db_at_limit : Db :=
  with_clothingItems Sample.db [shirt; cap].

(** An item that brings the try-on total of its store to the largest
    integer. *)
Definition vest : ClothingItem.t :=
  ClothingItem.mk "item-8" "store-1" "Vest" "tops" None
                  "/uploads/clothing/vest.png" true 2147483643.

Definition db_full : Db :=
  with_clothingItems Sample.db [shirt; vest].

End Shop.

Section Server.

(** *** Collaborators that are not part of the sources *)

(** The primary key the database gives a new row, from the keys the
    table already holds. *)
Variable newId : list string -> string.

(** [bcrypt.hash(password, 10)] with the salt it drew, and
    [bcrypt.compare(password, hash)]. *)
Variable bcrypt_hash : string -> string -> string.
Variable bcrypt_compare : string -> string -> bool.

(** [jwt.sign(claims, JWT_SECRET, { expiresIn: "24h" })] at an instant,
    and [jwt.verify(token, JWT_SECRET)] at an instant ([None]: throws). *)
Variable jwt_sign : Claims -> Z -> string.
Variable jwt_verify : string -> Z -> option Claims.

(** [loginSchema.safeParse] and [resetPasswordSchema.safeParse] on the
    raw request body ([None]: [success] is false). *)
Variable RawBody : Type.
Variable loginSchema : RawBody -> option LoginInput.
Variable resetPasswordSchema : RawBody -> option ResetInput.

(** [QRCode.toDataURL(url, { width: 256, margin: 2 })]. *)
Variable QRCode_toDataURL : string -> string.

(** [generateTryOnImage(userPhotoPath, clothingImagePath, outputPath)]
    ([None]: throws). *)
Variable generateTryOnImage : string -> string -> string -> option string.

(** *** storage.ts *)

Definition getUser (id : string) (db : Db) : option User.t :=
  find (fun u => String.eqb (User.id u) id) (users db).

Definition getUserByEmail (email : string) (db : Db) : option User.t :=
  find (fun u => String.eqb (User.email u) email) (users db).

(** [None]: the call throws (nothing to set). *)
Definition updateUser (id : string) (data : User.partial) (db : Db)
  : option (option User.t * Db) :=
  if User.no_values data then None
  else
    let db' := with_users db
                 (update_where (fun u => String.eqb (User.id u) id)
                               (User.set data) (users db)) in
    Some (getUser id db', db').

Definition getStore (id : string) (db : Db) : option Store.t :=
  find (fun s => String.eqb (Store.id s) id) (stores db).

Definition getClothingItem (id : string) (db : Db) : option ClothingItem.t :=
  find (fun i => String.eqb (ClothingItem.id i) id) (clothingItems db).

(** [None]: a row with this id is at the largest integer, the update is
    refused as a whole and the call throws. *)
Definition incrementTryOnCount (id : string) (db : Db) : option (unit * Db) :=
  if forallb (fun i => negb (String.eqb (ClothingItem.id i) id)
                       || (ClothingItem.tryOnCount i + 1 <=? int4_max))
             (clothingItems db)
  then Some (tt, with_clothingItems db
                   (update_where (fun i => String.eqb (ClothingItem.id i) id)
                                 ClothingItem.bump (clothingItems db)))
  else None.

(** [where token = :token and expires_at > :now] *)
Definition getQrSessionByToken (token : string) (clock : Z) (db : Db)
  : option QrSession.t :=
  find (fun q => String.eqb (QrSession.token q) token
                 && (clock <? QrSession.expiresAt q))
       (qrSessions db).

Definition createQrSession (ins : QrSession.insert) (db : Db)
  : QrSession.t * Db :=
  let session :=
    QrSession.mk (newId (map QrSession.id (qrSessions db)))
                 (QrSession.new_storeId ins)
                 (QrSession.new_token ins)
                 (QrSession.new_expiresAt ins) in
  (session, with_qrSessions db (qrSessions db ++ [session])).

Definition getCustomerSession (id : string) (db : Db)
  : option CustomerSession.t :=
  find (fun s => String.eqb (CustomerSession.id s) id) (customerSessions db).

Definition createCustomerSession (ins : CustomerSession.insert) (db : Db)
  : CustomerSession.t * Db :=
  let session :=
    CustomerSession.mk (newId (map CustomerSession.id (customerSessions db)))
                       (CustomerSession.new_qrSessionId ins)
                       (CustomerSession.new_storeId ins)
                       (CustomerSession.new_expiresAt ins)
                       None in
  (session, with_customerSessions db (customerSessions db ++ [session])).

(** [None]: the call throws (nothing to set). *)
Definition updateCustomerSession (id : string)
  (data : CustomerSession.partial) (db : Db)
  : option (option CustomerSession.t * Db) :=
  if CustomerSession.no_values data then None
  else
    let db' := with_customerSessions db
                 (update_where (fun s => String.eqb (CustomerSession.id s) id)
                               (CustomerSession.set data)
                               (customerSessions db)) in
    Some (getCustomerSession id db', db').

Definition createTryOnHistory (ins : TryOnHistory.insert) (db : Db)
  : TryOnHistory.t * Db :=
  let history :=
    TryOnHistory.mk (newId (map TryOnHistory.id (tryOnHistory db)))
                    (TryOnHistory.new_customerSessionId ins)
                    (TryOnHistory.new_clothingItemId ins)
                    (TryOnHistory.new_resultImageUrl ins) in
  (history, with_tryOnHistory db (tryOnHistory db ++ [history])).

Definition createUsageLog (ins : UsageLog.insert) (db : Db)
  : UsageLog.t * Db :=
  let log :=
    UsageLog.mk (newId (map UsageLog.id (usageLogs db)))
                (UsageLog.new_storeId ins)
                (UsageLog.new_action ins)
                (UsageLog.new_metadata ins) in
  (log, with_usageLogs db (usageLogs db ++ [log])).

(** *** routes.ts: middleware *)

Local Open Scope handler_scope.

(** A body or query field that must be present: [if (!x) return ...]. *)
Definition required (x : option string) : option string :=
  if falsy x then None else x.

Definition authMiddleware (authorization : option string) (w : World)
  : Handler Claims :=
  match required authorization with
  | None => reply (refuse 401 "Unauthorized")
  | Some authHeader =>
      if negb (startsWith authHeader "Bearer ")
      then reply (refuse 401 "Unauthorized")
      else
        match nth_error (split " " authHeader) 1 with
        | None => reply (refuse 401 "Invalid token")
        | Some token =>
            match jwt_verify token (now w) with
            | Some decoded => ret decoded
            | None => reply (refuse 401 "Invalid token")
            end
        end
  end.

Definition ownerOnlyMiddleware (user : Claims) : Handler unit :=
  reject_if (negb (String.eqb (claim_role user) "company_owner"))
            (refuse 403 "Access denied").

Definition managerOnlyMiddleware (user : Claims) : Handler unit :=
  reject_if (negb (String.eqb (claim_role user) "store_manager"))
            (refuse 403 "Access denied").

(** *** routes.ts: staff routes *)

(** POST /api/auth/login *)
Definition post_api_auth_login (raw : RawBody) (w : World)
  : Handler Response :=
  match loginSchema raw with
  | None => reply (refuse 400 "Invalid input")
  | Some parsed =>
      user <- query (getUserByEmail (login_email parsed)) ;;
      match user with
      | None => reply (refuse 401 "Invalid credentials")
      | Some user =>
          reject_if (negb (User.isActive user))
                    (refuse 401 "Invalid credentials") ;;;
          reject_if (negb (bcrypt_compare (login_password parsed)
                                          (User.password user)))
                    (refuse 401 "Invalid credentials") ;;;
          storeName <-
            match required (User.storeId user) with
            | Some storeId =>
                store <- query (getStore storeId) ;;
                ret (option_map Store.name store)
            | None => ret None
            end ;;
          let token :=
            jwt_sign (mkClaims (User.id user) (User.email user)
                               (User.role user) (User.storeId user))
                     (now w) in
          ret (json (LoginBody token
                       (mkUserView (User.id user) (User.email user)
                                   (User.role user) (User.storeId user)
                                   storeName
                                   (User.mustResetPassword user))))
      end
  end.

(** POST /api/auth/reset-password *)
Definition post_api_auth_reset_password (authorization : option string)
  (raw : RawBody) (w : World) : Handler Response :=
  principal <- authMiddleware authorization w ;;
  match resetPasswordSchema raw with
  | None => reply (refuse 400 "Invalid input")
  | Some parsed =>
      user <- query (getUser (claim_id principal)) ;;
      match user with
      | None => reply (refuse 404 "User not found")
      | Some user =>
          reject_if (negb (bcrypt_compare (currentPassword parsed)
                                          (User.password user)))
                    (refuse 401 "Current password is incorrect") ;;;
          let hashedPassword := bcrypt_hash (salt w) (newPassword parsed) in
          attempt (updateUser (User.id user)
                     (User.mkPartial (Some hashedPassword) (Some false)))
                  (refuse 500 "Failed to reset password") ;;;
          ret (json (Message "Password updated successfully"))
      end
  end.

(** POST /api/stores/:id/reset-password.  The handler draws a temporary
    password and hashes it; the hash is bound to a constant no
    statement reads, and no storage write follows. *)
Definition post_api_stores_id_reset_password (authorization : option string)
  (id : string) (w : World) : Handler Response :=
  principal <- authMiddleware authorization w ;;
  ownerOnlyMiddleware principal ;;;
  store <- query (getStore id) ;;
  match store with
  | None => reply (refuse 404 "Store not found")
  | Some _ =>
      let tempPassword := randomHex w in
      let hashedPassword := bcrypt_hash (salt w) tempPassword in
      ret (json (TempPasswordBody tempPassword
                                  "Password reset successfully"))
  end.

(** POST /api/store/qr/generate *)
Definition post_api_store_qr_generate (authorization : option string)
  (protocol host : string) (w : World) : Handler Response :=
  principal <- authMiddleware authorization w ;;
  managerOnlyMiddleware principal ;;;
  match required (claim_storeId principal) with
  | None => reply (refuse 400 "No store associated with this account")
  | Some storeId =>
      let token := randomHex w in
      let expiresAt := now w + 60 * 60 * 1000 in
      qrSession <- exec (createQrSession
                           (QrSession.mkInsert storeId token expiresAt)) ;;
      let qrCodeUrl := protocol ++ "://" ++ host ++ "/?session=" ++ token in
      let qrCode := QRCode_toDataURL qrCodeUrl in
      exec (createUsageLog
              (UsageLog.mkInsert storeId "qr_generated"
                 [("sessionId", JString (QrSession.id qrSession))])) ;;;
      ret (json (QrBody qrCode token expiresAt))
  end.

(** *** routes.ts: customer routes *)

(** GET /api/qr/:token/validate *)
Definition get_api_qr_token_validate (token : string) (w : World)
  : Handler Response :=
  qrSession <- query (getQrSessionByToken token (now w)) ;;
  match qrSession with
  | None => reply (refuse 404 "Invalid or expired session")
  | Some qrSession =>
      store <- query (getStore (QrSession.storeId qrSession)) ;;
      match store with
      | None => reply (refuse 404 "Store not available")
      | Some store =>
          reject_if (negb (Store.isActive store))
                    (refuse 404 "Store not available") ;;;
          customerSession <-
            exec (createCustomerSession
                    (CustomerSession.mkInsert
                       (QrSession.id qrSession)
                       (QrSession.storeId qrSession)
                       (QrSession.expiresAt qrSession))) ;;
          exec (createUsageLog
                  (UsageLog.mkInsert (QrSession.storeId qrSession)
                     "session_created"
                     [("customerSessionId",
                       JString (CustomerSession.id customerSession))])) ;;;
          ret (json (SessionBody (CustomerSession.id customerSession)
                                 (Store.id store) (Store.name store)
                                 (QrSession.expiresAt qrSession)))
      end
  end.

(** [!session || new Date(session.expiresAt) < new Date()] *)
Definition session_gone (session : option CustomerSession.t) (w : World)
  : bool :=
  match session with
  | None => true
  | Some s => CustomerSession.expiresAt s <? now w
  end.

(** POST /api/customer/upload-photo *)
Definition post_api_customer_upload_photo (sessionId : option string)
  (file : option UploadedFile) (w : World) : Handler Response :=
  match required sessionId with
  | None => reply (refuse 400 "Session ID required")
  | Some sessionId =>
      session <- query (getCustomerSession sessionId) ;;
      reject_if (session_gone session w) (refuse 401 "Session expired") ;;;
      match file with
      | None => reply (refuse 400 "No photo uploaded")
      | Some file =>
          let photoUrl := "/uploads/customers/" ++ filename file in
          attempt (updateCustomerSession sessionId
                     (CustomerSession.mkPartial (Some photoUrl)))
                  (refuse 500 "Failed to upload photo") ;;;
          ret (json (PhotoBody photoUrl))
      end
  end.

(** The three writes that follow a try-on, in the order of the source. *)
Definition record_try_on (session : CustomerSession.t)
  (clothingItem : ClothingItem.t) (resultImageUrl : string)
  (metadata : JsonObject) : Handler unit :=
  exec (createTryOnHistory
          (TryOnHistory.mkInsert (CustomerSession.id session)
                                 (ClothingItem.id clothingItem)
                                 resultImageUrl)) ;;;
  attempt (incrementTryOnCount (ClothingItem.id clothingItem))
          (refuse 500 "Failed to generate try-on image") ;;;
  exec (createUsageLog
          (UsageLog.mkInsert (CustomerSession.storeId session)
                             "try_on" metadata)) ;;;
  ret tt.

(** POST /api/tryon *)
Definition post_api_tryon (sessionId clothingItemId : option string)
  (w : World) : Handler Response :=
  match required sessionId, required clothingItemId with
  | Some sessionId, Some clothingItemId =>
      session <- query (getCustomerSession sessionId) ;;
      reject_if (session_gone session w) (refuse 401 "Session expired") ;;;
      match session with
      | None => reply (refuse 401 "Session expired")
      | Some session =>
          reject_if (falsy (CustomerSession.photoUrl session))
                    (refuse 400 "Please upload a photo first") ;;;
          clothingItem <- query (getClothingItem clothingItemId) ;;
          match clothingItem with
          | None => reply (refuse 404 "Clothing item not found")
          | Some clothingItem =>
              reject_if (negb (String.eqb (ClothingItem.storeId clothingItem)
                                          (CustomerSession.storeId session)))
                        (refuse 404 "Clothing item not found") ;;;
              if falsy (GEMINI_API_KEY w) then
                let mockResultUrl := ClothingItem.imageUrl clothingItem in
                record_try_on session clothingItem mockResultUrl
                  [("clothingItemId", JString clothingItemId);
                   ("customerSessionId",
                    JString (CustomerSession.id session));
                   ("mock", JBool true)] ;;;
                ret (json (TryOnBody mockResultUrl
                             (Some "Demo mode - Gemini API key not configured")))
              else
                let userPhotoPath :=
                  "." ++ match CustomerSession.photoUrl session with
                         | Some p => p
                         | None => EmptyString
                         end in
                let clothingImagePath :=
                  "." ++ ClothingItem.imageUrl clothingItem in
                let outputFilename :=
                  "result-" ++ showZ (later w) ++ "-"
                    ++ showZ (randomRound w) ++ ".png" in
                let outputPath := "./uploads/results/" ++ outputFilename in
                match generateTryOnImage userPhotoPath clothingImagePath
                                         outputPath with
                | None => reply (refuse 500 "Failed to generate try-on image")
                | Some _ =>
                    let resultImageUrl :=
                      "/uploads/results/" ++ outputFilename in
                    record_try_on session clothingItem resultImageUrl
                      [("clothingItemId", JString clothingItemId);
                       ("customerSessionId",
                        JString (CustomerSession.id session))] ;;;
                    ret (json (TryOnBody resultImageUrl None))
                end
          end
      end
  | _, _ => reply (refuse 400 "Session ID and clothing item ID required")
  end.


(** ** Outcomes of the specification, as the responses that carry them *)

Definition Expired (r : Response) : Prop :=
  r = refuse 401 "Session expired".

Definition NoPhoto (r : Response) : Prop :=
  r = refuse 400 "Please upload a photo first".

Definition NotFound (r : Response) : Prop :=
  r = refuse 404 "Clothing item not found".

Definition Rejected (r : Response) : Prop := status r = 404.

Definition Unauthorized (r : Response) : Prop :=
  r = refuse 401 "Invalid credentials".

(** The table after the counter of the rows with an id has gone up. *)
Definition counted (id : string) (db : Db) : Db :=
  with_clothingItems db
    (update_where (fun i => String.eqb (ClothingItem.id i) id)
                  ClothingItem.bump (clothingItems db)).

(** The three writes of one try-on, seen from outside: one history row
    for (session, item, result), one more on the counter of the rows with
    the item's id, one "try_on" usage log, and nothing else. *)
Definition recorded_once (s : CustomerSession.t) (item : ClothingItem.t)
  (resultImageUrl : string) (db db' : Db) : Prop :=
  (exists h,
     tryOnHistory db' = (tryOnHistory db ++ [h])%list
     /\ TryOnHistory.customerSessionId h = CustomerSession.id s
     /\ TryOnHistory.clothingItemId h = ClothingItem.id item
     /\ TryOnHistory.resultImageUrl h = resultImageUrl)
  /\ clothingItems db'
     = update_where
         (fun i => String.eqb (ClothingItem.id i) (ClothingItem.id item))
         ClothingItem.bump (clothingItems db)
  /\ (exists item',
        getClothingItem (ClothingItem.id item) db' = Some item'
        /\ ClothingItem.tryOnCount item' = ClothingItem.tryOnCount item + 1)
  /\ (exists l,
        usageLogs db' = (usageLogs db ++ [l])%list
        /\ UsageLog.storeId l = CustomerSession.storeId s
        /\ UsageLog.action l = "try_on")
  /\ users db' = users db /\ stores db' = stores db
  /\ qrSessions db' = qrSessions db
  /\ customerSessions db' = customerSessions db.

(** The condition the specification gives for a token to be exchanged:
    a grant carries it, the grant has not reached [expiresAt], and the
    grant's store is there and active. *)
Definition redeemable (token : string) (w : World) (db : Db) : Prop :=
  exists q store,
    In q (qrSessions db)
    /\ QrSession.token q = token
    /\ now w < QrSession.expiresAt q
    /\ In store (stores db)
    /\ Store.id store = QrSession.storeId q
    /\ Store.isActive store = true.

(** The customer session and the usage log a successful exchange inserts. *)
Definition session_for (q : QrSession.t) (db : Db) : CustomerSession.t :=
  CustomerSession.mk (newId (map CustomerSession.id (customerSessions db)))
                     (QrSession.id q) (QrSession.storeId q)
                     (QrSession.expiresAt q) None.

Definition log_for (q : QrSession.t) (db : Db) : UsageLog.t :=
  UsageLog.mk (newId (map UsageLog.id (usageLogs db)))
              (QrSession.storeId q) "session_created"
              [("customerSessionId",
                JString (CustomerSession.id (session_for q db)))].

(** A client that exchanges one token once per instant of [ws]. *)
Fixpoint validate_each (token : string) (ws : list World) (db : Db)
  : list Response * Db :=
  match ws with
  | [] => ([], db)
  | w :: ws' =>
      let (r, db1) := serve (get_api_qr_token_validate token w) db in
      let (rs, db2) := validate_each token ws' db1 in
      (r :: rs, db2)
  end.

(** The grant an accepted issue request inserts. *)
Definition grant_for (storeId : string) (w : World) (db : Db) : QrSession.t :=
  QrSession.mk (newId (map QrSession.id (qrSessions db)))
               storeId (randomHex w) (now w + 60 * 60 * 1000).

(** [attachPhoto(sessionId, photoRef)]: the upload route, once multer has
    stored the file whose URL is the photo reference. *)
Definition attachPhoto (sessionId : string) (file : UploadedFile) (w : World)
  : Db -> Response * Db :=
  serve (post_api_customer_upload_photo (Some sessionId) (Some file) w).

Definition photoRef (file : UploadedFile) : string :=
  "/uploads/customers/" ++ filename file.

Definition SessionNotFound (r : Response) : Prop := status r = 404.

(** ** storage.ts and routes.ts beyond the session flow *)

(** [orderBy(desc(t.createdAt))].  [createdAt] is a column the schema
    fills in, and the schema is not part of the sources: the ordering is
    a parameter, of which only that it rearranges the rows is used. *)
Variable newest_first : forall A : Type, list A -> list A.

(** Whether a string is a label of the [category] enum of the schema; the
    database refuses a comparison of the column with anything else. *)
Variable isCategory : string -> bool.

(** [select({ count: count() }).from(t).where(p)] *)
Definition count {A : Type} (p : A -> bool) (rows : list A) : Z :=
  Z.of_nat (List.length (filter p rows)).

(** [COALESCE(SUM(try_on_count), 0)::int] over the items of a store;
    [None]: the sum does not fit and the query throws. *)
Definition sumTryOnCount (storeId : string) (db : Db) : option Z :=
  int4 (fold_right Z.add 0
          (map ClothingItem.tryOnCount
             (filter (fun i => String.eqb (ClothingItem.storeId i) storeId)
                     (clothingItems db)))).

Definition getAllStores (db : Db) : list Store.t :=
  newest_first Store.t (stores db).

(** [None]: the call throws (nothing to set). *)
Definition updateStore (id : string) (data : PartialStore.t) (db : Db)
  : option (option Store.t * Db) :=
  if PartialStore.no_values data then None
  else
    let db' := with_stores db
                 (update_where (fun s => String.eqb (Store.id s) id)
                               (PartialStore.set data) (stores db)) in
    Some (getStore id db', db').

(** [None]: the call throws; [Some None]: it returns [undefined]. *)
Definition getStoreWithStats (storeId : string) (db : Db)
  : option (option StoreWithStats.t) :=
  match getStore storeId db with
  | None => Some None
  | Some store =>
      match sumTryOnCount storeId db with
      | None => None
      | Some tryOnResult =>
          Some (Some (StoreWithStats.mk store
                  (StoreWithStats.mkStats
                     (count (fun i => String.eqb (ClothingItem.storeId i)
                                                 storeId)
                            (clothingItems db))
                     tryOnResult
                     (count (fun c => String.eqb (CustomerSession.storeId c)
                                                 storeId)
                            (customerSessions db)))))
      end
  end.

(** [None]: the query is refused by the database and the call throws. *)
Definition getClothingItemsByStore (storeId : string)
  (category : option string) (db : Db) : option (list ClothingItem.t) :=
  match required category with
  | Some category =>
      if isCategory category then
        Some (newest_first ClothingItem.t
                (filter (fun i =>
                           String.eqb (ClothingItem.storeId i) storeId
                           && String.eqb (ClothingItem.category i) category)
                        (clothingItems db)))
      else None
  | None =>
      Some (newest_first ClothingItem.t
              (filter (fun i => String.eqb (ClothingItem.storeId i) storeId)
                      (clothingItems db)))
  end.

(** [where store_id = :storeId and barcode = :barcode]; a null barcode
    equals nothing. *)
Definition getClothingItemByBarcode (storeId barcode : string) (db : Db)
  : option ClothingItem.t :=
  find (fun i => String.eqb (ClothingItem.storeId i) storeId
                 && match ClothingItem.barcode i with
                    | Some b => String.eqb b barcode
                    | None => false
                    end)
       (clothingItems db).

Definition deleteClothingItem (id : string) (db : Db) : unit * Db :=
  (tt, with_clothingItems db
         (filter (fun i => negb (String.eqb (ClothingItem.id i) id))
                 (clothingItems db))).

Definition getQrSession (id : string) (db : Db) : option QrSession.t :=
  find (fun q => String.eqb (QrSession.id q) id) (qrSessions db).

Definition getTryOnHistoryBySession (sessionId : string) (db : Db)
  : list TryOnHistory.t :=
  newest_first TryOnHistory.t
    (filter (fun h => String.eqb (TryOnHistory.customerSessionId h) sessionId)
            (tryOnHistory db)).

Definition getUsageLogs (storeId : string) (db : Db) : list UsageLog.t :=
  newest_first UsageLog.t
    (filter (fun l => String.eqb (UsageLog.storeId l) storeId)
            (usageLogs db)).

Definition getGlobalStats (db : Db) : GlobalStats.t :=
  GlobalStats.mk
    (count (fun _ => true) (stores db))
    (count (fun l => String.eqb (UsageLog.action l) "try_on") (usageLogs db))
    (count (fun _ => true) (customerSessions db))
    (count (fun _ => true) (clothingItems db)).

(** [None]: the call throws. *)
Definition getStoreStats (storeId : string) (db : Db) : option StoreStats.t :=
  match sumTryOnCount storeId db with
  | None => None
  | Some tryOnResult =>
      Some (StoreStats.mk
              (count (fun i => String.eqb (ClothingItem.storeId i) storeId)
                     (clothingItems db))
              (count (fun i => String.eqb (ClothingItem.storeId i) storeId
                               && Bool.eqb (ClothingItem.isAvailable i) true)
                     (clothingItems db))
              tryOnResult
              (count (fun c => String.eqb (CustomerSession.storeId c) storeId)
                     (customerSessions db)))
  end.

(** A route that ends in [res.json(value)]: the value it sends with
    status 200, or the reply of an early return. *)
Definition answer {A : Type} (h : Handler A) (db : Db)
  : (A + Response) * Db :=
  match h db with
  | (Continue a, db') => (inl a, db')
  | (Return r, db') => (inr r, db')
  end.

(** [item.storeId !== req.user?.storeId] *)
Definition not_my_store (item : ClothingItem.t) (user : Claims) : bool :=
  match claim_storeId user with
  | Some storeId => negb (String.eqb (ClothingItem.storeId item) storeId)
  | None => true
  end.

(** GET /api/auth/me *)
Definition get_api_auth_me (authorization : option string) (w : World)
  : Handler UserView :=
  (principal <- authMiddleware authorization w ;;
   user <- query (getUser (claim_id principal)) ;;
   match user with
   | None => reply (refuse 404 "User not found")
   | Some user =>
       storeName <-
         match required (User.storeId user) with
         | Some storeId =>
             store <- query (getStore storeId) ;;
             ret (option_map Store.name store)
         | None => ret None
         end ;;
       ret (mkUserView (User.id user) (User.email user) (User.role user)
                       (User.storeId user) storeName
                       (User.mustResetPassword user))
   end)%handler.

(** GET /api/stores *)
Definition get_api_stores (authorization : option string) (w : World)
  : Handler (list (Store.t * StoreWithStats.stats)) :=
  (principal <- authMiddleware authorization w ;;
   ownerOnlyMiddleware principal ;;;
   allStores <- query getAllStores ;;
   storesWithStats <-
     try_query
       (fun db =>
          all_settled
            (map (fun store =>
                    match getStoreWithStats (Store.id store) db with
                    | None => None
                    | Some storeWithStats =>
                        let users := getUserByEmail (Store.id store) db in
                        let storeStats :=
                          match storeWithStats with
                          | Some sws => StoreWithStats.its_stats sws
                          | None => StoreWithStats.mkStats 0 0 0
                          end in
                        Some (store, storeStats)
                    end)
                 allStores))
       (refuse 500 "Failed to get stores") ;;
   ret storesWithStats)%handler.

(** PATCH /api/stores/:id/toggle-status *)
Definition patch_api_stores_id_toggle_status (authorization : option string)
  (id : string) (w : World) : Handler (option Store.t) :=
  (principal <- authMiddleware authorization w ;;
   ownerOnlyMiddleware principal ;;;
   store <- query (getStore id) ;;
   match store with
   | None => reply (refuse 404 "Store not found")
   | Some store =>
       updated <- attempt (updateStore (Store.id store)
                             (PartialStore.mk None
                                (Some (negb (Store.isActive store)))))
                          (refuse 500 "Failed to toggle store status") ;;
       ret updated
   end)%handler.

(** GET /api/analytics/global *)
Definition get_api_analytics_global (authorization : option string)
  (w : World) : Handler GlobalStats.t :=
  (principal <- authMiddleware authorization w ;;
   ownerOnlyMiddleware principal ;;;
   stats <- query getGlobalStats ;;
   ret stats)%handler.

(** GET /api/store/stats *)
Definition get_api_store_stats (authorization : option string) (w : World)
  : Handler StoreStats.t :=
  (principal <- authMiddleware authorization w ;;
   managerOnlyMiddleware principal ;;;
   match required (claim_storeId principal) with
   | None => reply (refuse 400 "No store associated with this account")
   | Some storeId =>
       stats <- try_query (getStoreStats storeId)
                          (refuse 500 "Failed to get store stats") ;;
       ret stats
   end)%handler.

(** GET /api/store/items *)
Definition get_api_store_items (authorization : option string)
  (category : option string) (w : World) : Handler (list ClothingItem.t) :=
  (principal <- authMiddleware authorization w ;;
   managerOnlyMiddleware principal ;;;
   match required (claim_storeId principal) with
   | None => reply (refuse 400 "No store associated with this account")
   | Some storeId =>
       items <- query (getClothingItemsByStore storeId category) ;;
       match items with
       | None => reply (refuse 500 "Failed to get items")
       | Some items => ret items
       end
   end)%handler.

(** DELETE /api/store/items/:id *)
Definition delete_api_store_items_id (authorization : option string)
  (id : string) (w : World) : Handler Response :=
  (principal <- authMiddleware authorization w ;;
   managerOnlyMiddleware principal ;;;
   item <- query (getClothingItem id) ;;
   match item with
   | None => reply (refuse 404 "Item not found")
   | Some item =>
       reject_if (not_my_store item principal)
                 (refuse 404 "Item not found") ;;;
       exec (deleteClothingItem (ClothingItem.id item)) ;;;
       ret (json (Message "Item deleted"))
   end)%handler.

(** GET /api/customer/clothes *)
Definition get_api_customer_clothes (storeId category : option string)
  : Handler (list ClothingItem.t) :=
  match required storeId with
  | None => reply (refuse 400 "Store ID required")
  | Some storeId =>
      (items <- query (getClothingItemsByStore storeId category) ;;
       match items with
       | None => reply (refuse 500 "Failed to get clothes")
       | Some items =>
           let availableItems := filter ClothingItem.isAvailable items in
           ret availableItems
       end)%handler
  end.

(** POST /api/customer/scan-barcode *)
Definition post_api_customer_scan_barcode (storeId barcode : option string)
  : Handler ClothingItem.t :=
  match required storeId, required barcode with
  | Some storeId, Some barcode =>
      (item <- query (getClothingItemByBarcode storeId barcode) ;;
       match item with
       | None => reply (refuse 404 "Item not found")
       | Some item => ret item
       end)%handler
  | _, _ => reply (refuse 400 "Store ID and barcode required")
  end.

(** The customer's path through the session flow: exchange the token,
    upload one photo under the session id of the answer, ask for one
    try-on under the same id. *)
Definition customer_visit (token : string) (file : UploadedFile)
  (clothingItemId : string) (w0 w1 w2 : World) (db : Db)
  : Response * Response * Response * Db :=
  let (validated, db1) := serve (get_api_qr_token_validate token w0) db in
  let sessionId :=
    match body validated with
    | SessionBody sessionId _ _ _ => Some sessionId
    | _ => None
    end in
  let (uploaded, db2) :=
    serve (post_api_customer_upload_photo sessionId (Some file) w1) db1 in
  let (tried, db3) :=
    serve (post_api_tryon sessionId (Some clothingItemId) w2) db2 in
  (validated, uploaded, tried, db3).

(** A string without a blank, as the compact form of a signed token is. *)
Fixpoint no_space (s : string) : bool :=
  match s with
  | EmptyString => true
  | String c rest => negb (Ascii.eqb c " ") && no_space rest
  end.

(** Unfolds the plumbing of a handler down to its storage calls. *)
Ltac run_handler :=
  unfold serve, bind, query, exec, attempt, reject_if, reply, ret; cbn.

(** ** Tables under [update_where] and [find] *)

Lemma find_update_where {A} (p : A -> bool) (f : A -> A) (rows : list A) :
  (forall r, p (f r) = p r) ->
  find p (update_where p f rows) = option_map f (find p rows).
Proof.
  intros Hp. induction rows as [|r rows IH]; [reflexivity|].
  cbn. destruct (p r) eqn:E.
  - rewrite Hp, E. reflexivity.
  - rewrite E. exact IH.
Qed.

Lemma update_where_twice {A} (p : A -> bool) (f g : A -> A) (rows : list A) :
  (forall r, p (f r) = p r) ->
  update_where p g (update_where p f rows)
  = update_where p (fun r => g (f r)) rows.
Proof.
  intros Hp. unfold update_where. rewrite map_map.
  apply map_ext. intros r. destruct (p r) eqn:E.
  - rewrite Hp, E. reflexivity.
  - rewrite E. reflexivity.
Qed.

Lemma required_some (x : string) :
  x <> EmptyString -> required (Some x) = Some x.
Proof.
  intros Hx. unfold required, falsy.
  destruct (String.eqb_spec x EmptyString); [contradiction|reflexivity].
Qed.

(** ** POST /api/tryon *)

(** C6: a live session without a photo gets "Please upload a photo
    first" whatever item is asked for, and the database is left as it
    was: no history row, no counter change, no usage log. *)
Theorem tryon_without_photo_is_NoPhoto
  (sessionId clothingItemId : string) (w : World) (db : Db)
  (s : CustomerSession.t) :
  sessionId <> EmptyString ->
  clothingItemId <> EmptyString ->
  getCustomerSession sessionId db = Some s ->
  now w < CustomerSession.expiresAt s ->
  falsy (CustomerSession.photoUrl s) = true ->
  let (res, db') :=
    serve (post_api_tryon (Some sessionId) (Some clothingItemId) w) db in
  NoPhoto res /\ db' = db.
Proof.
  intros Hs Hc Hget Hlive Hphoto.
  unfold post_api_tryon.
  rewrite (required_some _ Hs), (required_some _ Hc).
  run_handler. rewrite Hget. cbn.
  replace (CustomerSession.expiresAt s <? now w) with false
    by (symmetry; apply Z.ltb_ge; lia).
  rewrite Hphoto. split; reflexivity.
Qed.


Lemma find_by_id_some {A} (key : A -> string) (id : string)
  (rows : list A) (r : A) :
  find (fun x => String.eqb (key x) id) rows = Some r ->
  In r rows /\ key r = id.
Proof.
  intros H. apply find_some in H. destruct H as [Hin Heq].
  split; [exact Hin | now apply String.eqb_eq].
Qed.

(** The guard of the customer routes lets a request through exactly
    when the session exists and [expiresAt < now] is false. *)
Lemma session_gone_false (session : option CustomerSession.t) (w : World) :
  session_gone session w = false <->
  exists s, session = Some s /\ now w <= CustomerSession.expiresAt s.
Proof.
  destruct session as [s|]; cbn.
  - rewrite Z.ltb_ge. split.
    + intros H. exists s. split; [reflexivity | exact H].
    + intros (s' & E & H). now inversion E; subst.
  - split; [discriminate | intros (s' & E & _); discriminate].
Qed.

(** Strictly after [expiresAt] a try-on is refused with "Session
    expired" and nothing is written, whether or not a photo had been
    attached while the session was live. *)
Lemma tryon_after_expiry_is_Expired
  (sessionId clothingItemId : string) (w : World) (db : Db)
  (s : CustomerSession.t) :
  sessionId <> EmptyString ->
  clothingItemId <> EmptyString ->
  getCustomerSession sessionId db = Some s ->
  CustomerSession.expiresAt s < now w ->
  let (res, db') :=
    serve (post_api_tryon (Some sessionId) (Some clothingItemId) w) db in
  Expired res /\ db' = db.
Proof.
  intros Hs Hc Hget Hlate.
  unfold post_api_tryon.
  rewrite (required_some _ Hs), (required_some _ Hc).
  run_handler. rewrite Hget. cbn.
  apply Z.ltb_lt in Hlate. rewrite Hlate. split; reflexivity.
Qed.

(** C3: for a live session with a photo, an item of another store is
    answered with 404 "Clothing item not found" and no write, and so is
    every item id that is in no row at all. *)
Theorem tryon_cross_tenant_is_NotFound
  (sessionId clothingItemId : string) (w : World) (db : Db)
  (s : CustomerSession.t) (item : ClothingItem.t) :
  sessionId <> EmptyString ->
  clothingItemId <> EmptyString ->
  getCustomerSession sessionId db = Some s ->
  now w < CustomerSession.expiresAt s ->
  falsy (CustomerSession.photoUrl s) = false ->
  getClothingItem clothingItemId db = Some item ->
  ClothingItem.storeId item <> CustomerSession.storeId s ->
  (let (res, db') :=
     serve (post_api_tryon (Some sessionId) (Some clothingItemId) w) db in
   NotFound res /\ db' = db)
  /\ (forall absentId : string,
        absentId <> EmptyString ->
        getClothingItem absentId db = None ->
        serve (post_api_tryon (Some sessionId) (Some absentId) w) db
        = serve (post_api_tryon (Some sessionId) (Some clothingItemId) w) db).
Proof.
  intros Hs Hc Hget Hlive Hphoto Hitem Hstore.
  assert (Hguard : (CustomerSession.expiresAt s <? now w) = false)
    by (apply Z.ltb_ge; lia).
  apply String.eqb_neq in Hstore.
  assert (Hmine :
    serve (post_api_tryon (Some sessionId) (Some clothingItemId) w) db
    = (refuse 404 "Clothing item not found", db)).
  { unfold post_api_tryon.
    rewrite (required_some _ Hs), (required_some _ Hc).
    run_handler. rewrite Hget. cbn. rewrite Hguard, Hphoto, Hitem. cbn.
    rewrite Hstore. reflexivity. }
  split.
  - rewrite Hmine. split; reflexivity.
  - intros absentId Ha Hnone. rewrite Hmine.
    unfold post_api_tryon.
    rewrite (required_some _ Hs), (required_some _ Ha).
    run_handler. rewrite Hget. cbn. rewrite Hguard, Hphoto, Hnone.
    reflexivity.
Qed.

Lemma same_key_same_row {A} (key : A -> string) (rows : list A) (a b : A) :
  NoDup (map key rows) -> In a rows -> In b rows -> key a = key b -> a = b.
Proof.
  induction rows as [|r rows IH]; [contradiction|].
  cbn. intros Hnd Ha Hb Hk. inversion Hnd as [|? ? Hr Hrows]; subst.
  destruct Ha as [->|Ha], Hb as [->|Hb]; auto.
  - exfalso. apply Hr. rewrite Hk. now apply in_map.
  - exfalso. apply Hr. rewrite <- Hk. now apply in_map.
Qed.

Lemma find_finds {A} (p : A -> bool) (rows : list A) (x : A) :
  In x rows -> p x = true -> exists y, find p rows = Some y.
Proof.
  intros Hin Hp. destruct (find p rows) as [y|] eqn:E; [now exists y|].
  rewrite (find_none _ _ E x Hin) in Hp. discriminate.
Qed.

(** With one row per id, a lookup by id finds exactly the rows of the
    table that carry the id. *)
Lemma find_by_unique_id {A} (key : A -> string) (id : string)
  (rows : list A) (r : A) :
  NoDup (map key rows) ->
  (find (fun x => String.eqb (key x) id) rows = Some r
   <-> In r rows /\ key r = id).
Proof.
  intros Hnd. split; [apply find_by_id_some|].
  intros [Hin Hid].
  destruct (find_finds (fun x => String.eqb (key x) id) rows r Hin)
    as (y & Hy); [now apply String.eqb_eq|].
  destruct (find_by_id_some _ _ _ _ Hy) as [Hyin Hyid].
  rewrite Hy. f_equal.
  apply (same_key_same_row key rows); auto. congruence.
Qed.

Lemma incrementTryOnCount_some (id : string) (db : Db) (r : unit * Db) :
  incrementTryOnCount id db = Some r -> r = (tt, counted id db).
Proof.
  unfold incrementTryOnCount. destruct (forallb _ _); [|discriminate].
  intros H. now inversion H.
Qed.

(** Below the largest integer the increment goes through. *)
Lemma incrementTryOnCount_in_range (id : string) (db : Db)
  (item : ClothingItem.t) :
  NoDup (map ClothingItem.id (clothingItems db)) ->
  getClothingItem id db = Some item ->
  ClothingItem.tryOnCount item < int4_max ->
  incrementTryOnCount id db = Some (tt, counted id db).
Proof.
  intros Hnd Hitem Hlt. unfold incrementTryOnCount.
  destruct (find_by_id_some _ _ _ _ Hitem) as [Hin Hid].
  replace (forallb _ (clothingItems db)) with true; [reflexivity|].
  symmetry. apply forallb_forall. intros i Hi.
  destruct (String.eqb_spec (ClothingItem.id i) id) as [E|E]; [|reflexivity].
  assert (i = item)
    by (apply (same_key_same_row ClothingItem.id (clothingItems db));
        auto; congruence).
  subst i. cbn. apply Z.leb_le. lia.
Qed.

(** At the largest integer it throws. *)
Lemma incrementTryOnCount_at_limit (id : string) (db : Db)
  (item : ClothingItem.t) :
  getClothingItem id db = Some item ->
  int4_max <= ClothingItem.tryOnCount item ->
  incrementTryOnCount id db = None.
Proof.
  intros Hitem Hmax. unfold incrementTryOnCount.
  destruct (find_by_id_some _ _ _ _ Hitem) as [Hin Hid].
  destruct (forallb _ (clothingItems db)) eqn:Hall; [|reflexivity].
  rewrite forallb_forall in Hall. specialize (Hall item Hin).
  rewrite Hid, String.eqb_refl in Hall. cbn in Hall.
  apply Z.leb_le in Hall. lia.
Qed.

Lemma getClothingItem_counted (id : string) (db : Db) :
  getClothingItem id (counted id db)
  = option_map ClothingItem.bump (getClothingItem id db).
Proof.
  unfold getClothingItem, counted. cbn.
  apply find_update_where. reflexivity.
Qed.

(** Past the guard of the route ([expiresAt < now] is false), with a
    photo, an item of the session's store whose counter is below the
    largest integer, and no Gemini key, the route answers with the item's
    own image and records the try-on. *)
Lemma tryon_degraded_mode_records
  (sessionId clothingItemId : string) (w : World) (db : Db)
  (s : CustomerSession.t) (item : ClothingItem.t) :
  NoDup (map ClothingItem.id (clothingItems db)) ->
  ClothingItem.tryOnCount item < int4_max ->
  sessionId <> EmptyString ->
  clothingItemId <> EmptyString ->
  getCustomerSession sessionId db = Some s ->
  now w <= CustomerSession.expiresAt s ->
  falsy (CustomerSession.photoUrl s) = false ->
  getClothingItem clothingItemId db = Some item ->
  ClothingItem.storeId item = CustomerSession.storeId s ->
  falsy (GEMINI_API_KEY w) = true ->
  let (res, db') :=
    serve (post_api_tryon (Some sessionId) (Some clothingItemId) w) db in
  res = json (TryOnBody (ClothingItem.imageUrl item)
                (Some "Demo mode - Gemini API key not configured"))
  /\ recorded_once s item (ClothingItem.imageUrl item) db db'.
Proof.
  intros Hnd Hlt Hs Hc Hget Hlive Hphoto Hitem Hstore Hkey.
  assert (Hguard : (CustomerSession.expiresAt s <? now w) = false)
    by (apply Z.ltb_ge; lia).
  destruct (find_by_id_some _ _ _ _ Hitem) as [_ Hid].
  unfold post_api_tryon.
  rewrite (required_some _ Hs), (required_some _ Hc).
  unfold serve, bind at 1, query. rewrite Hget.
  unfold bind at 1, reject_if. cbn [session_gone]. rewrite Hguard.
  unfold bind at 1, ret at 1. rewrite Hphoto.
  unfold bind at 1, ret at 1, query. rewrite Hitem.
  unfold bind at 1. rewrite Hstore, String.eqb_refl. cbn [negb].
  unfold ret at 1. rewrite Hkey.
  unfold record_try_on, bind, exec, attempt, ret.
  destruct (createTryOnHistory _ db) as [h db1] eqn:Hh.
  assert (Hdb1 : db1 = with_tryOnHistory db (tryOnHistory db ++ [h])
                 /\ TryOnHistory.customerSessionId h = CustomerSession.id s
                 /\ TryOnHistory.clothingItemId h = ClothingItem.id item
                 /\ TryOnHistory.resultImageUrl h = ClothingItem.imageUrl item).
  { unfold createTryOnHistory in Hh. inversion Hh. subst h db1.
    repeat split; reflexivity. }
  destruct Hdb1 as (Hdb1 & Hhs & Hhi & Hhr).
  assert (Hitem1 : getClothingItem (ClothingItem.id item) db1 = Some item)
    by (rewrite Hdb1, Hid; exact Hitem).
  assert (Hnd1 : NoDup (map ClothingItem.id (clothingItems db1)))
    by (rewrite Hdb1; exact Hnd).
  rewrite (incrementTryOnCount_in_range _ _ _ Hnd1 Hitem1 Hlt).
  destruct (createUsageLog _ (counted _ db1)) as [l db3] eqn:Hl.
  assert (Hdb3 : db3 = with_usageLogs (counted (ClothingItem.id item) db1)
                         (usageLogs db ++ [l])
                 /\ UsageLog.storeId l = CustomerSession.storeId s
                 /\ UsageLog.action l = "try_on").
  { unfold createUsageLog in Hl. inversion Hl. subst l db3. rewrite Hdb1.
    repeat split; reflexivity. }
  destruct Hdb3 as (Hdb3 & Hls & Hla).
  split; [reflexivity|]. unfold recorded_once.
  rewrite Hdb3, Hdb1.
  split; [exists h; repeat split; auto|].
  split; [reflexivity|].
  split.
  - exists (ClothingItem.bump item). split; [|reflexivity].
    change (getClothingItem (ClothingItem.id item)
              (counted (ClothingItem.id item) db)
            = Some (ClothingItem.bump item)).
    rewrite getClothingItem_counted, Hid, Hitem. reflexivity.
  - split; [exists l; repeat split; auto|].
    repeat split; reflexivity.
Qed.

(** The same request on an item whose counter is at the largest integer:
    the history row is written, the increment throws, and the route
    answers 500 with the counter and the usage logs as they were. *)
Lemma tryon_degraded_mode_at_counter_limit
  (sessionId clothingItemId : string) (w : World) (db : Db)
  (s : CustomerSession.t) (item : ClothingItem.t) :
  int4_max <= ClothingItem.tryOnCount item ->
  sessionId <> EmptyString ->
  clothingItemId <> EmptyString ->
  getCustomerSession sessionId db = Some s ->
  now w <= CustomerSession.expiresAt s ->
  falsy (CustomerSession.photoUrl s) = false ->
  getClothingItem clothingItemId db = Some item ->
  ClothingItem.storeId item = CustomerSession.storeId s ->
  falsy (GEMINI_API_KEY w) = true ->
  let (res, db') :=
    serve (post_api_tryon (Some sessionId) (Some clothingItemId) w) db in
  res = refuse 500 "Failed to generate try-on image"
  /\ (exists h, tryOnHistory db' = (tryOnHistory db ++ [h])%list)
  /\ clothingItems db' = clothingItems db
  /\ usageLogs db' = usageLogs db.
Proof.
  intros Hmax Hs Hc Hget Hlive Hphoto Hitem Hstore Hkey.
  assert (Hguard : (CustomerSession.expiresAt s <? now w) = false)
    by (apply Z.ltb_ge; lia).
  destruct (find_by_id_some _ _ _ _ Hitem) as [_ Hid].
  unfold post_api_tryon.
  rewrite (required_some _ Hs), (required_some _ Hc).
  unfold serve, bind at 1, query. rewrite Hget.
  unfold bind at 1, reject_if. cbn [session_gone]. rewrite Hguard.
  unfold bind at 1, ret at 1. rewrite Hphoto.
  unfold bind at 1, ret at 1, query. rewrite Hitem.
  unfold bind at 1. rewrite Hstore, String.eqb_refl. cbn [negb].
  unfold ret at 1. rewrite Hkey.
  unfold record_try_on, bind, exec, attempt, ret.
  destruct (createTryOnHistory _ db) as [h db1] eqn:Hh.
  assert (Hdb1 : db1 = with_tryOnHistory db (tryOnHistory db ++ [h]))
    by (unfold createTryOnHistory in Hh; now inversion Hh).
  assert (Hitem1 : getClothingItem (ClothingItem.id item) db1 = Some item)
    by (rewrite Hdb1, Hid; exact Hitem).
  rewrite (incrementTryOnCount_at_limit _ _ _ Hitem1 Hmax).
  rewrite Hdb1. split; [reflexivity|].
  split; [exists h; reflexivity|]. split; reflexivity.
Qed.

(** C5, amended: with no Gemini key, a try-on by a live session with a
    photo on an item of its own store, whose counter is below the largest
    integer the column holds (one row per item id), answers 200 with the
    item's own image, and appends one history row for (session, item,
    that image), adds one to the counter of the item, and appends one
    "try_on" usage log; the other tables are untouched. *)
Theorem tryon_degraded_mode_completes
  (sessionId clothingItemId : string) (w : World) (db : Db)
  (s : CustomerSession.t) (item : ClothingItem.t) :
  NoDup (map ClothingItem.id (clothingItems db)) ->
  ClothingItem.tryOnCount item < int4_max ->
  sessionId <> EmptyString ->
  clothingItemId <> EmptyString ->
  getCustomerSession sessionId db = Some s ->
  now w < CustomerSession.expiresAt s ->
  falsy (CustomerSession.photoUrl s) = false ->
  getClothingItem clothingItemId db = Some item ->
  ClothingItem.storeId item = CustomerSession.storeId s ->
  falsy (GEMINI_API_KEY w) = true ->
  let (res, db') :=
    serve (post_api_tryon (Some sessionId) (Some clothingItemId) w) db in
  res = json (TryOnBody (ClothingItem.imageUrl item)
                (Some "Demo mode - Gemini API key not configured"))
  /\ recorded_once s item (ClothingItem.imageUrl item) db db'.
Proof.
  intros Hnd Hlt Hs Hc Hget Hlive.
  apply (tryon_degraded_mode_records _ _ _ _ _ _ Hnd Hlt Hs Hc Hget). lia.
Qed.

(** At the very instant [expiresAt] the guard of the route does not fire:
    the try-on is served and recorded as on a live session. *)
Lemma tryon_served_at_expiry_instant
  (sessionId clothingItemId : string) (w : World) (db : Db)
  (s : CustomerSession.t) (item : ClothingItem.t) :
  NoDup (map ClothingItem.id (clothingItems db)) ->
  ClothingItem.tryOnCount item < int4_max ->
  sessionId <> EmptyString ->
  clothingItemId <> EmptyString ->
  getCustomerSession sessionId db = Some s ->
  now w = CustomerSession.expiresAt s ->
  falsy (CustomerSession.photoUrl s) = false ->
  getClothingItem clothingItemId db = Some item ->
  ClothingItem.storeId item = CustomerSession.storeId s ->
  falsy (GEMINI_API_KEY w) = true ->
  let (res, db') :=
    serve (post_api_tryon (Some sessionId) (Some clothingItemId) w) db in
  res = json (TryOnBody (ClothingItem.imageUrl item)
                (Some "Demo mode - Gemini API key not configured"))
  /\ recorded_once s item (ClothingItem.imageUrl item) db db'.
Proof.
  intros Hnd Hlt Hs Hc Hget Hnow.
  apply (tryon_degraded_mode_records _ _ _ _ _ _ Hnd Hlt Hs Hc Hget). lia.
Qed.

(** ** GET /api/qr/:token/validate *)

Lemma getQrSessionByToken_some (token : string) (clock : Z) (db : Db)
  (q : QrSession.t) :
  getQrSessionByToken token clock db = Some q ->
  In q (qrSessions db) /\ QrSession.token q = token
  /\ clock < QrSession.expiresAt q.
Proof.
  unfold getQrSessionByToken. intros H.
  apply find_some in H. destruct H as [Hin Hp].
  apply andb_true_iff in Hp. destruct Hp as [Ht He].
  apply String.eqb_eq in Ht. apply Z.ltb_lt in He. auto.
Qed.

Lemma getQrSessionByToken_none (token : string) (clock : Z) (db : Db) :
  getQrSessionByToken token clock db = None ->
  forall q, In q (qrSessions db) -> QrSession.token q = token ->
            ~ clock < QrSession.expiresAt q.
Proof.
  unfold getQrSessionByToken. intros H q Hin Ht Hlt.
  pose proof (find_none _ _ H q Hin) as Hq. cbn in Hq.
  rewrite Ht, String.eqb_refl in Hq.
  apply Z.ltb_lt in Hlt. rewrite Hlt in Hq. discriminate.
Qed.

(** With one grant per token, the lookup returns that grant as long as it
    has not expired. *)
Lemma getQrSessionByToken_unique (token : string) (clock : Z) (db : Db)
  (q : QrSession.t) :
  NoDup (map QrSession.token (qrSessions db)) ->
  In q (qrSessions db) ->
  QrSession.token q = token ->
  clock < QrSession.expiresAt q ->
  getQrSessionByToken token clock db = Some q.
Proof.
  unfold getQrSessionByToken. intros Hnd Hin Ht Hlt.
  induction (qrSessions db) as [|x rows IH]; [contradiction|].
  cbn in Hnd. inversion Hnd as [|? ? Hx Hrows]; subst.
  cbn. destruct Hin as [->|Hin].
  - rewrite String.eqb_refl. apply Z.ltb_lt in Hlt. rewrite Hlt. reflexivity.
  - destruct (String.eqb_spec (QrSession.token x) (QrSession.token q)) as [E|_].
    + exfalso. apply Hx. rewrite E. now apply in_map.
    + cbn. now apply IH.
Qed.

Lemma validate_accepts (token : string) (w : World) (db : Db)
  (q : QrSession.t) (store : Store.t) :
  getQrSessionByToken token (now w) db = Some q ->
  getStore (QrSession.storeId q) db = Some store ->
  Store.isActive store = true ->
  serve (get_api_qr_token_validate token w) db
  = (json (SessionBody (CustomerSession.id (session_for q db))
                       (Store.id store) (Store.name store)
                       (QrSession.expiresAt q)),
     with_usageLogs
       (with_customerSessions db (customerSessions db ++ [session_for q db]))
       (usageLogs db ++ [log_for q db])).
Proof.
  intros Hq Hstore Hactive.
  unfold get_api_qr_token_validate. run_handler.
  rewrite Hq. cbn. rewrite Hstore, Hactive. reflexivity.
Qed.

Lemma validate_rejects (token : string) (w : World) (db : Db) :
  (getQrSessionByToken token (now w) db = None
   \/ exists q, getQrSessionByToken token (now w) db = Some q
        /\ (getStore (QrSession.storeId q) db = None
            \/ exists store, getStore (QrSession.storeId q) db = Some store
                 /\ Store.isActive store = false)) ->
  let (res, db') := serve (get_api_qr_token_validate token w) db in
  Rejected res /\ db' = db.
Proof.
  unfold get_api_qr_token_validate.
  intros [Hq | (q & Hq & [Hs | (store & Hs & Ha)])];
    run_handler; rewrite Hq; cbn; try rewrite Hs; try rewrite Ha;
    split; reflexivity.
Qed.

(** The two ways an exchange can end. *)
Lemma validate_cases (token : string) (w : World) (db : Db) :
  (exists q store,
      getQrSessionByToken token (now w) db = Some q
      /\ getStore (QrSession.storeId q) db = Some store
      /\ Store.isActive store = true)
  \/ (Rejected (fst (serve (get_api_qr_token_validate token w) db))
      /\ snd (serve (get_api_qr_token_validate token w) db) = db).
Proof.
  pose proof (validate_rejects token w db) as Hrej.
  destruct (getQrSessionByToken token (now w) db) as [q|] eqn:Hq.
  - destruct (getStore (QrSession.storeId q) db) as [store|] eqn:Hs.
    + destruct (Store.isActive store) eqn:Ha.
      * left. exists q, store. auto.
      * right.
        destruct (serve (get_api_qr_token_validate token w) db) as [r d].
        apply Hrej. right. exists q. split; [reflexivity|].
        right. exists store. auto.
    + right.
      destruct (serve (get_api_qr_token_validate token w) db) as [r d].
      apply Hrej. right. exists q. auto.
  - right.
    destruct (serve (get_api_qr_token_validate token w) db) as [r d].
    apply Hrej. now left.
Qed.

(** With one grant per token and one row per store id, the condition on
    the tables is the condition on the two lookups of the route. *)
Lemma redeemable_by_lookups (token : string) (w : World) (db : Db) :
  NoDup (map QrSession.token (qrSessions db)) ->
  NoDup (map Store.id (stores db)) ->
  (redeemable token w db
   <-> exists q store,
         getQrSessionByToken token (now w) db = Some q
         /\ getStore (QrSession.storeId q) db = Some store
         /\ Store.isActive store = true).
Proof.
  intros Hq Hs. unfold redeemable. split.
  - intros (q & store & Hin & Ht & Hlt & Hsin & Hsid & Ha).
    exists q, store. split; [|split; [|exact Ha]].
    + now apply getQrSessionByToken_unique.
    + apply (find_by_unique_id Store.id _ _ _ Hs). auto.
  - intros (q & store & Hget & Hstore & Ha).
    apply getQrSessionByToken_some in Hget. destruct Hget as (Hin & Ht & Hlt).
    apply (find_by_unique_id Store.id _ _ _ Hs) in Hstore.
    destruct Hstore as [Hsin Hsid].
    exists q, store. auto 6.
Qed.

(** C1: with one grant per token and one row per store id, the exchange
    answers 200 exactly when some grant in the table carries the token
    and has not reached its [expiresAt] and some row of the stores table
    has the grant's store id and is active; a 200 comes with one new
    customer session, and every other answer is a 404 that leaves the
    database as it was. *)
Theorem validate_succeeds_iff_redeemable (token : string) (w : World)
  (db : Db) :
  NoDup (map QrSession.token (qrSessions db)) ->
  NoDup (map Store.id (stores db)) ->
  let (res, db') := serve (get_api_qr_token_validate token w) db in
  (status res = 200 <-> redeemable token w db)
  /\ (status res = 200 ->
      exists cs, customerSessions db' = (customerSessions db ++ [cs])%list)
  /\ (status res <> 200 -> Rejected res /\ db' = db).
Proof.
  intros Hnd Hstores.
  pose proof (redeemable_by_lookups token w db Hnd Hstores) as Hred.
  destruct (validate_cases token w db)
    as [(q & store & Hq & Hs & Ha) | [Hrej Hsame]].
  - rewrite (validate_accepts _ _ _ _ _ Hq Hs Ha). cbn [status json].
    split; [|split].
    + split; [intros _|reflexivity].
      apply Hred. exists q, store. auto.
    + intros _. eexists. reflexivity.
    + intros H. now contradiction H.
  - destruct (serve (get_api_qr_token_validate token w) db) as [res db']
      eqn:Hserve.
    cbn [fst snd] in Hrej, Hsame. subst db'.
    pose proof Hrej as H404. unfold Rejected in H404.
    split; [|split].
    + split; [intros H; rewrite H404 in H; discriminate|].
      intros Hr. apply Hred in Hr.
      destruct Hr as (q & store & Hq & Hs & Ha). exfalso.
      pose proof (validate_accepts _ _ _ _ _ Hq Hs Ha) as Hacc.
      assert (Hres : fst (serve (get_api_qr_token_validate token w) db) = res)
        by (now rewrite Hserve).
      rewrite Hacc in Hres. cbn in Hres. subst res. discriminate.
    + intros H. rewrite H404 in H. discriminate.
    + intros _. split; [exact Hrej | reflexivity].
Qed.

(** ** POST /api/store/qr/generate, then the exchange *)

Lemma find_app_last {A} (p : A -> bool) (rows : list A) (x : A) :
  (forall r, In r rows -> p r = false) ->
  p x = true ->
  find p (rows ++ [x]) = Some x.
Proof.
  intros Hrows Hx. induction rows as [|r rows IH]; cbn.
  - rewrite Hx. reflexivity.
  - rewrite (Hrows r (or_introl eq_refl)).
    apply IH. intros r' Hr'. apply Hrows. now right.
Qed.

Lemma authMiddleware_reads_only (authorization : option string) (w : World)
  (db : Db) :
  snd (authMiddleware authorization w db) = db.
Proof.
  unfold authMiddleware.
  destruct (required authorization) as [h|]; [|reflexivity].
  destruct (negb (startsWith h "Bearer ")); [reflexivity|].
  destruct (nth_error (split " " h) 1) as [t|]; [|reflexivity].
  destruct (jwt_verify t (now w)); reflexivity.
Qed.

Lemma qr_generate_accepts (authorization : option string)
  (protocol host : string) (w : World) (db : Db) (principal : Claims)
  (storeId : string) :
  authMiddleware authorization w db = (Continue principal, db) ->
  claim_role principal = "store_manager" ->
  claim_storeId principal = Some storeId ->
  storeId <> EmptyString ->
  serve (post_api_store_qr_generate authorization protocol host w) db
  = (json (QrBody (QRCode_toDataURL
                     (protocol ++ "://" ++ host ++ "/?session=" ++ randomHex w))
                  (randomHex w) (now w + 60 * 60 * 1000)),
     with_usageLogs
       (with_qrSessions db (qrSessions db ++ [grant_for storeId w db]))
       (usageLogs db
          ++ [UsageLog.mk (newId (map UsageLog.id (usageLogs db)))
                storeId "qr_generated"
                [("sessionId",
                  JString (QrSession.id (grant_for storeId w db)))]])).
Proof.
  intros Hauth Hrole Hsid Hne.
  unfold post_api_store_qr_generate.
  unfold serve, bind at 1. rewrite Hauth.
  unfold managerOnlyMiddleware. rewrite Hrole, Hsid, (required_some _ Hne).
  reflexivity.
Qed.

(** C4: a manager issues a grant for the store of their token at [now w],
    with a token no grant carries yet, and the token is exchanged at
    [now w'].  The grant expires at [now w + 1h].  Whenever the exchange
    answers 200, the customer session it inserts and the answer itself
    carry the grant's expiry, whatever [now w'] is; and it does answer
    200 when the store is active and [now w'] is before that expiry. *)
Theorem issue_then_validate_copies_expiry
  (authorization : option string) (protocol host : string) (w w' : World)
  (db : Db) (principal : Claims) (storeId : string) :
  authMiddleware authorization w db = (Continue principal, db) ->
  claim_role principal = "store_manager" ->
  claim_storeId principal = Some storeId ->
  storeId <> EmptyString ->
  ~ In (randomHex w) (map QrSession.token (qrSessions db)) ->
  let (issued, db1) :=
    serve (post_api_store_qr_generate authorization protocol host w) db in
  let (validated, db2) :=
    serve (get_api_qr_token_validate (randomHex w) w') db1 in
  exists qr : QrSession.t,
    issued = json (QrBody (QRCode_toDataURL
                             (protocol ++ "://" ++ host ++ "/?session="
                                ++ randomHex w))
                          (randomHex w) (QrSession.expiresAt qr))
    /\ qrSessions db1 = (qrSessions db ++ [qr])%list
    /\ QrSession.token qr = randomHex w
    /\ QrSession.expiresAt qr = now w + 60 * 60 * 1000
    /\ (status validated = 200 ->
        exists (cs : CustomerSession.t) (storeName : string),
          validated = json (SessionBody (CustomerSession.id cs) storeId
                                        storeName (QrSession.expiresAt qr))
          /\ customerSessions db2 = (customerSessions db ++ [cs])%list
          /\ CustomerSession.qrSessionId cs = QrSession.id qr
          /\ CustomerSession.expiresAt cs = QrSession.expiresAt qr)
    /\ (forall store,
          getStore storeId db = Some store ->
          Store.isActive store = true ->
          now w' < now w + 60 * 60 * 1000 ->
          status validated = 200).
Proof.
  intros Hauth Hrole Hsid Hne Hfresh.
  rewrite (qr_generate_accepts _ _ _ _ _ _ _ Hauth Hrole Hsid Hne).
  set (qr := grant_for storeId w db).
  set (db1 := with_usageLogs _ _).
  assert (Hold : forall r, In r (qrSessions db) ->
                 (String.eqb (QrSession.token r) (randomHex w)
                  && (now w' <? QrSession.expiresAt r)) = false).
  { intros r Hr. apply andb_false_iff. left. apply String.eqb_neq.
    intros E. apply Hfresh. rewrite <- E. now apply in_map. }
  assert (Hmine : forall q, getQrSessionByToken (randomHex w) (now w') db1
                            = Some q -> q = qr).
  { intros q Hq. apply getQrSessionByToken_some in Hq.
    destruct Hq as (Hin & Ht & Hlt).
    subst db1. cbn [qrSessions with_usageLogs with_qrSessions] in Hin.
    apply in_app_or in Hin. destruct Hin as [Hin|[<-|[]]]; [|reflexivity].
    exfalso. specialize (Hold q Hin).
    rewrite Ht, String.eqb_refl in Hold. apply Z.ltb_lt in Hlt.
    rewrite Hlt in Hold. discriminate. }
  destruct (validate_cases (randomHex w) w' db1)
    as [(q & store & Hq & Hs & Ha) | [Hrej Hsame]].
  - pose proof (Hmine q Hq) as ->.
    rewrite (validate_accepts _ _ _ _ _ Hq Hs Ha).
    exists qr. do 4 (split; [reflexivity|]). split.
    + intros _. exists (session_for qr db1), (Store.name store).
      destruct (find_by_id_some _ _ _ _ Hs) as [_ Hid].
      rewrite Hid. repeat split; reflexivity.
    + intros; reflexivity.
  - destruct (serve (get_api_qr_token_validate (randomHex w) w') db1)
      as [validated db2] eqn:Hserve.
    cbn [fst snd] in Hrej, Hsame. unfold Rejected in Hrej.
    exists qr. do 4 (split; [reflexivity|]). split.
    + intros H200. rewrite Hrej in H200. discriminate.
    + intros store Hs Ha Hsoon. exfalso.
      assert (Hq : getQrSessionByToken (randomHex w) (now w') db1 = Some qr).
      { unfold getQrSessionByToken. subst db1.
        cbn [qrSessions with_usageLogs with_qrSessions].
        apply find_app_last; [exact Hold|].
        subst qr. cbn [grant_for QrSession.token QrSession.expiresAt].
        rewrite String.eqb_refl. apply Z.ltb_lt. lia. }
      assert (Hs1 : getStore (QrSession.storeId qr) db1 = Some store)
        by exact Hs.
      rewrite (validate_accepts _ _ _ _ _ Hq Hs1 Ha) in Hserve.
      inversion Hserve; subst validated. cbn in Hrej. discriminate.
Qed.

(** ** Repeated exchanges of one token *)

Lemma validate_each_accepts (token : string) (q : QrSession.t)
  (store : Store.t) (ws : list World) :
  (forall used, ~ In (newId used) used) ->
  forall db : Db,
    NoDup (map QrSession.token (qrSessions db)) ->
    In q (qrSessions db) ->
    QrSession.token q = token ->
    getStore (QrSession.storeId q) db = Some store ->
    Store.isActive store = true ->
    Forall (fun w => now w < QrSession.expiresAt q) ws ->
    let (rs, db') := validate_each token ws db in
    List.length rs = List.length ws
    /\ Forall (fun r => status r = 200) rs
    /\ qrSessions db' = qrSessions db
    /\ stores db' = stores db
    /\ exists created,
         customerSessions db' = (customerSessions db ++ created)%list
         /\ List.length created = List.length ws
         /\ NoDup (map CustomerSession.id created)
         /\ (forall c, In c created ->
               ~ In (CustomerSession.id c)
                    (map CustomerSession.id (customerSessions db)))
         /\ Forall (fun c => CustomerSession.qrSessionId c = QrSession.id q
                             /\ CustomerSession.expiresAt c
                                = QrSession.expiresAt q) created.
Proof.
  intros Hfresh.
  induction ws as [|w ws IH]; intros db Hnd Hin Ht Hs Ha Hws; subst token.
  - cbn. repeat split; auto. exists []. rewrite app_nil_r.
    repeat split; auto using NoDup_nil.
  - inversion Hws as [|? ? Hw Hws']; subst.
    cbn [validate_each].
    rewrite (validate_accepts _ _ _ _ _
               (getQrSessionByToken_unique _ _ _ _ Hnd Hin eq_refl Hw) Hs Ha).
    set (cs := session_for q db).
    match goal with
    | |- context [validate_each _ _ ?d] => set (db1 := d)
    end.
    specialize (IH db1 Hnd Hin eq_refl Hs Ha Hws').
    destruct (validate_each (QrSession.token q) ws db1) as [rs db2].
    destruct IH as (Hlen & Hok & Hqr & Hst & created & Hcs & Hn & Hdup & Hnew & Hall).
    split; [cbn; now rewrite Hlen|].
    split; [constructor; [reflexivity|exact Hok]|].
    split; [exact Hqr|]. split; [exact Hst|].
    exists (cs :: created).
    assert (Hold : customerSessions db1 = (customerSessions db ++ [cs])%list)
      by reflexivity.
    split; [rewrite Hcs, Hold, <- app_assoc; reflexivity|].
    split; [cbn; now rewrite Hn|].
    split.
    + cbn. constructor; [|exact Hdup].
      intros Hbad. apply in_map_iff in Hbad.
      destruct Hbad as (c & Hc & Hcin).
      apply (Hnew c Hcin). rewrite Hold, map_app, Hc.
      apply in_or_app. right. now left.
    + split.
      * intros c [<-|Hc].
        -- apply Hfresh.
        -- intros Hbad. apply (Hnew c Hc).
           rewrite Hold, map_app. apply in_or_app. now left.
      * constructor; [split; reflexivity|exact Hall].
Qed.

(** C7: while a grant is unexpired and its store active, every exchange
    of its token answers 200 and inserts one more customer session, for
    any number of exchanges; the sessions created have keys distinct from
    one another and from the earlier ones, and the grants are left as
    they were. *)
Theorem validate_does_not_revoke (token : string) (q : QrSession.t)
  (store : Store.t) (ws : list World) (db : Db) :
  (forall used, ~ In (newId used) used) ->
  NoDup (map QrSession.token (qrSessions db)) ->
  In q (qrSessions db) ->
  QrSession.token q = token ->
  getStore (QrSession.storeId q) db = Some store ->
  Store.isActive store = true ->
  Forall (fun w => now w < QrSession.expiresAt q) ws ->
  let (rs, db') := validate_each token ws db in
  List.length rs = List.length ws
  /\ Forall (fun r => status r = 200) rs
  /\ qrSessions db' = qrSessions db
  /\ exists created,
       customerSessions db' = (customerSessions db ++ created)%list
       /\ List.length created = List.length ws
       /\ NoDup (map CustomerSession.id created)
       /\ (forall c, In c created ->
             ~ In (CustomerSession.id c)
                  (map CustomerSession.id (customerSessions db))).
Proof.
  intros Hfresh Hnd Hin Ht Hs Ha Hws.
  pose proof (validate_each_accepts token q store ws Hfresh db
                Hnd Hin Ht Hs Ha Hws) as H.
  destruct (validate_each token ws db) as [rs db'].
  destruct H as (Hlen & Hok & Hqr & _ & created & Hcs & Hn & Hdup & Hnew & _).
  repeat split; auto. exists created. auto.
Qed.

(** ** POST /api/customer/upload-photo *)

Lemma attachPhoto_accepts (sessionId : string) (file : UploadedFile)
  (w : World) (db : Db) (s : CustomerSession.t) :
  sessionId <> EmptyString ->
  getCustomerSession sessionId db = Some s ->
  now w <= CustomerSession.expiresAt s ->
  attachPhoto sessionId file w db
  = (json (PhotoBody (photoRef file)),
     with_customerSessions db
       (update_where (fun c => String.eqb (CustomerSession.id c) sessionId)
          (CustomerSession.set (CustomerSession.mkPartial
                                  (Some (photoRef file))))
          (customerSessions db))).
Proof.
  intros Hne Hget Hlive.
  unfold attachPhoto, post_api_customer_upload_photo.
  rewrite (required_some _ Hne). run_handler. rewrite Hget. cbn.
  replace (CustomerSession.expiresAt s <? now w) with false
    by (symmetry; apply Z.ltb_ge; lia).
  reflexivity.
Qed.

Lemma attachPhoto_refuses (sessionId : string) (file : UploadedFile)
  (w : World) (db : Db) :
  sessionId <> EmptyString ->
  session_gone (getCustomerSession sessionId db) w = true ->
  attachPhoto sessionId file w db = (refuse 401 "Session expired", db).
Proof.
  intros Hne Hgone.
  unfold attachPhoto, post_api_customer_upload_photo.
  rewrite (required_some _ Hne). run_handler. rewrite Hgone. reflexivity.
Qed.

Lemma getCustomerSession_update (sessionId : string)
  (data : CustomerSession.partial) (db : Db) :
  getCustomerSession sessionId
    (with_customerSessions db
       (update_where (fun c => String.eqb (CustomerSession.id c) sessionId)
                     (CustomerSession.set data) (customerSessions db)))
  = option_map (CustomerSession.set data) (getCustomerSession sessionId db).
Proof.
  unfold getCustomerSession. cbn. apply find_update_where. reflexivity.
Qed.

(** C8: on a live session an upload answers 200 and leaves the session
    with the new photo reference and its other columns as they were; a
    second upload replaces the reference, and the database after both is
    the database after the second alone.  Whatever the session id and the
    instant, the answer is the 200, "Session expired", or a 404; the code
    gives "Session expired" for an id without a row too. *)
Theorem attachPhoto_overwrites (sessionId : string)
  (file1 file2 : UploadedFile) (w1 w2 : World) (db : Db)
  (s : CustomerSession.t) :
  sessionId <> EmptyString ->
  getCustomerSession sessionId db = Some s ->
  now w1 < CustomerSession.expiresAt s ->
  now w2 < CustomerSession.expiresAt s ->
  let (res1, db1) := attachPhoto sessionId file1 w1 db in
  let (res2, db2) := attachPhoto sessionId file2 w2 db1 in
  res1 = json (PhotoBody (photoRef file1))
  /\ getCustomerSession sessionId db1
     = Some (CustomerSession.mk (CustomerSession.id s)
               (CustomerSession.qrSessionId s) (CustomerSession.storeId s)
               (CustomerSession.expiresAt s) (Some (photoRef file1)))
  /\ res2 = json (PhotoBody (photoRef file2))
  /\ getCustomerSession sessionId db2
     = Some (CustomerSession.mk (CustomerSession.id s)
               (CustomerSession.qrSessionId s) (CustomerSession.storeId s)
               (CustomerSession.expiresAt s) (Some (photoRef file2)))
  /\ (res2, db2) = attachPhoto sessionId file2 w2 db
  /\ (forall (anyId : string) (file : UploadedFile) (w : World) (db0 : Db),
        anyId <> EmptyString ->
        let res := fst (attachPhoto anyId file w db0) in
        res = json (PhotoBody (photoRef file))
        \/ Expired res \/ SessionNotFound res).
Proof.
  intros Hne Hget Hlive1 Hlive2.
  rewrite (attachPhoto_accepts _ file1 _ _ _ Hne Hget) by lia.
  set (db1 := with_customerSessions db _).
  assert (Hget1 : getCustomerSession sessionId db1
                  = Some (CustomerSession.set
                            (CustomerSession.mkPartial (Some (photoRef file1)))
                            s)).
  { subst db1. rewrite getCustomerSession_update, Hget. reflexivity. }
  rewrite (attachPhoto_accepts _ file2 _ _ _ Hne Hget1) by (cbn; lia).
  rewrite (attachPhoto_accepts _ file2 _ _ _ Hne Hget) by lia.
  split; [reflexivity|].
  split; [exact Hget1|].
  split; [reflexivity|].
  split; [rewrite getCustomerSession_update, Hget1; reflexivity|].
  split.
  - f_equal. subst db1. unfold with_customerSessions.
    cbn [users stores clothingItems qrSessions customerSessions
         tryOnHistory usageLogs].
    f_equal.
    rewrite update_where_twice by reflexivity.
    unfold update_where. apply map_ext. intros r.
    destruct (String.eqb (CustomerSession.id r) sessionId); reflexivity.
  - intros anyId file w db0 Hany.
    destruct (session_gone (getCustomerSession anyId db0) w) eqn:Hgone.
    + rewrite (attachPhoto_refuses _ _ _ _ Hany Hgone).
      right. left. reflexivity.
    + apply session_gone_false in Hgone. destruct Hgone as (s0 & Hs0 & Hle).
      rewrite (attachPhoto_accepts _ _ _ _ _ Hany Hs0 Hle).
      left. reflexivity.
Qed.

(** ** POST /api/auth/login *)

Lemma login_refuses_inactive (raw : RawBody) (w : World) (db : Db)
  (parsed : LoginInput) (u : User.t) :
  loginSchema raw = Some parsed ->
  getUserByEmail (login_email parsed) db = Some u ->
  User.isActive u = false ->
  serve (post_api_auth_login raw w) db
  = (refuse 401 "Invalid credentials", db).
Proof.
  intros Hparse Hu Hinactive.
  unfold post_api_auth_login. rewrite Hparse.
  run_handler. rewrite Hu. cbn. rewrite Hinactive. reflexivity.
Qed.

Lemma login_refuses_wrong_password (raw : RawBody) (w : World) (db : Db)
  (parsed : LoginInput) (u : User.t) :
  loginSchema raw = Some parsed ->
  getUserByEmail (login_email parsed) db = Some u ->
  bcrypt_compare (login_password parsed) (User.password u) = false ->
  serve (post_api_auth_login raw w) db
  = (refuse 401 "Invalid credentials", db).
Proof.
  intros Hparse Hu Hwrong.
  unfold post_api_auth_login. rewrite Hparse.
  run_handler. rewrite Hu. cbn.
  destruct (User.isActive u); cbn; [rewrite Hwrong|]; reflexivity.
Qed.

Lemma login_accepts (raw : RawBody) (w : World) (db : Db)
  (parsed : LoginInput) (u : User.t) :
  loginSchema raw = Some parsed ->
  getUserByEmail (login_email parsed) db = Some u ->
  User.isActive u = true ->
  bcrypt_compare (login_password parsed) (User.password u) = true ->
  exists view,
    serve (post_api_auth_login raw w) db
    = (json (LoginBody
               (jwt_sign (mkClaims (User.id u) (User.email u) (User.role u)
                                   (User.storeId u)) (now w))
               view), db).
Proof.
  intros Hparse Hu Hactive Hright.
  unfold post_api_auth_login. rewrite Hparse.
  run_handler. rewrite Hu. cbn. rewrite Hactive, Hright. cbn.
  destruct (required (User.storeId u)); cbn; eexists; reflexivity.
Qed.

(** C10: a login for an email whose user row is inactive is answered 401
    "Invalid credentials" and writes nothing, whatever the password; the
    answer carries no token, and it is the answer a wrong password for an
    active user gets. *)
Theorem login_inactive_user_is_Unauthorized (raw : RawBody) (w : World)
  (db : Db) (parsed : LoginInput) (u : User.t) :
  loginSchema raw = Some parsed ->
  getUserByEmail (login_email parsed) db = Some u ->
  User.isActive u = false ->
  let (res, db') := serve (post_api_auth_login raw w) db in
  Unauthorized res
  /\ db' = db
  /\ (forall token view, body res <> LoginBody token view)
  /\ (forall (raw' : RawBody) (w' : World) (db0 : Db)
             (parsed' : LoginInput) (u' : User.t),
        loginSchema raw' = Some parsed' ->
        getUserByEmail (login_email parsed') db0 = Some u' ->
        User.isActive u' = true ->
        bcrypt_compare (login_password parsed') (User.password u') = false ->
        fst (serve (post_api_auth_login raw' w') db0) = res).
Proof.
  intros Hparse Hu Hinactive.
  rewrite (login_refuses_inactive _ _ _ _ _ Hparse Hu Hinactive).
  split; [reflexivity|]. split; [reflexivity|]. split.
  - intros token view. discriminate.
  - intros raw' w' db0 parsed' u' Hparse' Hu' _ Hwrong.
    rewrite (login_refuses_wrong_password _ _ _ _ _ Hparse' Hu' Hwrong).
    reflexivity.
Qed.

(** ** Password resets *)

Lemma getUser_updateUser (id : string) (data : User.partial) (db : Db)
  (r : option User.t) (db' : Db) :
  updateUser id data db = Some (r, db') ->
  getUser id db' = option_map (User.set data) (getUser id db).
Proof.
  unfold updateUser. destruct (User.no_values data); [discriminate|].
  intros H. inversion H. subst r db'. clear H.
  unfold getUser. cbn. apply find_update_where. reflexivity.
Qed.

(** A user's own reset with the right current password stores the hash
    of the new password on that user's row, and the new password then
    passes the comparison the login route makes. *)
Lemma self_reset_replaces_hash (authorization : option string)
  (raw : RawBody) (w : World) (db : Db) (principal : Claims)
  (parsed : ResetInput) (u : User.t) :
  (forall salt password,
      bcrypt_compare password (bcrypt_hash salt password) = true) ->
  authMiddleware authorization w db = (Continue principal, db) ->
  resetPasswordSchema raw = Some parsed ->
  getUser (claim_id principal) db = Some u ->
  bcrypt_compare (currentPassword parsed) (User.password u) = true ->
  let (res, db') :=
    serve (post_api_auth_reset_password authorization raw w) db in
  res = json (Message "Password updated successfully")
  /\ exists u',
       getUser (claim_id principal) db' = Some u'
       /\ User.password u' = bcrypt_hash (salt w) (newPassword parsed)
       /\ User.mustResetPassword u' = false
       /\ bcrypt_compare (newPassword parsed) (User.password u') = true.
Proof.
  intros Hbcrypt Hauth Hparse Hu Hright.
  destruct (find_by_id_some _ _ _ _ Hu) as [_ Hid].
  unfold post_api_auth_reset_password.
  unfold serve, bind at 1. rewrite Hauth, Hparse.
  unfold bind at 1, query. rewrite Hu.
  unfold bind at 1, reject_if. rewrite Hright. cbn [negb ret].
  unfold bind, attempt, ret. rewrite Hid.
  destruct (updateUser (claim_id principal) _ db) as [[r db']|] eqn:Hup;
    [|discriminate Hup].
  split; [reflexivity|].
  pose proof (getUser_updateUser _ _ _ _ _ Hup) as Hget.
  rewrite Hu in Hget. cbn in Hget.
  eexists. split; [exact Hget|]. cbn. auto.
Qed.

(** The owner's reset of a store manager's password writes nothing:
    whatever the request, the database after it is the database before
    it, so no user row carries the hash of the temporary password that a
    200 answer returns. *)
Lemma owner_reset_writes_nothing (authorization : option string)
  (id : string) (w : World) (db : Db) :
  snd (serve (post_api_stores_id_reset_password authorization id w) db) = db
  /\ forall store principal,
       authMiddleware authorization w db = (Continue principal, db) ->
       claim_role principal = "company_owner" ->
       getStore id db = Some store ->
       serve (post_api_stores_id_reset_password authorization id w) db
       = (json (TempPasswordBody (randomHex w) "Password reset successfully"),
          db).
Proof.
  split.
  - unfold post_api_stores_id_reset_password, serve, bind at 1.
    pose proof (authMiddleware_reads_only authorization w db) as Hauth.
    destruct (authMiddleware authorization w db) as [[principal|r] db0];
      cbn in Hauth; subst db0; [|reflexivity].
    unfold ownerOnlyMiddleware, bind, reject_if, reply, ret, query.
    destruct (negb _); [reflexivity|].
    destruct (getStore id db); reflexivity.
  - intros store principal Hauth Hrole Hstore.
    unfold post_api_stores_id_reset_password, serve, bind at 1.
    rewrite Hauth. unfold ownerOnlyMiddleware. rewrite Hrole.
    run_handler. rewrite Hstore. reflexivity.
Qed.

(** ** The session flow end to end *)

Lemma find_app_miss {A} (p : A -> bool) (rows : list A) (x : A) :
  p x = false -> find p (rows ++ [x]) = find p rows.
Proof.
  intros Hx. induction rows as [|r rows IH]; cbn.
  - rewrite Hx. reflexivity.
  - destruct (p r); [reflexivity | exact IH].
Qed.

Lemma getCustomerSession_created (ins : CustomerSession.insert) (db : Db) :
  (forall used, ~ In (newId used) used) ->
  let (session, db') := createCustomerSession ins db in
  getCustomerSession (CustomerSession.id session) db' = Some session.
Proof.
  intros Hfresh. unfold createCustomerSession, getCustomerSession.
  cbn [customerSessions with_customerSessions CustomerSession.id].
  apply find_app_last.
  - intros r Hr. apply String.eqb_neq. intros E.
    apply (Hfresh (map CustomerSession.id (customerSessions db))).
    rewrite <- E. now apply in_map.
  - apply String.eqb_refl.
Qed.

(** X1: insert, then look up.  When the database hands out keys that are
    not in use, the session [createCustomerSession] returns is the one
    [getCustomerSession] finds under its id, it has no photo yet, and
    every other id is looked up as before. *)
Theorem createCustomerSession_then_get (ins : CustomerSession.insert)
  (db : Db) :
  (forall used, ~ In (newId used) used) ->
  let (session, db') := createCustomerSession ins db in
  getCustomerSession (CustomerSession.id session) db' = Some session
  /\ CustomerSession.photoUrl session = None
  /\ CustomerSession.expiresAt session = CustomerSession.new_expiresAt ins
  /\ (forall id, id <> CustomerSession.id session ->
        getCustomerSession id db' = getCustomerSession id db).
Proof.
  intros Hfresh.
  pose proof (getCustomerSession_created ins db Hfresh) as Hget.
  unfold createCustomerSession in *.
  split; [exact Hget|]. split; [reflexivity|]. split; [reflexivity|].
  intros id Hid. unfold getCustomerSession.
  cbn [customerSessions with_customerSessions].
  apply find_app_miss. apply String.eqb_neq. congruence.
Qed.

(** X2: the whole visit.  A customer exchanges a redeemable token, uploads
    a photo under the session id of the answer and asks for an item of
    the same store whose counter is below the largest integer (one row
    per item id), all before the grant expires and with no Gemini key:
    the three answers are 200, the session ends up with that photo and
    the grant's expiry, one history row links the session, the item and
    the item's image, and the item's counter has gone up by one. *)
Theorem customer_visit_records_one_try_on (token : string)
  (file : UploadedFile) (clothingItemId : string) (w0 w1 w2 : World)
  (db : Db) (q : QrSession.t) (store : Store.t) (item : ClothingItem.t) :
  (forall used, ~ In (newId used) used) ->
  (forall used, newId used <> EmptyString) ->
  NoDup (map QrSession.token (qrSessions db)) ->
  In q (qrSessions db) ->
  QrSession.token q = token ->
  getStore (QrSession.storeId q) db = Some store ->
  Store.isActive store = true ->
  now w0 < QrSession.expiresAt q ->
  now w1 < QrSession.expiresAt q ->
  now w2 < QrSession.expiresAt q ->
  clothingItemId <> EmptyString ->
  getClothingItem clothingItemId db = Some item ->
  ClothingItem.storeId item = QrSession.storeId q ->
  NoDup (map ClothingItem.id (clothingItems db)) ->
  ClothingItem.tryOnCount item < int4_max ->
  falsy (GEMINI_API_KEY w2) = true ->
  let '(validated, uploaded, tried, db') :=
    customer_visit token file clothingItemId w0 w1 w2 db in
  exists sessionId,
    validated = json (SessionBody sessionId (Store.id store)
                                  (Store.name store) (QrSession.expiresAt q))
    /\ uploaded = json (PhotoBody (photoRef file))
    /\ tried = json (TryOnBody (ClothingItem.imageUrl item)
                       (Some "Demo mode - Gemini API key not configured"))
    /\ getCustomerSession sessionId db'
       = Some (CustomerSession.mk sessionId (QrSession.id q)
                 (QrSession.storeId q) (QrSession.expiresAt q)
                 (Some (photoRef file)))
    /\ (exists h,
          tryOnHistory db' = (tryOnHistory db ++ [h])%list
          /\ TryOnHistory.customerSessionId h = sessionId
          /\ TryOnHistory.clothingItemId h = clothingItemId
          /\ TryOnHistory.resultImageUrl h = ClothingItem.imageUrl item)
    /\ (exists item',
          getClothingItem clothingItemId db' = Some item'
          /\ ClothingItem.tryOnCount item' = ClothingItem.tryOnCount item + 1).
Proof.
  intros Hfresh Hkey Hnd Hin Ht Hs Ha H0 H1 H2 Hc Hitem Hstore Hitems Hlt
    Hnokey.
  unfold customer_visit.
  rewrite (validate_accepts _ _ _ _ _
             (getQrSessionByToken_unique _ _ _ _ Hnd Hin Ht H0) Hs Ha).
  cbn [body json].
  set (cs := session_for q db).
  set (db1 := with_usageLogs _ _).
  assert (Hsid : CustomerSession.id cs <> EmptyString) by apply Hkey.
  assert (Hget1 : getCustomerSession (CustomerSession.id cs) db1 = Some cs).
  { pose proof (getCustomerSession_created
                  (CustomerSession.mkInsert (QrSession.id q)
                     (QrSession.storeId q) (QrSession.expiresAt q))
                  db Hfresh) as H.
    exact H. }
  pose proof (attachPhoto_accepts _ file w1 _ _ Hsid Hget1) as Hup.
  unfold attachPhoto in Hup. rewrite Hup by (cbn; lia). clear Hup.
  set (photo := CustomerSession.mkPartial (Some (photoRef file))).
  set (db2 := with_customerSessions db1 _).
  assert (Hget2 : getCustomerSession (CustomerSession.id cs) db2
                  = Some (CustomerSession.set photo cs)).
  { subst db2. rewrite getCustomerSession_update, Hget1. reflexivity. }
  assert (Hitem2 : getClothingItem clothingItemId db2 = Some item)
    by exact Hitem.
  assert (Hitems2 : NoDup (map ClothingItem.id (clothingItems db2)))
    by exact Hitems.
  pose proof (tryon_degraded_mode_records
                (CustomerSession.id cs) clothingItemId w2 db2
                (CustomerSession.set photo cs) item
                Hitems2 Hlt Hsid Hc Hget2) as Htry.
  destruct (serve (post_api_tryon (Some (CustomerSession.id cs))
                     (Some clothingItemId) w2) db2) as [tried db3].
  destruct Htry as (Htried & (h & Hh & Hhs & Hhi & Hhr) & _
                    & (item' & Hitem' & Hcount) & _ & _ & _ & _ & Hcs3);
    try solve [cbn; lia | reflexivity | assumption].
  destruct (find_by_id_some _ _ _ _ Hitem) as [_ Hid].
  exists (CustomerSession.id cs).
  split; [reflexivity|]. split; [reflexivity|]. split; [exact Htried|].
  split.
  - unfold getCustomerSession in *. rewrite Hcs3. exact Hget2.
  - split.
    + exists h. rewrite Hhi, Hid. auto.
    + exists item'. rewrite <- Hid. auto.
Qed.

(** ** PATCH /api/stores/:id/toggle-status *)

Lemma authMiddleware_any_db (authorization : option string) (w : World)
  (db db' : Db) (principal : Claims) :
  authMiddleware authorization w db = (Continue principal, db) ->
  authMiddleware authorization w db' = (Continue principal, db').
Proof.
  unfold authMiddleware.
  destruct (required authorization) as [h|]; [|discriminate].
  destruct (negb (startsWith h "Bearer ")); [discriminate|].
  destruct (nth_error (split " " h) 1) as [t|]; [|discriminate].
  destruct (jwt_verify t (now w)); [|discriminate].
  unfold ret. intros H. inversion H. reflexivity.
Qed.

Lemma toggle_status_accepts (authorization : option string) (id : string)
  (w : World) (db : Db) (principal : Claims) (store : Store.t) :
  authMiddleware authorization w db = (Continue principal, db) ->
  claim_role principal = "company_owner" ->
  getStore id db = Some store ->
  answer (patch_api_stores_id_toggle_status authorization id w) db
  = (inl (Some (Store.mk (Store.id store) (Store.name store)
                         (negb (Store.isActive store)))),
     with_stores db
       (update_where (fun s => String.eqb (Store.id s) id)
          (PartialStore.set
             (PartialStore.mk None (Some (negb (Store.isActive store)))))
          (stores db))).
Proof.
  intros Hauth Hrole Hstore.
  destruct (find_by_id_some _ _ _ _ Hstore) as [_ Hid]. subst id.
  unfold patch_api_stores_id_toggle_status, answer, bind at 1.
  rewrite Hauth. unfold ownerOnlyMiddleware. rewrite Hrole.
  unfold bind, query, attempt, reject_if, reply, ret.
  cbn [String.eqb negb Ascii.eqb Bool.eqb].
  rewrite Hstore. unfold updateStore.
  cbn [PartialStore.no_values PartialStore.set_name
       PartialStore.set_isActive].
  replace (getStore (Store.id store) (with_stores db _))
    with (Some (Store.mk (Store.id store) (Store.name store)
                         (negb (Store.isActive store)))); [reflexivity|].
  unfold getStore. cbn [stores with_stores].
  rewrite find_update_where by reflexivity.
  unfold getStore in Hstore. rewrite Hstore. reflexivity.
Qed.

(** X3: toggling a store's status twice gives the database back.  With
    one row per store id, the owner's first toggle answers the store with
    its flag flipped, the second answers the store as it was, and after
    the two the database is the one before them. *)
Theorem toggle_status_twice_restores (authorization : option string)
  (id : string) (w1 w2 : World) (db : Db) (principal1 principal2 : Claims)
  (store : Store.t) :
  authMiddleware authorization w1 db = (Continue principal1, db) ->
  authMiddleware authorization w2 db = (Continue principal2, db) ->
  claim_role principal1 = "company_owner" ->
  claim_role principal2 = "company_owner" ->
  NoDup (map Store.id (stores db)) ->
  getStore id db = Some store ->
  let (first, db1) :=
    answer (patch_api_stores_id_toggle_status authorization id w1) db in
  let (second, db2) :=
    answer (patch_api_stores_id_toggle_status authorization id w2) db1 in
  first = inl (Some (Store.mk (Store.id store) (Store.name store)
                              (negb (Store.isActive store))))
  /\ second = inl (Some store)
  /\ db2 = db.
Proof.
  intros Hauth1 Hauth2 Hrole1 Hrole2 Hnd Hstore.
  rewrite (toggle_status_accepts _ _ _ _ _ _ Hauth1 Hrole1 Hstore).
  set (flip := PartialStore.set
                 (PartialStore.mk None (Some (negb (Store.isActive store))))).
  set (db1 := with_stores db _).
  assert (Hstore1 : getStore id db1 = Some (flip store)).
  { unfold getStore. subst db1. cbn [stores with_stores].
    rewrite find_update_where by reflexivity.
    unfold getStore in Hstore. rewrite Hstore. reflexivity. }
  rewrite (toggle_status_accepts _ _ _ _ _ _
             (authMiddleware_any_db _ _ _ db1 _ Hauth2) Hrole2 Hstore1).
  split; [reflexivity|]. split.
  - subst flip. cbn. rewrite negb_involutive. destruct store; reflexivity.
  - subst db1. unfold with_stores.
    cbn [users stores clothingItems qrSessions customerSessions
         tryOnHistory usageLogs].
    rewrite update_where_twice by reflexivity.
    destruct db as [us ss cis qs css hs ls].
    cbn [users stores clothingItems qrSessions customerSessions
         tryOnHistory usageLogs] in *.
    f_equal. unfold update_where.
    rewrite <- (map_id ss) at 2. apply map_ext_in. intros r Hr.
    destruct (String.eqb_spec (Store.id r) id) as [E|_]; [|reflexivity].
    destruct (find_by_id_some _ _ _ _ Hstore) as [Hin Hid].
    assert (r = store)
      by (apply (same_key_same_row Store.id ss); auto; congruence).
    subst r flip. cbn. rewrite negb_involutive. destruct store; reflexivity.
Qed.

Lemma validate_store_unavailable (token : string) (w : World) (db : Db)
  (q : QrSession.t) (store : Store.t) :
  getQrSessionByToken token (now w) db = Some q ->
  getStore (QrSession.storeId q) db = Some store ->
  Store.isActive store = false ->
  serve (get_api_qr_token_validate token w) db
  = (refuse 404 "Store not available", db).
Proof.
  intros Hq Hs Ha. unfold get_api_qr_token_validate. run_handler.
  rewrite Hq. cbn. rewrite Hs, Ha. reflexivity.
Qed.

(** X4: a store that is switched off no longer lets tokens in.  A token
    the exchange accepts stops being accepted as soon as the owner has
    toggled its (active) store: the exchange then answers 404 "Store not
    available" and writes nothing. *)
Theorem deactivated_store_rejects_validation (authorization : option string)
  (w w' : World) (db : Db) (principal : Claims) (token : string)
  (q : QrSession.t) (store : Store.t) :
  authMiddleware authorization w db = (Continue principal, db) ->
  claim_role principal = "company_owner" ->
  getQrSessionByToken token (now w') db = Some q ->
  getStore (QrSession.storeId q) db = Some store ->
  Store.isActive store = true ->
  status (fst (serve (get_api_qr_token_validate token w') db)) = 200
  /\ let (_, db1) :=
       answer (patch_api_stores_id_toggle_status authorization
                 (QrSession.storeId q) w) db in
     serve (get_api_qr_token_validate token w') db1
     = (refuse 404 "Store not available", db1).
Proof.
  intros Hauth Hrole Hq Hs Ha. split.
  - rewrite (validate_accepts _ _ _ _ _ Hq Hs Ha). reflexivity.
  - rewrite (toggle_status_accepts _ _ _ _ _ _ Hauth Hrole Hs).
    set (db1 := with_stores db _).
    assert (Hq1 : getQrSessionByToken token (now w') db1 = Some q)
      by exact Hq.
    assert (Hs1 : getStore (QrSession.storeId q) db1
                  = Some (Store.mk (Store.id store) (Store.name store) false)).
    { unfold getStore. subst db1. cbn [stores with_stores].
      rewrite find_update_where by reflexivity.
      unfold getStore in Hs. rewrite Hs. cbn. rewrite Ha. reflexivity. }
    exact (validate_store_unavailable _ _ _ _ _ Hq1 Hs1 eq_refl).
Qed.

Lemma record_try_on_with_stores (session : CustomerSession.t)
  (clothingItem : ClothingItem.t) (resultImageUrl : string)
  (metadata : JsonObject) (db : Db) (l : list Store.t) :
  record_try_on session clothingItem resultImageUrl metadata
    (with_stores db l)
  = (let (r, db') :=
       record_try_on session clothingItem resultImageUrl metadata db in
     (r, with_stores db' l)).
Proof.
  destruct db as [us ss cis qs css hs ls].
  unfold record_try_on, bind, exec, attempt, ret, createTryOnHistory,
    createUsageLog, incrementTryOnCount. cbn.
  destruct (forallb _ cis); reflexivity.
Qed.

(** X5: the try-on and upload routes never look at the stores.  Whatever
    rows the stores table holds (a store switched off, renamed, missing),
    their answers are the same and they write the same rows. *)
Theorem customer_routes_ignore_stores (sessionId clothingItemId : option string)
  (file : option UploadedFile) (w : World) (db : Db) (l : list Store.t) :
  serve (post_api_tryon sessionId clothingItemId w) (with_stores db l)
  = (let (r, db') := serve (post_api_tryon sessionId clothingItemId w) db in
     (r, with_stores db' l))
  /\ serve (post_api_customer_upload_photo sessionId file w)
           (with_stores db l)
     = (let (r, db') :=
          serve (post_api_customer_upload_photo sessionId file w) db in
        (r, with_stores db' l)).
Proof.
  split.
  - unfold post_api_tryon.
    destruct (required sessionId) as [sid|]; [|reflexivity].
    destruct (required clothingItemId) as [cid|]; [|reflexivity].
    unfold serve, bind, query, exec, reject_if, reply, ret.
    change (getCustomerSession sid (with_stores db l))
      with (getCustomerSession sid db).
    destruct (getCustomerSession sid db) as [s|]; [|reflexivity].
    cbn [session_gone].
    destruct (CustomerSession.expiresAt s <? now w); [reflexivity|].
    destruct (falsy (CustomerSession.photoUrl s)); [reflexivity|].
    change (getClothingItem cid (with_stores db l))
      with (getClothingItem cid db).
    destruct (getClothingItem cid db) as [i|]; [|reflexivity].
    destruct (negb _); [reflexivity|].
    destruct (falsy (GEMINI_API_KEY w)).
    + rewrite record_try_on_with_stores.
      destruct (record_try_on _ _ _ _ db) as [[u|r] d]; reflexivity.
    + destruct (generateTryOnImage _ _ _); [|reflexivity].
      rewrite record_try_on_with_stores.
      destruct (record_try_on _ _ _ _ db) as [[u|r] d]; reflexivity.
  - unfold post_api_customer_upload_photo.
    destruct (required sessionId) as [sid|]; [|reflexivity].
    unfold serve, bind, query, exec, reject_if, reply, ret.
    change (getCustomerSession sid (with_stores db l))
      with (getCustomerSession sid db).
    destruct (getCustomerSession sid db) as [s|]; [|reflexivity].
    cbn [session_gone].
    destruct (CustomerSession.expiresAt s <? now w); [reflexivity|].
    destruct file; [|reflexivity].
    unfold attempt, updateCustomerSession. reflexivity.
Qed.

(** ** Who may call the staff routes *)

(** X6: without a token that verifies, no staff route runs: each of them
    hands back the reply of the authentication step and writes nothing. *)
Theorem staff_routes_need_a_token (authorization : option string)
  (id protocol host : string) (category : option string) (raw : RawBody)
  (w : World) (db : Db) (r : Response) :
  authMiddleware authorization w db = (Return r, db) ->
  answer (get_api_auth_me authorization w) db = (inr r, db)
  /\ serve (post_api_auth_reset_password authorization raw w) db = (r, db)
  /\ answer (get_api_stores authorization w) db = (inr r, db)
  /\ answer (patch_api_stores_id_toggle_status authorization id w) db
     = (inr r, db)
  /\ serve (post_api_stores_id_reset_password authorization id w) db = (r, db)
  /\ answer (get_api_analytics_global authorization w) db = (inr r, db)
  /\ answer (get_api_store_stats authorization w) db = (inr r, db)
  /\ answer (get_api_store_items authorization category w) db = (inr r, db)
  /\ serve (delete_api_store_items_id authorization id w) db = (r, db)
  /\ serve (post_api_store_qr_generate authorization protocol host w) db
     = (r, db).
Proof.
  intros Hauth.
  unfold get_api_auth_me, post_api_auth_reset_password, get_api_stores,
    patch_api_stores_id_toggle_status, post_api_stores_id_reset_password,
    get_api_analytics_global, get_api_store_stats, get_api_store_items,
    delete_api_store_items_id, post_api_store_qr_generate.
  unfold answer, serve, bind at 1 3 5 7 9 11 13 15 17 19.
  repeat split; unfold bind at 1; rewrite Hauth; reflexivity.
Qed.

(** X7: the owner's routes are closed to every other role.  A verified
    token whose role is not "company_owner" gets 403 "Access denied" from
    each of them, and nothing is written. *)
Theorem owner_routes_refuse_other_roles (authorization : option string)
  (id : string) (w : World) (db : Db) (principal : Claims) :
  authMiddleware authorization w db = (Continue principal, db) ->
  claim_role principal <> "company_owner" ->
  answer (get_api_stores authorization w) db
  = (inr (refuse 403 "Access denied"), db)
  /\ answer (patch_api_stores_id_toggle_status authorization id w) db
     = (inr (refuse 403 "Access denied"), db)
  /\ serve (post_api_stores_id_reset_password authorization id w) db
     = (refuse 403 "Access denied", db)
  /\ answer (get_api_analytics_global authorization w) db
     = (inr (refuse 403 "Access denied"), db).
Proof.
  intros Hauth Hrole. apply String.eqb_neq in Hrole.
  unfold get_api_stores, patch_api_stores_id_toggle_status,
    post_api_stores_id_reset_password, get_api_analytics_global.
  repeat split; unfold answer, serve, bind at 1; rewrite Hauth;
    unfold ownerOnlyMiddleware, bind, reject_if, reply;
    rewrite Hrole; reflexivity.
Qed.

(** X8: the manager's routes are closed to every other role, the owner
    included: a verified token whose role is not "store_manager" gets 403
    "Access denied" from each of them, and nothing is written. *)
Theorem manager_routes_refuse_other_roles (authorization : option string)
  (id protocol host : string) (category : option string) (w : World)
  (db : Db) (principal : Claims) :
  authMiddleware authorization w db = (Continue principal, db) ->
  claim_role principal <> "store_manager" ->
  answer (get_api_store_stats authorization w) db
  = (inr (refuse 403 "Access denied"), db)
  /\ answer (get_api_store_items authorization category w) db
     = (inr (refuse 403 "Access denied"), db)
  /\ serve (delete_api_store_items_id authorization id w) db
     = (refuse 403 "Access denied", db)
  /\ serve (post_api_store_qr_generate authorization protocol host w) db
     = (refuse 403 "Access denied", db).
Proof.
  intros Hauth Hrole. apply String.eqb_neq in Hrole.
  unfold get_api_store_stats, get_api_store_items,
    delete_api_store_items_id, post_api_store_qr_generate.
  repeat split; unfold answer, serve, bind at 1; rewrite Hauth;
    unfold managerOnlyMiddleware, bind, reject_if, reply;
    rewrite Hrole; reflexivity.
Qed.

(** ** What a customer can see of the inventory *)

Lemma filter_Permutation {A} (p : A -> bool) (l l' : list A) :
  Permutation l l' -> Permutation (filter p l) (filter p l').
Proof.
  induction 1 as [|x l l' _ IH|x y l|l l' l'' _ IH1 _ IH2]; cbn.
  - constructor.
  - destruct (p x); [now constructor | exact IH].
  - destruct (p x), (p y); try reflexivity. constructor.
  - now transitivity (filter p l').
Qed.

Lemma filter_filter {A} (p q : A -> bool) (l : list A) :
  filter q (filter p l) = filter (fun x => p x && q x) l.
Proof.
  induction l as [|x l IH]; [reflexivity|]. cbn.
  destruct (p x); cbn; [destruct (q x); now rewrite IH | exact IH].
Qed.

(** X9: the barcode scan is scoped to the store it is asked about.  It
    writes nothing; an item it answers is a row of that store carrying
    that barcode; and it answers 404 "Item not found" only when the store
    has no row with that barcode, whatever other stores hold. *)
Theorem scan_barcode_is_scoped (storeId barcode : string) (db : Db) :
  storeId <> EmptyString ->
  barcode <> EmptyString ->
  let (r, db') :=
    answer (post_api_customer_scan_barcode (Some storeId) (Some barcode)) db in
  db' = db
  /\ match r with
     | inl item =>
         In item (clothingItems db)
         /\ ClothingItem.storeId item = storeId
         /\ ClothingItem.barcode item = Some barcode
     | inr res =>
         res = refuse 404 "Item not found"
         /\ forall i, In i (clothingItems db) ->
                      ClothingItem.storeId i = storeId ->
                      ClothingItem.barcode i <> Some barcode
     end.
Proof.
  intros Hs Hb. unfold post_api_customer_scan_barcode.
  rewrite (required_some _ Hs), (required_some _ Hb).
  unfold answer, bind, query, reply, ret.
  unfold getClothingItemByBarcode.
  destruct (find _ (clothingItems db)) as [item|] eqn:Hfind.
  - split; [reflexivity|]. apply find_some in Hfind.
    destruct Hfind as [Hin Hp]. apply andb_true_iff in Hp.
    destruct Hp as [Hst Hbc]. apply String.eqb_eq in Hst.
    destruct (ClothingItem.barcode item) as [b|]; [|discriminate].
    apply String.eqb_eq in Hbc. subst b. auto.
  - split; [reflexivity|]. split; [reflexivity|].
    intros i Hin Hst Hbc.
    pose proof (find_none _ _ Hfind i Hin) as Hp. cbn in Hp.
    rewrite Hst, Hbc, !String.eqb_refl in Hp. discriminate.
Qed.

(** X10: what the listing shows.  For a category that is absent or a
    label of the enum, GET /api/customer/clothes answers a rearrangement
    of exactly the rows of the store that are available (and of that
    category, if one is given), and writes nothing; for any other
    category it answers 500. *)
Theorem customer_clothes_lists_available (storeId : string)
  (category : option string) (db : Db) :
  (forall A (l : list A), Permutation (newest_first A l) l) ->
  storeId <> EmptyString ->
  let (r, db') :=
    answer (get_api_customer_clothes (Some storeId) category) db in
  db' = db
  /\ match required category with
     | Some c =>
         if isCategory c then
           exists items,
             r = inl items
             /\ Permutation items
                  (filter (fun i =>
                             String.eqb (ClothingItem.storeId i) storeId
                             && String.eqb (ClothingItem.category i) c
                             && ClothingItem.isAvailable i)
                          (clothingItems db))
         else r = inr (refuse 500 "Failed to get clothes")
     | None =>
         exists items,
           r = inl items
           /\ Permutation items
                (filter (fun i =>
                           String.eqb (ClothingItem.storeId i) storeId
                           && ClothingItem.isAvailable i)
                        (clothingItems db))
     end.
Proof.
  intros Hperm Hs. unfold get_api_customer_clothes.
  rewrite (required_some _ Hs).
  unfold answer, bind, query, reply, ret, getClothingItemsByStore.
  destruct (required category) as [c|].
  - destruct (isCategory c).
    + split; [reflexivity|]. eexists. split; [reflexivity|].
      etransitivity; [apply filter_Permutation, Hperm|].
      rewrite filter_filter. reflexivity.
    + split; reflexivity.
  - split; [reflexivity|]. eexists. split; [reflexivity|].
    etransitivity; [apply filter_Permutation, Hperm|].
    rewrite filter_filter. reflexivity.
Qed.

Lemma customer_clothes_shape (storeId : string) (category : option string)
  (db : Db) :
  storeId <> EmptyString ->
  forall items,
    fst (answer (get_api_customer_clothes (Some storeId) category) db)
    = inl items ->
    exists rows, inl items = inl (A:=list ClothingItem.t) (B:=Response)
                               (filter ClothingItem.isAvailable rows).
Proof.
  intros Hs items. unfold get_api_customer_clothes.
  rewrite (required_some _ Hs).
  unfold answer, bind, query, reply, ret.
  destruct (getClothingItemsByStore storeId category db) as [rows|]; cbn.
  - intros H. exists rows. now rewrite <- H.
  - discriminate.
Qed.

(** X11: the scan does not look at availability.  An item that is marked
    unavailable is answered by the scan of its barcode, although no
    listing of GET /api/customer/clothes contains it. *)
Theorem scan_answers_unavailable_items (storeId barcode : string)
  (category : option string) (db : Db) (item : ClothingItem.t) :
  storeId <> EmptyString ->
  barcode <> EmptyString ->
  getClothingItemByBarcode storeId barcode db = Some item ->
  ClothingItem.isAvailable item = false ->
  answer (post_api_customer_scan_barcode (Some storeId) (Some barcode)) db
  = (inl item, db)
  /\ forall items,
       fst (answer (get_api_customer_clothes (Some storeId) category) db)
       = inl items ->
       ~ In item items.
Proof.
  intros Hs Hb Hscan Hoff. split.
  - unfold post_api_customer_scan_barcode.
    rewrite (required_some _ Hs), (required_some _ Hb).
    unfold answer, bind, query, ret. rewrite Hscan. reflexivity.
  - intros items Hitems Hin.
    destruct (customer_clothes_shape storeId category db Hs items Hitems)
      as (rows & Hrows).
    inversion Hrows; subst items.
    apply filter_In in Hin. destruct Hin as [_ Hon].
    rewrite Hoff in Hon. discriminate.
Qed.

(** ** DELETE /api/store/items/:id *)

Lemma getClothingItem_deleteClothingItem (id other : string) (db : Db) :
  getClothingItem other (snd (deleteClothingItem id db))
  = if String.eqb other id then None else getClothingItem other db.
Proof.
  unfold getClothingItem, deleteClothingItem.
  cbn [snd clothingItems with_clothingItems].
  induction (clothingItems db) as [|r rows IH]; cbn.
  - destruct (String.eqb other id); reflexivity.
  - destruct (String.eqb_spec (ClothingItem.id r) id) as [E|E]; cbn.
    + rewrite IH. destruct (String.eqb_spec other id) as [E'|E'];
        [reflexivity|].
      destruct (String.eqb_spec (ClothingItem.id r) other); [congruence|].
      reflexivity.
    + destruct (String.eqb_spec (ClothingItem.id r) other) as [E'|E'].
      * destruct (String.eqb_spec other id); [congruence|reflexivity].
      * exact IH.
Qed.

(** X12: a manager cannot delete another store's item.  For an item whose
    store is not the store of the manager's token the route answers 404
    "Item not found" and writes nothing, which is also what it does for
    an id that has no row. *)
Theorem delete_item_cross_tenant_is_not_found (authorization : option string)
  (id : string) (w : World) (db : Db) (principal : Claims)
  (item : ClothingItem.t) :
  authMiddleware authorization w db = (Continue principal, db) ->
  claim_role principal = "store_manager" ->
  getClothingItem id db = Some item ->
  claim_storeId principal <> Some (ClothingItem.storeId item) ->
  serve (delete_api_store_items_id authorization id w) db
  = (refuse 404 "Item not found", db)
  /\ forall absentId,
       getClothingItem absentId db = None ->
       serve (delete_api_store_items_id authorization absentId w) db
       = (refuse 404 "Item not found", db).
Proof.
  intros Hauth Hrole Hitem Hother.
  unfold delete_api_store_items_id. split.
  - unfold serve, bind at 1. rewrite Hauth.
    unfold managerOnlyMiddleware. rewrite Hrole.
    unfold bind, query, exec, reject_if, reply, ret.
    cbn [String.eqb negb Ascii.eqb Bool.eqb]. rewrite Hitem.
    unfold not_my_store.
    destruct (claim_storeId principal) as [sid|]; [|reflexivity].
    destruct (String.eqb_spec (ClothingItem.storeId item) sid) as [E|_];
      [|reflexivity].
    exfalso. apply Hother. now rewrite E.
  - intros absentId Habsent.
    unfold serve, bind at 1. rewrite Hauth.
    unfold managerOnlyMiddleware. rewrite Hrole.
    unfold bind, query, exec, reject_if, reply, ret.
    cbn [String.eqb negb Ascii.eqb Bool.eqb]. rewrite Habsent. reflexivity.
Qed.

(** X13: deleting an item of one's own store, when no history row refers
    to it (what a delete does to rows that refer to the item is for the
    schema to say).  The route answers 200 "Item deleted"; afterwards the
    id has no row, every other id is looked up as before, no try-on for
    the id is served any more, and the other tables are as they were. *)
Theorem delete_item_removes_it (authorization : option string)
  (id : string) (w w' : World) (db : Db) (principal : Claims)
  (item : ClothingItem.t) (sessionId : option string) :
  authMiddleware authorization w db = (Continue principal, db) ->
  claim_role principal = "store_manager" ->
  getClothingItem id db = Some item ->
  claim_storeId principal = Some (ClothingItem.storeId item) ->
  (forall h, In h (tryOnHistory db) -> TryOnHistory.clothingItemId h <> id) ->
  let (res, db') := serve (delete_api_store_items_id authorization id w) db in
  res = json (Message "Item deleted")
  /\ getClothingItem id db' = None
  /\ (forall other, other <> id ->
        getClothingItem other db' = getClothingItem other db)
  /\ (forall i, In i (clothingItems db') ->
        In i (clothingItems db) /\ ClothingItem.id i <> id)
  /\ users db' = users db /\ stores db' = stores db
  /\ qrSessions db' = qrSessions db
  /\ customerSessions db' = customerSessions db
  /\ tryOnHistory db' = tryOnHistory db
  /\ usageLogs db' = usageLogs db
  /\ (status (fst (serve (post_api_tryon sessionId (Some id) w') db')) <> 200).
Proof.
  intros Hauth Hrole Hitem Hmine _.
  destruct (find_by_id_some _ _ _ _ Hitem) as [_ Hid].
  assert (Hserve :
    serve (delete_api_store_items_id authorization id w) db
    = (json (Message "Item deleted"), snd (deleteClothingItem id db))).
  { unfold delete_api_store_items_id, serve, bind at 1. rewrite Hauth.
    unfold managerOnlyMiddleware. rewrite Hrole.
    unfold bind, query, exec, reject_if, reply, ret.
    cbn [String.eqb negb Ascii.eqb Bool.eqb]. rewrite Hitem.
    unfold not_my_store. rewrite Hmine, String.eqb_refl, Hid. reflexivity. }
  rewrite Hserve. set (db' := snd (deleteClothingItem id db)).
  assert (Hgone : getClothingItem id db' = None).
  { subst db'. rewrite getClothingItem_deleteClothingItem.
    now rewrite String.eqb_refl. }
  split; [reflexivity|]. split; [exact Hgone|]. split.
  { intros other Hother. subst db'.
    rewrite getClothingItem_deleteClothingItem.
    apply String.eqb_neq in Hother. now rewrite Hother. }
  split.
  { intros i Hi. subst db'. cbn in Hi. apply filter_In in Hi.
    destruct Hi as [Hin Hne]. split; [exact Hin|].
    apply negb_true_iff, String.eqb_neq in Hne. exact Hne. }
  do 6 (split; [reflexivity|]).
  unfold post_api_tryon.
  destruct (required sessionId) as [sid|]; [|cbn; discriminate].
  destruct (required (Some id)) as [cid|] eqn:Hreq; [|cbn; discriminate].
  assert (cid = id).
  { unfold required in Hreq. destruct (falsy (Some id)); congruence. }
  subst cid.
  unfold serve, bind, query, exec, reject_if, reply, ret.
  destruct (getCustomerSession sid db') as [s|]; [|cbn; discriminate].
  cbn [session_gone].
  destruct (CustomerSession.expiresAt s <? now w'); [cbn; discriminate|].
  destruct (falsy (CustomerSession.photoUrl s)); [cbn; discriminate|].
  rewrite Hgone. cbn. discriminate.
Qed.

(** ** Analytics *)

Lemma count_app_one {A} (p : A -> bool) (rows : list A) (x : A) :
  count p (rows ++ [x]) = count p rows + (if p x then 1 else 0).
Proof.
  unfold count. rewrite filter_app, length_app, Nat2Z.inj_add. cbn.
  destruct (p x); reflexivity.
Qed.

Lemma count_update_where {A} (p q : A -> bool) (f : A -> A) (rows : list A) :
  (forall r, q (f r) = q r) ->
  count q (update_where p f rows) = count q rows.
Proof.
  intros Hq. unfold count, update_where. f_equal.
  induction rows as [|r rows IH]; [reflexivity|]. cbn.
  replace (q (if p r then f r else r)) with (q r)
    by (destruct (p r); [now rewrite Hq | reflexivity]).
  destruct (q r); cbn; now rewrite IH.
Qed.

Lemma update_where_nowhere {A} (p : A -> bool) (f : A -> A) (rows : list A) :
  (forall r, In r rows -> p r = false) -> update_where p f rows = rows.
Proof.
  intros Hp. unfold update_where. rewrite <- (map_id rows) at 2.
  apply map_ext_in. intros r Hr. now rewrite (Hp r Hr).
Qed.

Lemma int4_some (x y : Z) :
  int4 x = Some y <-> x = y /\ int4_min <= x <= int4_max.
Proof.
  unfold int4.
  destruct (Z.leb_spec int4_min x) as [Hlo|Hlo],
           (Z.leb_spec x int4_max) as [Hhi|Hhi]; cbn;
    split; try (intros [_ Hr]; lia); try discriminate.
  - intros Hxy. inversion Hxy. lia.
  - intros [-> _]. reflexivity.
Qed.

Lemma int4_none (x : Z) :
  int4 x = None <-> x < int4_min \/ int4_max < x.
Proof.
  unfold int4.
  destruct (Z.leb_spec int4_min x), (Z.leb_spec x int4_max); cbn;
    split; try discriminate; try lia; reflexivity.
Qed.

(** With one row per item id, one more on the counter of an item is one
    more on the sum of its store and nothing on the sums of the others. *)
Lemma sum_of_counted (storeId : string) (db : Db) (item : ClothingItem.t) :
  NoDup (map ClothingItem.id (clothingItems db)) ->
  In item (clothingItems db) ->
  fold_right Z.add 0
    (map ClothingItem.tryOnCount
       (filter (fun i => String.eqb (ClothingItem.storeId i) storeId)
               (clothingItems (counted (ClothingItem.id item) db))))
  = fold_right Z.add 0
      (map ClothingItem.tryOnCount
         (filter (fun i => String.eqb (ClothingItem.storeId i) storeId)
                 (clothingItems db)))
    + (if String.eqb (ClothingItem.storeId item) storeId then 1 else 0).
Proof.
  unfold counted.
  cbn [clothingItems with_clothingItems].
  induction (clothingItems db) as [|r rows IH]; [contradiction|].
  intros Hnd Hin. cbn in Hnd. inversion Hnd as [|? ? Hr Hrows]; subst.
  cbn [update_where map].
  destruct (String.eqb_spec (ClothingItem.id r) (ClothingItem.id item))
    as [E|E].
  - assert (r = item).
    { destruct Hin as [|Hin]; [assumption|].
      exfalso. apply Hr. rewrite E. now apply in_map. }
    subst r.
    change (map (fun r => if String.eqb (ClothingItem.id r)
                                        (ClothingItem.id item)
                          then ClothingItem.bump r else r) rows)
      with (update_where (fun r => String.eqb (ClothingItem.id r)
                                              (ClothingItem.id item))
                         ClothingItem.bump rows).
    rewrite update_where_nowhere.
    + cbn. destruct (String.eqb (ClothingItem.storeId item) storeId); cbn; lia.
    + intros r' Hr'. apply String.eqb_neq. intros E'.
      apply Hr. rewrite <- E'. now apply in_map.
  - destruct Hin as [->|Hin]; [congruence|].
    specialize (IH Hrows Hin). cbn [filter].
    destruct (String.eqb (ClothingItem.storeId r) storeId); cbn [map fold_right].
    + unfold update_where in IH. rewrite IH. lia.
    + exact IH.
Qed.

(** X14: what a try-on does to the dashboards.  With one row per item id
    and the item's counter below the largest integer, a degraded-mode
    try-on leaves the numbers of every other store alone; for the item's
    own store it raises the try-on total by one and leaves the other
    three numbers alone, unless the total was already the largest
    integer, in which case the statistics of that store can no longer be
    read; and it raises the global count of API calls by one and nothing
    else. *)
Theorem try_on_shows_in_the_stats
  (sessionId clothingItemId : string) (w : World) (db : Db)
  (s : CustomerSession.t) (item : ClothingItem.t) :
  NoDup (map ClothingItem.id (clothingItems db)) ->
  ClothingItem.tryOnCount item < int4_max ->
  sessionId <> EmptyString ->
  clothingItemId <> EmptyString ->
  getCustomerSession sessionId db = Some s ->
  now w < CustomerSession.expiresAt s ->
  falsy (CustomerSession.photoUrl s) = false ->
  getClothingItem clothingItemId db = Some item ->
  ClothingItem.storeId item = CustomerSession.storeId s ->
  falsy (GEMINI_API_KEY w) = true ->
  let (_, db') :=
    serve (post_api_tryon (Some sessionId) (Some clothingItemId) w) db in
  (forall storeId before,
     getStoreStats storeId db = Some before ->
     getStoreStats storeId db'
     = if String.eqb (ClothingItem.storeId item) storeId
       then
         if StoreStats.tryOnCount before <? int4_max
         then Some (StoreStats.mk
                      (StoreStats.clothingCount before)
                      (StoreStats.availableCount before)
                      (StoreStats.tryOnCount before + 1)
                      (StoreStats.sessionCount before))
         else None
       else Some before)
  /\ getGlobalStats db'
     = let before := getGlobalStats db in
       GlobalStats.mk
         (GlobalStats.totalStores before)
         (GlobalStats.totalApiCalls before + 1)
         (GlobalStats.totalSessions before)
         (GlobalStats.totalClothingItems before).
Proof.
  intros Hnd Hlt Hs Hc Hget Hlive Hphoto Hitem Hstore Hkey.
  pose proof (tryon_degraded_mode_records sessionId clothingItemId w db s item
                Hnd Hlt Hs Hc Hget) as H.
  destruct (serve _ db) as [res db'].
  destruct H as (_ & _ & Hitems & _ & (l & Hlogs & _ & Haction)
                 & _ & Hstores & _ & Hsessions);
    try solve [lia | assumption].
  destruct (find_by_id_some _ _ _ _ Hitem) as [Hin _].
  split.
  - intros storeId before Hbefore.
    pose proof (sum_of_counted storeId db item Hnd Hin) as Hsum.
    unfold counted in Hsum. cbn [clothingItems with_clothingItems] in Hsum.
    unfold getStoreStats, sumTryOnCount in *.
    rewrite Hsessions, Hitems, Hsum,
      !(count_update_where _ _ ClothingItem.bump) by reflexivity.
    destruct (int4 (fold_right Z.add 0 _)) as [t|] eqn:Ht in Hbefore;
      [|discriminate].
    inversion Hbefore. subst before. clear Hbefore.
    cbn [StoreStats.clothingCount StoreStats.availableCount
         StoreStats.tryOnCount StoreStats.sessionCount].
    apply int4_some in Ht. destruct Ht as [Ht Hrange]. rewrite Ht.
    destruct (String.eqb (ClothingItem.storeId item) storeId).
    + destruct (Z.ltb_spec t int4_max) as [Hroom|Hfull].
      * replace (int4 (t + 1)) with (Some (t + 1)); [reflexivity|].
        symmetry. apply int4_some. unfold int4_min, int4_max in *. lia.
      * replace (int4 (t + 1)) with (@None Z); [reflexivity|].
        symmetry. apply int4_none. lia.
    + rewrite Z.add_0_r.
      replace (int4 t) with (Some t); [reflexivity|].
      symmetry. apply int4_some. split; [reflexivity | lia].
  - unfold getGlobalStats. cbn zeta.
    cbn [GlobalStats.totalStores GlobalStats.totalApiCalls
         GlobalStats.totalSessions GlobalStats.totalClothingItems].
    rewrite Hstores, Hsessions, Hlogs, Hitems, count_app_one, Haction.
    f_equal. apply count_update_where. reflexivity.
Qed.

(** X15: what an exchange does to the dashboards.  An accepted exchange
    raises the session count of the grant's store and the global session
    total by one each; it is not counted as an API call, and no other
    number moves; statistics that could not be read before cannot be
    read after, and the other way round. *)
Theorem validation_shows_in_the_stats (token : string) (w : World) (db : Db)
  (q : QrSession.t) (store : Store.t) :
  getQrSessionByToken token (now w) db = Some q ->
  getStore (QrSession.storeId q) db = Some store ->
  Store.isActive store = true ->
  let (_, db') := serve (get_api_qr_token_validate token w) db in
  (forall storeId,
     getStoreStats storeId db'
     = option_map
         (fun before =>
            StoreStats.mk
              (StoreStats.clothingCount before)
              (StoreStats.availableCount before)
              (StoreStats.tryOnCount before)
              (StoreStats.sessionCount before
               + (if String.eqb (QrSession.storeId q) storeId
                  then 1 else 0)))
         (getStoreStats storeId db))
  /\ getGlobalStats db'
     = let before := getGlobalStats db in
       GlobalStats.mk
         (GlobalStats.totalStores before)
         (GlobalStats.totalApiCalls before)
         (GlobalStats.totalSessions before + 1)
         (GlobalStats.totalClothingItems before).
Proof.
  intros Hq Hs Ha. rewrite (validate_accepts _ _ _ _ _ Hq Hs Ha). split.
  - intros storeId. unfold getStoreStats, sumTryOnCount.
    cbn [clothingItems customerSessions with_usageLogs
         with_customerSessions].
    destruct (int4 _); [|reflexivity]. cbn [option_map].
    cbn [StoreStats.clothingCount StoreStats.availableCount
         StoreStats.tryOnCount StoreStats.sessionCount].
    rewrite count_app_one. reflexivity.
  - unfold getGlobalStats. cbn zeta.
    cbn [GlobalStats.totalStores GlobalStats.totalApiCalls
         GlobalStats.totalSessions GlobalStats.totalClothingItems
         stores usageLogs clothingItems customerSessions with_usageLogs
         with_customerSessions].
    rewrite !count_app_one. cbn. f_equal; lia.
Qed.

Lemma all_settled_some {A B} (f : A -> option B) (l : list A) :
  (forall a, In a l -> f a <> None) ->
  exists out, all_settled (map f l) = Some out
              /\ map Some out = map f l.
Proof.
  induction l as [|a l IH]; intros Hall.
  - exists []. split; reflexivity.
  - destruct IH as (out & Hout & Hmap);
      [intros a' Ha'; apply Hall; now right|].
    cbn. destruct (f a) as [b|] eqn:Hfa.
    + exists (b :: out). rewrite Hout. split; [reflexivity|].
      cbn. now rewrite Hmap.
    + exfalso. apply (Hall a (or_introl eq_refl)). exact Hfa.
Qed.

Lemma all_settled_none {A B} (f : A -> option B) (l : list A) (a : A) :
  In a l -> f a = None -> all_settled (map f l) = None.
Proof.
  induction l as [|x l IH]; [contradiction|].
  intros [->|Hin] Hfa; cbn.
  - now rewrite Hfa.
  - destruct (f x); [|reflexivity]. now rewrite (IH Hin Hfa).
Qed.

(** What the owner's listing computes for one store. *)
Lemma getStoreWithStats_of_a_row (store : Store.t) (db : Db) :
  In store (stores db) ->
  match getStoreWithStats (Store.id store) db with
  | None => getStoreStats (Store.id store) db = None
  | Some None => False
  | Some (Some sws) =>
      exists mine,
        getStoreStats (Store.id store) db = Some mine
        /\ StoreWithStats.clothingCount (StoreWithStats.its_stats sws)
           = StoreStats.clothingCount mine
        /\ StoreWithStats.tryOnCount (StoreWithStats.its_stats sws)
           = StoreStats.tryOnCount mine
        /\ StoreWithStats.sessionCount (StoreWithStats.its_stats sws)
           = StoreStats.sessionCount mine
  end.
Proof.
  intros Hin.
  destruct (find_finds (fun s => String.eqb (Store.id s) (Store.id store))
              (stores db) store Hin (String.eqb_refl _)) as (y & Hy).
  unfold getStoreWithStats, getStoreStats, getStore. rewrite Hy.
  destruct (sumTryOnCount (Store.id store) db); [|reflexivity].
  eexists. repeat split; reflexivity.
Qed.

(** X16: the owner's listing and the manager's dashboard agree.  GET
    /api/stores answers a listing exactly when the try-on total of every
    store fits an integer, and 500 otherwise.  A listing is a
    rearrangement of the stores table, one entry per row, and for each
    entry GET /api/store/stats answers the store's manager the same
    three numbers; neither route writes. *)
Theorem owner_listing_agrees_with_manager_stats
  (ownerAuth managerAuth : option string) (w w' : World) (db : Db)
  (owner manager : Claims) (storeId : string) :
  (forall A (l : list A), Permutation (newest_first A l) l) ->
  authMiddleware ownerAuth w db = (Continue owner, db) ->
  claim_role owner = "company_owner" ->
  authMiddleware managerAuth w' db = (Continue manager, db) ->
  claim_role manager = "store_manager" ->
  claim_storeId manager = Some storeId ->
  storeId <> EmptyString ->
  let (theirs, db1) := answer (get_api_stores ownerAuth w) db in
  let (mine, db2) := answer (get_api_store_stats managerAuth w') db in
  db1 = db /\ db2 = db
  /\ ((exists store, In store (stores db)
                     /\ sumTryOnCount (Store.id store) db = None)
      -> theirs = inr (refuse 500 "Failed to get stores"))
  /\ ((forall store, In store (stores db) ->
                     sumTryOnCount (Store.id store) db <> None)
      -> exists listing, theirs = inl listing)
  /\ (forall listing,
        theirs = inl listing ->
        Permutation (map fst listing) (stores db)
        /\ forall store stats,
             In (store, stats) listing ->
             Store.id store = storeId ->
             exists numbers,
               mine = inl numbers
               /\ StoreWithStats.clothingCount stats
                  = StoreStats.clothingCount numbers
               /\ StoreWithStats.tryOnCount stats
                  = StoreStats.tryOnCount numbers
               /\ StoreWithStats.sessionCount stats
                  = StoreStats.sessionCount numbers).
Proof.
  intros Hperm Hoa Hor Hma Hmr Hms Hne.
  set (one := fun store : Store.t =>
         match getStoreWithStats (Store.id store) db with
         | None => None
         | Some storeWithStats =>
             Some (store,
                   match storeWithStats with
                   | Some sws => StoreWithStats.its_stats sws
                   | None => StoreWithStats.mkStats 0 0 0
                   end)
         end).
  assert (Htheirs :
    answer (get_api_stores ownerAuth w) db
    = (match all_settled (map one (getAllStores db)) with
       | Some listing => inl listing
       | None => inr (refuse 500 "Failed to get stores")
       end, db)).
  { unfold get_api_stores, answer, bind at 1. rewrite Hoa.
    unfold ownerOnlyMiddleware. rewrite Hor.
    unfold bind, query, try_query, attempt, reject_if, reply, ret.
    cbn [String.eqb negb Ascii.eqb Bool.eqb]. fold one.
    destruct (all_settled (map one (getAllStores db))); reflexivity. }
  assert (Hmine :
    answer (get_api_store_stats managerAuth w') db
    = (match getStoreStats storeId db with
       | Some numbers => inl numbers
       | None => inr (refuse 500 "Failed to get store stats")
       end, db)).
  { unfold get_api_store_stats, answer, bind at 1. rewrite Hma.
    unfold managerOnlyMiddleware. rewrite Hmr, Hms, (required_some _ Hne).
    unfold bind, query, try_query, attempt, reject_if, reply, ret.
    cbn [String.eqb negb Ascii.eqb Bool.eqb].
    destruct (getStoreStats storeId db); reflexivity. }
  rewrite Htheirs, Hmine. clear Htheirs Hmine.
  assert (Hrows : forall store, In store (getAllStores db) <->
                                In store (stores db)).
  { intros store. unfold getAllStores. split; intros H.
    - exact (Permutation_in _ (Hperm _ _) H).
    - exact (Permutation_in _ (Permutation_sym (Hperm _ _)) H). }
  assert (Hone : forall store, In store (stores db) ->
                 (one store = None
                  <-> sumTryOnCount (Store.id store) db = None)).
  { intros store Hin. unfold one.
    pose proof (getStoreWithStats_of_a_row store db Hin) as Hrow.
    unfold getStoreStats in Hrow.
    destruct (getStoreWithStats (Store.id store) db) as [[sws|]|].
    - destruct Hrow as (m & Hm & _).
      destruct (sumTryOnCount (Store.id store) db); [|discriminate].
      split; discriminate.
    - contradiction.
    - destruct (sumTryOnCount (Store.id store) db); [discriminate|].
      split; reflexivity. }
  split; [reflexivity|]. split; [reflexivity|].
  split; [|split].
  - intros (store & Hin & Hsum).
    rewrite (all_settled_none one _ store); [reflexivity| |].
    + now apply Hrows.
    + now apply Hone.
  - intros Hall.
    destruct (all_settled_some one (getAllStores db)) as (out & Hout & _).
    + intros store Hin Hnone. apply Hrows in Hin.
      apply (Hall store Hin). now apply Hone.
    + rewrite Hout. now exists out.
  - intros listing Hlisting.
    destruct (all_settled (map one (getAllStores db))) as [out|] eqn:Hout;
      [|discriminate].
    inversion Hlisting. subst out. clear Hlisting.
    assert (Hmap : map Some listing = map one (getAllStores db)).
    { clear - Hout. revert listing Hout.
      induction (getAllStores db) as [|a l IH]; intros listing Hout.
      - cbn in Hout. inversion Hout. reflexivity.
      - cbn in Hout. destruct (one a) as [b|] eqn:Hb; [|discriminate].
        destruct (all_settled (map one l)) as [rest|] eqn:Hrest;
          [|discriminate].
        cbn in Hout. inversion Hout. subst listing. cbn.
        rewrite Hb, (IH rest eq_refl). reflexivity. }
    assert (Hentry : forall store stats, In (store, stats) listing ->
              exists store', In store' (getAllStores db)
                             /\ one store' = Some (store, stats)).
    { intros store stats Hin.
      apply (in_map Some) in Hin. rewrite Hmap in Hin.
      apply in_map_iff in Hin. destruct Hin as (store' & Hs' & Hin').
      exists store'. auto. }
    split.
    + assert (Hfst : map fst listing = getAllStores db).
      { clear - Hmap. revert listing Hmap.
        induction (getAllStores db) as [|a l IH]; intros listing Hmap.
        - destruct listing; [reflexivity|discriminate].
        - destruct listing as [|e listing]; [discriminate|].
          cbn in Hmap. inversion Hmap as [[He Hrest]].
          cbn. rewrite (IH listing Hrest). f_equal.
          unfold one in He.
          destruct (getStoreWithStats (Store.id a) db); [|discriminate].
          inversion He. reflexivity. }
      rewrite Hfst. apply Hperm.
    + intros store stats Hin Hid.
      destruct (Hentry store stats Hin) as (store' & Hin' & Hone').
      apply Hrows in Hin'.
      pose proof (getStoreWithStats_of_a_row store' db Hin') as Hrow.
      unfold one in Hone'.
      destruct (getStoreWithStats (Store.id store') db) as [[sws|]|];
        [|contradiction|discriminate].
      inversion Hone'. subst store' stats. clear Hone'.
      destruct Hrow as (numbers & Hnumbers & Hc & Ht & Hsn).
      rewrite Hid in Hnumbers. rewrite Hnumbers.
      exists numbers. auto.
Qed.

(** ** The bearer token *)

Lemma split_no_space (t : string) :
  no_space t = true -> split " " t = [t].
Proof.
  induction t as [|c t IH]; [reflexivity|]. cbn [no_space split].
  intros H. apply andb_true_iff in H. destruct H as [Hc Ht].
  apply negb_true_iff in Hc. rewrite Hc, (IH Ht). reflexivity.
Qed.

Lemma split_first_word (t rest : string) :
  no_space t = true ->
  split " " (t ++ String " " rest) = t :: split " " rest.
Proof.
  induction t as [|c t IH]; [reflexivity|]. cbn [no_space split append].
  intros H. apply andb_true_iff in H. destruct H as [Hc Ht].
  apply negb_true_iff in Hc. rewrite Hc, (IH Ht). reflexivity.
Qed.

Lemma bearer_prefix (rest : string) :
  startsWith ("Bearer " ++ rest) "Bearer " = true.
Proof.
  unfold startsWith. cbn. destruct rest; reflexivity.
Qed.

Lemma authMiddleware_bearer (token : string) (w : World) (db : Db) :
  no_space token = true ->
  authMiddleware (Some ("Bearer " ++ token)) w db
  = (match jwt_verify token (now w) with
     | Some decoded => Continue decoded
     | None => Return (refuse 401 "Invalid token")
     end, db).
Proof.
  intros Ht. unfold authMiddleware.
  replace (required (Some ("Bearer " ++ token)))
    with (Some ("Bearer " ++ token)) by reflexivity.
  replace (startsWith ("Bearer " ++ token) "Bearer ") with true
    by (symmetry; apply bearer_prefix).
  change ("Bearer " ++ token) with ("Bearer" ++ String " " token).
  rewrite (split_first_word "Bearer" token eq_refl), (split_no_space _ Ht).
  cbn. destruct (jwt_verify token (now w)); reflexivity.
Qed.

(** X17: how the Authorization header is read.  A header that is absent
    or does not start with "Bearer " is answered 401 "Unauthorized".
    Otherwise the word after "Bearer " is what is verified, and nothing
    else: whatever follows that word after a blank is ignored, and the
    answer is the payload of the word or 401 "Invalid token". *)
Theorem authMiddleware_verifies_second_word (token junk : string) (w : World)
  (db : Db) :
  no_space token = true ->
  authMiddleware None w db = (Return (refuse 401 "Unauthorized"), db)
  /\ (forall header,
        startsWith header "Bearer " = false ->
        authMiddleware (Some header) w db
        = (Return (refuse 401 "Unauthorized"), db))
  /\ authMiddleware (Some ("Bearer " ++ token)) w db
     = (match jwt_verify token (now w) with
        | Some decoded => Continue decoded
        | None => Return (refuse 401 "Invalid token")
        end, db)
  /\ authMiddleware (Some ("Bearer " ++ token ++ " " ++ junk)) w db
     = authMiddleware (Some ("Bearer " ++ token)) w db.
Proof.
  intros Ht. split; [reflexivity|]. split; [|split].
  - intros header Hh. unfold authMiddleware.
    destruct (required (Some header)) as [h|] eqn:Hreq; [|reflexivity].
    assert (h = header)
      by (unfold required in Hreq; destruct (falsy (Some header)); congruence).
    subst h. rewrite Hh. reflexivity.
  - apply authMiddleware_bearer, Ht.
  - rewrite (authMiddleware_bearer _ _ _ Ht). unfold authMiddleware.
    replace (required (Some ("Bearer " ++ token ++ " " ++ junk)))
      with (Some ("Bearer " ++ token ++ " " ++ junk)) by reflexivity.
    replace (startsWith ("Bearer " ++ token ++ " " ++ junk) "Bearer ")
      with true by (symmetry; apply bearer_prefix).
    change ("Bearer " ++ token ++ " " ++ junk)
      with ("Bearer" ++ String " " (token ++ String " " junk)).
    rewrite (split_first_word "Bearer" _ eq_refl), (split_first_word _ _ Ht).
    cbn. destruct (jwt_verify token (now w)); reflexivity.
Qed.

(** ** GET /api/auth/me *)

(** X18: log in, then ask who you are.  When the token the login signs
    verifies to the payload it was signed with, has no blank in it, and
    the user's id is looked up to the same row as the email, GET
    /api/auth/me under that token answers the very user object the login
    answered, and neither route writes. *)
Theorem login_then_me (raw : RawBody) (w w' : World) (db : Db)
  (parsed : LoginInput) (u : User.t) :
  let payload := mkClaims (User.id u) (User.email u) (User.role u)
                          (User.storeId u) in
  let token := jwt_sign payload (now w) in
  loginSchema raw = Some parsed ->
  getUserByEmail (login_email parsed) db = Some u ->
  User.isActive u = true ->
  bcrypt_compare (login_password parsed) (User.password u) = true ->
  jwt_verify token (now w') = Some payload ->
  no_space token = true ->
  getUser (User.id u) db = Some u ->
  exists view,
    serve (post_api_auth_login raw w) db = (json (LoginBody token view), db)
    /\ answer (get_api_auth_me (Some ("Bearer " ++ token)) w') db
       = (inl view, db)
    /\ view_id view = User.id u
    /\ view_mustResetPassword view = User.mustResetPassword u.
Proof.
  intros payload token Hparse Hu Hactive Hright Hverify Hns Hid.
  exists (mkUserView (User.id u) (User.email u) (User.role u)
            (User.storeId u)
            (match required (User.storeId u) with
             | Some storeId => option_map Store.name (getStore storeId db)
             | None => None
             end)
            (User.mustResetPassword u)).
  split; [|split; [|split; reflexivity]].
  - unfold post_api_auth_login. rewrite Hparse.
    unfold serve, bind, query, reject_if, reply, ret.
    rewrite Hu, Hactive, Hright. cbn [negb].
    destruct (required (User.storeId u)); reflexivity.
  - unfold get_api_auth_me, answer, bind at 1.
    rewrite (authMiddleware_bearer _ _ _ Hns), Hverify.
    unfold bind, query, reply, ret. cbn [claim_id payload]. rewrite Hid.
    destruct (required (User.storeId u)); reflexivity.
Qed.

(** ** POST /api/auth/reset-password, once more *)

Lemma find_update_where_other {A} (key : A -> string) (f : A -> A)
  (x other : string) (rows : list A) :
  (forall r, key (f r) = key r) ->
  other <> x ->
  find (fun r => String.eqb (key r) other)
       (update_where (fun r => String.eqb (key r) x) f rows)
  = find (fun r => String.eqb (key r) other) rows.
Proof.
  intros Hkey Hother. induction rows as [|r rows IH]; [reflexivity|]. cbn.
  destruct (String.eqb_spec (key r) x) as [E|E].
  - rewrite Hkey.
    destruct (String.eqb_spec (key r) other); [congruence | exact IH].
  - destruct (String.eqb (key r) other); [reflexivity | exact IH].
Qed.

(** X19: a reset reaches one row only.  Whoever calls the reset route
    with a verified token, the users other than the one named in the
    token are looked up as before and no other table changes; no row
    changes its id, email, role, store or active flag; and with a wrong
    current password the answer is 401 and nothing at all is written. *)
Theorem self_reset_reaches_one_row (authorization : option string)
  (raw : RawBody) (w : World) (db : Db) (principal : Claims) :
  authMiddleware authorization w db = (Continue principal, db) ->
  let (res, db') :=
    serve (post_api_auth_reset_password authorization raw w) db in
  (forall other, other <> claim_id principal ->
     getUser other db' = getUser other db)
  /\ map User.id (users db') = map User.id (users db)
  /\ map User.email (users db') = map User.email (users db)
  /\ map User.role (users db') = map User.role (users db)
  /\ map User.storeId (users db') = map User.storeId (users db)
  /\ map User.isActive (users db') = map User.isActive (users db)
  /\ with_users db' (users db) = db
  /\ (forall parsed u,
        resetPasswordSchema raw = Some parsed ->
        getUser (claim_id principal) db = Some u ->
        bcrypt_compare (currentPassword parsed) (User.password u) = false ->
        res = refuse 401 "Current password is incorrect" /\ db' = db).
Proof.
  intros Hauth.
  assert (Hdb : with_users db (users db) = db) by (destruct db; reflexivity).
  unfold post_api_auth_reset_password, serve, bind at 1. rewrite Hauth.
  destruct (resetPasswordSchema raw) as [parsed|];
    [|unfold reply; do 6 (split; [reflexivity|]); split; [exact Hdb|];
      discriminate].
  unfold bind at 1, query.
  destruct (getUser (claim_id principal) db) as [u|] eqn:Hu;
    [|unfold reply; do 6 (split; [reflexivity|]); split; [exact Hdb|];
      discriminate].
  destruct (find_by_id_some _ _ _ _ Hu) as [_ Hid].
  unfold bind at 1, reject_if.
  destruct (bcrypt_compare (currentPassword parsed) (User.password u))
    eqn:Hcmp; cbn [negb].
  - unfold bind, attempt, ret, reply, updateUser. rewrite Hid.
    cbn [User.no_values User.set_password User.set_mustResetPassword
         users with_users].
    split.
    { intros other Hother. unfold getUser. cbn [users with_users].
      apply find_update_where_other; [reflexivity | exact Hother]. }
    unfold update_where. rewrite !map_map.
    do 5 (split; [apply map_ext; intros r;
                  destruct (String.eqb (User.id r) (claim_id principal));
                  reflexivity|]).
    split; [destruct db; reflexivity|].
    intros parsed' u' Hp Hu'. inversion Hp; inversion Hu'; subst.
    congruence.
  - unfold reply. do 6 (split; [reflexivity|]). split; [exact Hdb|].
    intros parsed' u' _ _ _. split; reflexivity.
Qed.

(** ** Storage calls on an id that has no row *)

(** X20: storage calls under an id that no row of the table carries.
    An update that sets at least one column changes nothing and returns
    no row; an update that sets no column throws, whatever the id; an
    increment and a delete change nothing. *)
Theorem writes_to_a_missing_id_do_nothing (id : string) (db : Db)
  (userData : User.partial) (storeData : PartialStore.t)
  (sessionData : CustomerSession.partial) :
  (getUser id db = None ->
   updateUser id userData db
   = if User.no_values userData then None else Some (None, db))
  /\ (getStore id db = None ->
      updateStore id storeData db
      = if PartialStore.no_values storeData then None else Some (None, db))
  /\ (getCustomerSession id db = None ->
      updateCustomerSession id sessionData db
      = if CustomerSession.no_values sessionData then None
        else Some (None, db))
  /\ (getClothingItem id db = None ->
      incrementTryOnCount id db = Some (tt, db)
      /\ deleteClothingItem id db = (tt, db)).
Proof.
  assert (Hnowhere : forall A (key : A -> string) (rows : list A),
             find (fun r => String.eqb (key r) id) rows = None ->
             forall r, In r rows -> String.eqb (key r) id = false).
  { intros A key rows H r Hr. exact (find_none _ _ H r Hr). }
  destruct db as [us ss cis qs css hs ls].
  unfold updateUser, updateStore, updateCustomerSession, incrementTryOnCount,
    deleteClothingItem, getUser, getStore, getCustomerSession,
    getClothingItem, with_users, with_stores, with_customerSessions,
    with_clothingItems.
  cbn [users stores clothingItems qrSessions customerSessions
       tryOnHistory usageLogs].
  split; [|split; [|split; [|intros Hnone; split]]]; try intros Hnone.
  - destruct (User.no_values userData); [reflexivity|].
    rewrite update_where_nowhere by (apply Hnowhere, Hnone).
    now rewrite Hnone.
  - destruct (PartialStore.no_values storeData); [reflexivity|].
    rewrite update_where_nowhere by (apply Hnowhere, Hnone).
    now rewrite Hnone.
  - destruct (CustomerSession.no_values sessionData); [reflexivity|].
    rewrite update_where_nowhere by (apply Hnowhere, Hnone).
    now rewrite Hnone.
  - rewrite update_where_nowhere by (apply Hnowhere, Hnone).
    replace (forallb _ cis) with true; [reflexivity|].
    symmetry. apply forallb_forall. intros r Hr.
    rewrite (Hnowhere _ _ _ Hnone r Hr). reflexivity.
  - f_equal. f_equal. rename Hnone into H.
    pose proof (Hnowhere _ _ _ H) as Hall.
    induction cis as [|r rows IH]; [reflexivity|]. cbn.
    rewrite (Hall r (or_introl eq_refl)). cbn. f_equal.
    apply IH.
    + cbn in H. rewrite (Hall r (or_introl eq_refl)) in H. exact H.
    + intros r' Hr'. apply Hall. now right.
Qed.

(** ** POST /api/store/qr/generate, whatever the request *)

(** X21: a grant is always for the store in the manager's token.  Either
    the route writes nothing and its answer is not a 200, or the token
    verifies to a store manager with a store, and the route has appended
    one grant for that store, carrying the random token and expiring one
    hour after the request, and one "qr_generated" usage log, and has
    touched nothing else.  Nothing in the request picks the store. *)
Theorem qr_grant_is_for_the_token_store (authorization : option string)
  (protocol host : string) (w : World) (db : Db) :
  let (res, db') :=
    serve (post_api_store_qr_generate authorization protocol host w) db in
  (db' = db /\ status res <> 200)
  \/ (exists principal storeId qr log,
        authMiddleware authorization w db = (Continue principal, db)
        /\ claim_role principal = "store_manager"
        /\ claim_storeId principal = Some storeId
        /\ status res = 200
        /\ qrSessions db' = (qrSessions db ++ [qr])%list
        /\ QrSession.storeId qr = storeId
        /\ QrSession.token qr = randomHex w
        /\ QrSession.expiresAt qr = now w + 60 * 60 * 1000
        /\ usageLogs db' = (usageLogs db ++ [log])%list
        /\ UsageLog.storeId log = storeId
        /\ UsageLog.action log = "qr_generated"
        /\ users db' = users db /\ stores db' = stores db
        /\ clothingItems db' = clothingItems db
        /\ customerSessions db' = customerSessions db
        /\ tryOnHistory db' = tryOnHistory db).
Proof.
  unfold post_api_store_qr_generate, serve, bind at 1.
  pose proof (authMiddleware_reads_only authorization w db) as Hro.
  destruct (authMiddleware authorization w db) as [[principal|r] db0] eqn:Hauth;
    cbn [snd] in Hro; subst db0.
  - unfold managerOnlyMiddleware, bind at 1, reject_if.
    destruct (String.eqb_spec (claim_role principal) "store_manager")
      as [Hrole|Hrole]; cbn [negb reply ret].
    + destruct (required (claim_storeId principal)) as [storeId|] eqn:Hreq.
      * right.
        assert (Hsid : claim_storeId principal = Some storeId).
        { unfold required in Hreq.
          destruct (falsy (claim_storeId principal)); congruence. }
        unfold bind, exec, ret. cbn.
        exists principal, storeId. eexists. eexists.
        repeat split; try reflexivity; assumption.
      * left. split; [reflexivity | cbn; discriminate].
    + left. split; [reflexivity | cbn; discriminate].
  - left. split; [reflexivity|].
    unfold authMiddleware in Hauth.
    destruct (required authorization) as [h|];
      [|inversion Hauth; cbn; discriminate].
    destruct (negb (startsWith h "Bearer "));
      [inversion Hauth; cbn; discriminate|].
    destruct (nth_error (split " " h) 1) as [t|];
      [|inversion Hauth; cbn; discriminate].
    destruct (jwt_verify t (now w)); inversion Hauth; cbn; discriminate.
Qed.

(** ** The customer page *)

Lemma showZ_is_not_a_word (m : Z) (rest : string) :
  0 <= m -> showZ m ++ rest <> "Expired".
Proof.
  intros Hm. unfold showZ. destruct m as [|p|p]; [cbn; discriminate| |lia].
  cbn [Z.to_int NilZero.string_of_int].
  destruct (Pos.to_uint p); cbn; discriminate.
Qed.

Lemma two_digit_seconds (sec : Z) :
  0 <= sec < 60 ->
  String.length (Client.padStart 2 "0" (showZ sec)) = 2%nat.
Proof.
  intros Hsec.
  assert (Hall : forallb
                   (fun n => Nat.eqb
                               (String.length
                                  (Client.padStart 2 "0" (showZ (Z.of_nat n))))
                               2)
                   (seq 0 60) = true) by (vm_compute; reflexivity).
  rewrite forallb_forall in Hall.
  specialize (Hall (Z.to_nat sec)).
  rewrite Z2Nat.id in Hall by lia.
  apply Nat.eqb_eq, Hall, in_seq. lia.
Qed.

(** X22: what the session timer shows.  The text is "Expired" exactly
    from the instant [expiresAt] on.  Before it, the text is minutes, a
    colon and two digits of seconds, which together are the time left
    rounded down to the second.  The badge is urgent under five minutes
    left (and once expired), a warning from five to under fifteen, and
    normal from fifteen on. *)
Theorem timer_shows_the_time_left (clock expiresAt : Z) :
  let (text, urgency) := Client.updateTimer clock expiresAt in
  (text = "Expired" <-> expiresAt <= clock)
  /\ (urgency = Client.urgent <-> expiresAt - clock < 5 * 60000)
  /\ (urgency = Client.warning
      <-> 5 * 60000 <= expiresAt - clock < 15 * 60000)
  /\ (urgency = Client.normal <-> 15 * 60000 <= expiresAt - clock)
  /\ (clock < expiresAt ->
      exists minutes seconds,
        text = showZ minutes ++ ":" ++ Client.padStart 2 "0" (showZ seconds)
        /\ 0 <= minutes
        /\ 0 <= seconds < 60
        /\ (minutes * 60 + seconds) * 1000 <= expiresAt - clock
           < (minutes * 60 + seconds + 1) * 1000
        /\ String.length (Client.padStart 2 "0" (showZ seconds)) = 2%nat).
Proof.
  unfold Client.updateTimer. cbn zeta.
  set (diff := expiresAt - clock).
  destruct (Z.leb_spec diff 0) as [Hd|Hd].
  - split; [split; [lia|reflexivity]|].
    split; [split; [lia|reflexivity]|].
    split; [split; [discriminate|lia]|].
    split; [split; [discriminate|lia]|]. lia.
  - assert (Hrem : Z.rem diff 60000 = diff mod 60000)
      by (apply Z.rem_mod_nonneg; lia).
    pose proof (Z.div_mod diff 60000 ltac:(lia)) as Hdm.
    pose proof (Z.mod_pos_bound diff 60000 ltac:(lia)) as Hmb.
    pose proof (Z.div_mod (diff mod 60000) 1000 ltac:(lia)) as Hdm2.
    pose proof (Z.mod_pos_bound (diff mod 60000) 1000 ltac:(lia)) as Hmb2.
    assert (Hm : 0 <= diff / 60000) by (apply Z.div_pos; lia).
    assert (Hsec : 0 <= diff mod 60000 / 1000 < 60)
      by (split; [apply Z.div_pos; lia
                 | apply Z.div_lt_upper_bound; lia]).
    split.
    { split; [|lia]. intros H. exfalso.
      exact (showZ_is_not_a_word _ _ Hm H). }
    assert (H5 : diff / 60000 < 5 <-> diff < 5 * 60000)
      by (split; intros; [|apply Z.div_lt_upper_bound]; lia).
    assert (H15 : diff / 60000 < 15 <-> diff < 15 * 60000)
      by (split; intros; [|apply Z.div_lt_upper_bound]; lia).
    destruct (Z.ltb_spec (diff / 60000) 5) as [Hu|Hu];
      [|destruct (Z.ltb_spec (diff / 60000) 15) as [Hw|Hw]].
    + split; [split; [lia|reflexivity]|].
      split; [split; [discriminate|lia]|].
      split; [split; [discriminate|lia]|].
      intros _. exists (diff / 60000), (Z.rem diff 60000 / 1000).
      rewrite Hrem. split; [reflexivity|]. split; [exact Hm|].
      split; [exact Hsec|]. split; [lia|]. apply two_digit_seconds, Hsec.
    + split; [split; [discriminate|lia]|].
      split; [split; [lia|reflexivity]|].
      split; [split; [discriminate|lia]|].
      intros _. exists (diff / 60000), (Z.rem diff 60000 / 1000).
      rewrite Hrem. split; [reflexivity|]. split; [exact Hm|].
      split; [exact Hsec|]. split; [lia|]. apply two_digit_seconds, Hsec.
    + split; [split; [discriminate|lia]|].
      split; [split; [discriminate|lia]|].
      split; [split; [lia|reflexivity]|].
      intros _. exists (diff / 60000), (Z.rem diff 60000 / 1000).
      rewrite Hrem. split; [reflexivity|]. split; [exact Hm|].
      split; [exact Hsec|]. split; [lia|]. apply two_digit_seconds, Hsec.
Qed.

Lemma timer_text_expired (clock expiresAt : Z) :
  fst (Client.updateTimer clock expiresAt) = "Expired" <-> expiresAt <= clock.
Proof.
  unfold Client.updateTimer. cbn zeta.
  destruct (Z.leb_spec (expiresAt - clock) 0) as [Hd|Hd]; cbn [fst].
  - split; [lia|reflexivity].
  - split; [|lia]. intros H. exfalso.
    refine (showZ_is_not_a_word _ _ _ H). apply Z.div_pos; lia.
Qed.

(** X23: the page never shows time left on a session the server would
    refuse.  The page keeps a saved session exactly while its timer does
    not read "Expired", and a session the page keeps is let through by
    the guard of the customer routes at the same instant. *)
Theorem page_and_server_on_expiry (s : CustomerSession.t) (w : World) :
  let kept := Client.keepsSavedSession (now w) (CustomerSession.expiresAt s) in
  (kept = true
   <-> fst (Client.updateTimer (now w) (CustomerSession.expiresAt s))
       <> "Expired")
  /\ (kept = true -> session_gone (Some s) w = false).
Proof.
  cbn zeta. unfold Client.keepsSavedSession. cbn [session_gone].
  pose proof (timer_text_expired (now w) (CustomerSession.expiresAt s)) as Ht.
  rewrite Z.ltb_lt, Z.ltb_ge.
  split.
  - rewrite Ht. lia.
  - lia.
Qed.

(** ** History and audit log, read back *)

Lemma filter_app_one {A} (p : A -> bool) (rows : list A) (x : A) :
  filter p (rows ++ [x]) = (filter p rows ++ (if p x then [x] else []))%list.
Proof.
  rewrite filter_app. cbn. destruct (p x); reflexivity.
Qed.

(** X24: a try-on is filed under its own session and store.  With one
    row per item id and the item's counter below the largest integer,
    after a degraded-mode try-on the history of the session is the
    earlier history and one more row, for the item and its image; the
    history of every other session is what it was; the audit log of the
    session's store has one more entry, a "try_on", and the log of every
    other store is what it was. *)
Theorem try_on_is_filed_under_its_session
  (sessionId clothingItemId : string) (w : World) (db : Db)
  (s : CustomerSession.t) (item : ClothingItem.t) :
  (forall A (l : list A), Permutation (newest_first A l) l) ->
  NoDup (map ClothingItem.id (clothingItems db)) ->
  ClothingItem.tryOnCount item < int4_max ->
  sessionId <> EmptyString ->
  clothingItemId <> EmptyString ->
  getCustomerSession sessionId db = Some s ->
  now w < CustomerSession.expiresAt s ->
  falsy (CustomerSession.photoUrl s) = false ->
  getClothingItem clothingItemId db = Some item ->
  ClothingItem.storeId item = CustomerSession.storeId s ->
  falsy (GEMINI_API_KEY w) = true ->
  let (_, db') :=
    serve (post_api_tryon (Some sessionId) (Some clothingItemId) w) db in
  (exists h,
     Permutation (getTryOnHistoryBySession sessionId db')
                 (h :: getTryOnHistoryBySession sessionId db)
     /\ TryOnHistory.clothingItemId h = clothingItemId
     /\ TryOnHistory.resultImageUrl h = ClothingItem.imageUrl item)
  /\ (forall other, other <> sessionId ->
        getTryOnHistoryBySession other db'
        = getTryOnHistoryBySession other db)
  /\ (exists l,
        Permutation (getUsageLogs (CustomerSession.storeId s) db')
                    (l :: getUsageLogs (CustomerSession.storeId s) db)
        /\ UsageLog.action l = "try_on")
  /\ (forall other, other <> CustomerSession.storeId s ->
        getUsageLogs other db' = getUsageLogs other db).
Proof.
  intros Hperm Hnd Hlt Hs Hc Hget Hlive Hphoto Hitem Hstore Hkey.
  pose proof (tryon_degraded_mode_records sessionId clothingItemId w db s item
                Hnd Hlt Hs Hc Hget) as H.
  destruct (serve _ db) as [res db'].
  destruct H as (_ & (h & Hh & Hhs & Hhi & Hhr) & _ & _
                 & (l & Hl & Hls & Hla) & _);
    try solve [lia | assumption].
  destruct (find_by_id_some _ _ _ _ Hget) as [_ Hsid].
  destruct (find_by_id_some _ _ _ _ Hitem) as [_ Hiid].
  unfold getTryOnHistoryBySession, getUsageLogs.
  rewrite Hh, Hl, !filter_app_one. cbn beta.
  split; [|split; [|split]].
  - exists h. rewrite Hhs, Hsid, String.eqb_refl.
    split; [|split; [congruence | exact Hhr]].
    rewrite Hperm, (Hperm _ (filter _ (tryOnHistory db))).
    symmetry. apply Permutation_cons_append.
  - intros other Hother. rewrite filter_app_one, Hhs, Hsid.
    apply String.eqb_neq in Hother. rewrite String.eqb_sym in Hother.
    rewrite Hother, app_nil_r. reflexivity.
  - exists l. rewrite Hls, String.eqb_refl. split; [|exact Hla].
    rewrite Hperm, (Hperm _ (filter _ (usageLogs db))).
    symmetry. apply Permutation_cons_append.
  - intros other Hother. rewrite filter_app_one, Hls.
    apply String.eqb_neq in Hother. rewrite String.eqb_sym in Hother.
    rewrite Hother, app_nil_r. reflexivity.
Qed.

(** ** Grants, read back *)

(** X25: a grant stays in the table after it has expired, but its token
    stops finding it.  When the database hands out keys that are not in
    use and the token is carried by no earlier grant, the grant
    [createQrSession] returns is found under its id at any time, and
    under its token exactly at the instants before its [expiresAt]. *)
Theorem createQrSession_then_get (ins : QrSession.insert) (db : Db) :
  (forall used, ~ In (newId used) used) ->
  ~ In (QrSession.new_token ins) (map QrSession.token (qrSessions db)) ->
  let (grant, db') := createQrSession ins db in
  getQrSession (QrSession.id grant) db' = Some grant
  /\ forall clock,
       getQrSessionByToken (QrSession.new_token ins) clock db'
       = if clock <? QrSession.new_expiresAt ins then Some grant else None.
Proof.
  intros Hfresh Htoken. unfold createQrSession, getQrSession,
    getQrSessionByToken.
  cbn [qrSessions with_qrSessions QrSession.id].
  split.
  - apply find_app_last.
    + intros r Hr. apply String.eqb_neq. intros E.
      apply (Hfresh (map QrSession.id (qrSessions db))).
      rewrite <- E. now apply in_map.
    + apply String.eqb_refl.
  - intros clock.
    assert (Hold : forall r, In r (qrSessions db) ->
                   (String.eqb (QrSession.token r) (QrSession.new_token ins)
                    && (clock <? QrSession.expiresAt r)) = false).
    { intros r Hr. apply andb_false_iff. left. apply String.eqb_neq.
      intros E. apply Htoken. rewrite <- E. now apply in_map. }
    destruct (clock <? QrSession.new_expiresAt ins) eqn:Hclock.
    + apply find_app_last; [exact Hold|].
      cbn. now rewrite String.eqb_refl, Hclock.
    + rewrite find_app_miss
        by (cbn; now rewrite String.eqb_refl, Hclock).
      destruct (find _ (qrSessions db)) as [r|] eqn:Hfind; [|reflexivity].
      apply find_some in Hfind. destruct Hfind as [Hr Hp].
      rewrite (Hold r Hr) in Hp. discriminate.
Qed.

(** ** Requests with a field missing *)

(** X26: the customer routes check their fields first.  A request that
    lacks a field the route needs (absent or empty) is answered 400 and
    nothing is read or written, whatever the other fields are; an upload
    without a file is answered 400 only if the session passes the guard,
    and writes nothing either. *)
Theorem customer_routes_require_their_fields
  (sessionId clothingItemId storeId barcode category : option string)
  (file : option UploadedFile) (w : World) (db : Db) :
  (falsy sessionId = true \/ falsy clothingItemId = true ->
   serve (post_api_tryon sessionId clothingItemId w) db
   = (refuse 400 "Session ID and clothing item ID required", db))
  /\ (falsy sessionId = true ->
      serve (post_api_customer_upload_photo sessionId file w) db
      = (refuse 400 "Session ID required", db))
  /\ (forall id s,
        getCustomerSession id db = Some s ->
        id <> EmptyString ->
        now w <= CustomerSession.expiresAt s ->
        serve (post_api_customer_upload_photo (Some id) None w) db
        = (refuse 400 "No photo uploaded", db))
  /\ (falsy storeId = true ->
      answer (get_api_customer_clothes storeId category) db
      = (inr (refuse 400 "Store ID required"), db))
  /\ (falsy storeId = true \/ falsy barcode = true ->
      answer (post_api_customer_scan_barcode storeId barcode) db
      = (inr (refuse 400 "Store ID and barcode required"), db)).
Proof.
  assert (Hreq : forall x, falsy x = true -> required x = None)
    by (intros x Hx; unfold required; now rewrite Hx).
  split; [|split; [|split; [|split]]].
  - intros [H|H]; unfold post_api_tryon; rewrite (Hreq _ H);
      [|destruct (required sessionId)]; reflexivity.
  - intros H. unfold post_api_customer_upload_photo.
    rewrite (Hreq _ H). reflexivity.
  - intros id s Hs Hid Hlive. unfold post_api_customer_upload_photo.
    rewrite (required_some _ Hid).
    unfold serve, bind, query, reject_if, reply, ret. rewrite Hs.
    cbn [session_gone].
    replace (CustomerSession.expiresAt s <? now w) with false
      by (symmetry; apply Z.ltb_ge; lia).
    reflexivity.
  - intros H. unfold get_api_customer_clothes. rewrite (Hreq _ H).
    reflexivity.
  - intros [H|H]; unfold post_api_customer_scan_barcode; rewrite (Hreq _ H);
      [|destruct (required storeId)]; reflexivity.
Qed.

End Server.

(** ** The handlers on the sample database *)

Lemma length_append (a b : string) :
  String.length (a ++ b) = (String.length a + String.length b)%nat.
Proof.
  induction a as [|c a IH]; cbn; [reflexivity | now rewrite IH].
Qed.

Lemma length_concat_bounds (used : list string) (s : string) :
  In s used ->
  (String.length s <= String.length (String.concat EmptyString used))%nat.
Proof.
  induction used as [|x rest IH]; [contradiction|].
  intros Hin. destruct rest as [|y rest].
  - destruct Hin as [->|[]]. cbn. lia.
  - change (String.concat EmptyString (x :: y :: rest))
      with (x ++ EmptyString ++ String.concat EmptyString (y :: rest)).
    rewrite !length_append. cbn [String.length].
    destruct Hin as [->|Hin]; [lia|].
    specialize (IH Hin). lia.
Qed.

(** The sample keys are new: a key in use is never longer than the
    concatenation of all of them. *)
Lemma fresh_key_is_fresh (used : list string) :
  ~ In (Sample.fresh_key used) used.
Proof.
  intros Hin. apply length_concat_bounds in Hin.
  unfold Sample.fresh_key in Hin. cbn [String.length] in Hin. lia.
Qed.

Lemma sample_hash_compares (salt password : string) :
  Sample.compare password (Sample.hash salt password) = true.
Proof. unfold Sample.compare, Sample.hash. apply String.eqb_refl. Qed.

Lemma sample_tokens_distinct :
  NoDup (map QrSession.token (qrSessions Sample.db)).
Proof.
  cbn. repeat constructor; cbn; intuition discriminate.
Defined.

Lemma sample_store_ids_distinct : NoDup (map Store.id (stores Sample.db)).
Proof. cbn. repeat constructor; cbn; intuition discriminate. Defined.

Lemma sample_item_ids_distinct :
  NoDup (map ClothingItem.id (clothingItems Sample.db)).
Proof. cbn. repeat constructor; cbn; intuition discriminate. Defined.

Lemma tryon_without_photo_is_NoPhoto_witness :
  let (res, db') :=
    serve (post_api_tryon Sample.fresh_key Sample.generate
             (Some "cs-2") (Some "item-1") (Sample.at_instant 1000))
          Sample.db in
  NoPhoto res /\ db' = Sample.db.
Proof.
  apply (tryon_without_photo_is_NoPhoto Sample.fresh_key Sample.generate
           "cs-2" "item-1" (Sample.at_instant 1000) Sample.db
           (CustomerSession.mk "cs-2" "qr-1" "store-1" 5000 None));
    solve [discriminate | reflexivity].
Defined.

Lemma tryon_cross_tenant_is_NotFound_witness :
  (let (res, db') :=
     serve (post_api_tryon Sample.fresh_key Sample.generate
              (Some "cs-1") (Some "item-2") (Sample.at_instant 1000))
           Sample.db in
   NotFound res /\ db' = Sample.db)
  /\ (forall absentId : string,
        absentId <> EmptyString ->
        getClothingItem absentId Sample.db = None ->
        serve (post_api_tryon Sample.fresh_key Sample.generate
                 (Some "cs-1") (Some absentId) (Sample.at_instant 1000))
              Sample.db
        = serve (post_api_tryon Sample.fresh_key Sample.generate
                   (Some "cs-1") (Some "item-2") (Sample.at_instant 1000))
                Sample.db).
Proof.
  apply (tryon_cross_tenant_is_NotFound Sample.fresh_key Sample.generate
           "cs-1" "item-2" (Sample.at_instant 1000) Sample.db
           (CustomerSession.mk "cs-1" "qr-1" "store-1" 5000
                               (Some "/uploads/customers/me.png"))
           (ClothingItem.mk "item-2" "store-2" "Coat" "outerwear" None
                            "/uploads/clothing/coat.png" true 0));
    solve [discriminate | reflexivity].
Defined.

Lemma tryon_degraded_mode_completes_witness :
  let (res, db') :=
    serve (post_api_tryon Sample.fresh_key Sample.generate
             (Some "cs-1") (Some "item-1") (Sample.at_instant 1000))
          Sample.db in
  res = json (TryOnBody "/uploads/clothing/shirt.png"
                (Some "Demo mode - Gemini API key not configured"))
  /\ List.length (tryOnHistory db') = 1%nat
  /\ option_map ClothingItem.tryOnCount (getClothingItem "item-1" db') = Some 5
  /\ List.length (usageLogs db') = 1%nat.
Proof.
  pose proof
    (tryon_degraded_mode_completes Sample.fresh_key Sample.generate
       "cs-1" "item-1" (Sample.at_instant 1000) Sample.db
       (CustomerSession.mk "cs-1" "qr-1" "store-1" 5000
                           (Some "/uploads/customers/me.png"))
       (ClothingItem.mk "item-1" "store-1" "Shirt" "tops" None
                        "/uploads/clothing/shirt.png" true 4)
       sample_item_ids_distinct) as H.
  destruct (serve _ Sample.db) as [res db'].
  destruct H as (Hres & (h & Hh & _) & _ & (item' & Hget & Hcount)
                 & (l & Hl & _) & _);
    try solve [discriminate | reflexivity].
  split; [exact Hres|].
  split; [rewrite Hh; reflexivity|].
  split; [cbn in Hget; rewrite Hget; cbn; rewrite Hcount; reflexivity|].
  rewrite Hl. reflexivity.
Defined.

(** C5 as it is stated fails for an item whose counter is at the largest
    integer.  Session "cs-1" is live at instant 1000 and has a photo, the
    cap is an item of its store, and no Gemini key is configured; the
    route answers 500, having written the history row and neither the
    counter nor the usage log. *)
Lemma tryon_degraded_mode_fails_at_counter_limit :
  let s := CustomerSession.mk "cs-1" "qr-1" "store-1" 5000
                              (Some "/uploads/customers/me.png") in
  let w := Sample.at_instant 1000 in
  let (res, db') :=
    serve (post_api_tryon Sample.fresh_key Sample.generate
             (Some "cs-1") (Some "item-9") w)
          Shop.db_at_limit in
  getCustomerSession "cs-1" Shop.db_at_limit = Some s
  /\ now w < CustomerSession.expiresAt s
  /\ falsy (CustomerSession.photoUrl s) = false
  /\ getClothingItem "item-9" Shop.db_at_limit = Some Shop.cap
  /\ ClothingItem.storeId Shop.cap = CustomerSession.storeId s
  /\ falsy (GEMINI_API_KEY w) = true
  /\ res = refuse 500 "Failed to generate try-on image"
  /\ List.length (tryOnHistory db') = 1%nat
  /\ getClothingItem "item-9" db' = Some Shop.cap
  /\ usageLogs db' = []
  /\ ~ (res = json (TryOnBody (ClothingItem.imageUrl Shop.cap)
                      (Some "Demo mode - Gemini API key not configured"))
        /\ recorded_once s Shop.cap (ClothingItem.imageUrl Shop.cap)
                         Shop.db_at_limit db').
Proof.
  cbv zeta.
  assert (Hrun :
    serve (post_api_tryon Sample.fresh_key Sample.generate
             (Some "cs-1") (Some "item-9") (Sample.at_instant 1000))
          Shop.db_at_limit
    = (refuse 500 "Failed to generate try-on image",
       with_tryOnHistory Shop.db_at_limit
         [TryOnHistory.mk (Sample.fresh_key []) "cs-1" "item-9"
                          "/uploads/clothing/cap.png"]))
    by (vm_compute; reflexivity).
  rewrite Hrun.
  do 6 (split; [reflexivity|]).
  split; [reflexivity|]. split; [reflexivity|].
  split; [reflexivity|]. split; [reflexivity|].
  intros [Hres _]. discriminate Hres.
Defined.

Lemma validate_succeeds_iff_redeemable_witness :
  (let (res, db') :=
     serve (get_api_qr_token_validate Sample.fresh_key "tok-1"
              (Sample.at_instant 1000))
           Sample.db in
   status res = 200
   /\ exists cs,
        customerSessions db' = (customerSessions Sample.db ++ [cs])%list)
  /\ (let (res, db') :=
        serve (get_api_qr_token_validate Sample.fresh_key "tok-3"
                 (Sample.at_instant 1000))
              Sample.db in
      Rejected res /\ db' = Sample.db).
Proof.
  split.
  - pose proof
      (validate_succeeds_iff_redeemable Sample.fresh_key "tok-1"
         (Sample.at_instant 1000) Sample.db
         sample_tokens_distinct sample_store_ids_distinct) as H.
    destruct (serve _ Sample.db) as [res db'].
    destruct H as (Hiff & Hsession & _).
    assert (Hok : status res = 200).
    { apply Hiff.
      exists (QrSession.mk "qr-1" "store-1" "tok-1" 5000),
             (Store.mk "store-1" "Boutique" true).
      cbn. intuition lia. }
    split; [exact Hok | exact (Hsession Hok)].
  - pose proof
      (validate_succeeds_iff_redeemable Sample.fresh_key "tok-3"
         (Sample.at_instant 1000) Sample.db
         sample_tokens_distinct sample_store_ids_distinct) as H.
    destruct (serve _ Sample.db) as [res db'].
    destruct H as (Hiff & _ & Hrejected).
    apply Hrejected. intros Hok. apply Hiff in Hok.
    destruct Hok as (q & store & Hq & Htoken & _ & Hs & Hid & Hactive).
    cbn in Hq, Hs.
    destruct Hq as [<-|[<-|[]]]; cbn in Htoken; try discriminate Htoken;
      destruct Hs as [<-|[<-|[<-|[]]]]; cbn in Hid, Hactive;
      discriminate.
Defined.

Lemma issue_then_validate_copies_expiry_witness :
  let (issued, db1) :=
    serve (post_api_store_qr_generate Sample.fresh_key Sample.verify
             Sample.toDataURL (Some "Bearer store_manager/u-mgr")
             "https" "mirror.example" (Sample.at_instant 1000))
          Sample.db in
  let (validated, db2) :=
    serve (get_api_qr_token_validate Sample.fresh_key "9f3c2a1b"
             (Sample.at_instant 2000))
          db1 in
  exists cs sessionId storeName,
    customerSessions db2 = (customerSessions Sample.db ++ [cs])%list
    /\ CustomerSession.expiresAt cs = 3601000
    /\ validated = json (SessionBody sessionId "store-1" storeName 3601000).
Proof.
  pose proof
    (issue_then_validate_copies_expiry Sample.fresh_key Sample.verify
       Sample.toDataURL (Some "Bearer store_manager/u-mgr")
       "https" "mirror.example" (Sample.at_instant 1000)
       (Sample.at_instant 2000) Sample.db Sample.manager "store-1") as H.
  destruct (serve (post_api_store_qr_generate _ _ _ _ _ _ _) Sample.db)
    as [issued db1].
  destruct (serve (get_api_qr_token_validate _ _ _) db1) as [validated db2].
  destruct H as (qr & _ & _ & _ & Hexp & Hcopy & Hok);
    try solve [discriminate | reflexivity
              | cbn; intuition discriminate].
  destruct Hcopy as (cs & storeName & Hres & Hcs & _ & Hcsexp).
  { apply (Hok (Store.mk "store-1" "Boutique" true)); reflexivity. }
  exists cs, (CustomerSession.id cs), storeName.
  split; [exact Hcs|].
  split; [rewrite Hcsexp, Hexp; reflexivity|].
  rewrite Hres, Hexp. reflexivity.
Defined.

Lemma validate_does_not_revoke_witness :
  let (rs, db') :=
    validate_each Sample.fresh_key "tok-1"
      [Sample.at_instant 1000; Sample.at_instant 2000; Sample.at_instant 4999]
      Sample.db in
  List.length rs = 3%nat
  /\ Forall (fun r => status r = 200) rs
  /\ qrSessions db' = qrSessions Sample.db
  /\ exists created,
       customerSessions db' = (customerSessions Sample.db ++ created)%list
       /\ List.length created = 3%nat
       /\ NoDup (map CustomerSession.id created)
       /\ (forall c, In c created ->
             ~ In (CustomerSession.id c)
                  (map CustomerSession.id (customerSessions Sample.db))).
Proof.
  apply (validate_does_not_revoke Sample.fresh_key "tok-1"
           (QrSession.mk "qr-1" "store-1" "tok-1" 5000)
           (Store.mk "store-1" "Boutique" true)
           [Sample.at_instant 1000; Sample.at_instant 2000;
            Sample.at_instant 4999]
           Sample.db fresh_key_is_fresh sample_tokens_distinct).
  - left. reflexivity.
  - reflexivity.
  - reflexivity.
  - reflexivity.
  - repeat constructor.
Defined.

Lemma attachPhoto_overwrites_witness :
  let (res1, db1) :=
    attachPhoto "cs-2" (mkUploadedFile "a.png") (Sample.at_instant 1000)
                Sample.db in
  let (res2, db2) :=
    attachPhoto "cs-2" (mkUploadedFile "b.png") (Sample.at_instant 2000)
                db1 in
  res2 = json (PhotoBody "/uploads/customers/b.png")
  /\ getCustomerSession "cs-2" db2
     = Some (CustomerSession.mk "cs-2" "qr-1" "store-1" 5000
                                (Some "/uploads/customers/b.png"))
  /\ (res2, db2)
     = attachPhoto "cs-2" (mkUploadedFile "b.png") (Sample.at_instant 2000)
                   Sample.db.
Proof.
  pose proof
    (attachPhoto_overwrites "cs-2" (mkUploadedFile "a.png")
       (mkUploadedFile "b.png") (Sample.at_instant 1000)
       (Sample.at_instant 2000) Sample.db
       (CustomerSession.mk "cs-2" "qr-1" "store-1" 5000 None)) as H.
  destruct (attachPhoto "cs-2" (mkUploadedFile "a.png") _ Sample.db)
    as [res1 db1].
  destruct (attachPhoto "cs-2" (mkUploadedFile "b.png") _ db1)
    as [res2 db2].
  destruct H as (_ & _ & Hres & Hget & Hsame & _);
    try solve [discriminate | reflexivity].
  split; [exact Hres|]. split; [exact Hget|exact Hsame].
Defined.

Lemma login_inactive_user_is_Unauthorized_witness :
  let (res, db') :=
    serve (post_api_auth_login Sample.compare Sample.sign Sample.RawBody
             Sample.parseLogin ("old@boutique.example", "secret2")
             (Sample.at_instant 1000))
          Sample.db in
  Unauthorized res /\ db' = Sample.db.
Proof.
  pose proof
    (login_inactive_user_is_Unauthorized Sample.compare Sample.sign
       Sample.RawBody Sample.parseLogin ("old@boutique.example", "secret2")
       (Sample.at_instant 1000) Sample.db
       (mkLoginInput "old@boutique.example" "secret2")
       (User.mk "u-old" "old@boutique.example" "h:secret2"
                "store_manager" (Some "store-2") false false)) as H.
  destruct (serve _ Sample.db) as [res db'].
  destruct H as (Hres & Hdb & _); try reflexivity.
  split; [exact Hres|exact Hdb].
Defined.

(** C2: the session "cs-1" expires at 5000 and a try-on is asked for at
    5000, so [now < expiresAt] is false; the request is served all the
    same: it answers 200 with the item's image, writes a history row, adds
    one to the item's counter and writes a usage log. *)
Lemma tryon_at_expiry_instant_is_served :
  option_map CustomerSession.expiresAt (getCustomerSession "cs-1" Sample.db)
  = Some (now (Sample.at_instant 5000))
  /\ let (res, db') :=
       serve (post_api_tryon Sample.fresh_key Sample.generate
                (Some "cs-1") (Some "item-1") (Sample.at_instant 5000))
             Sample.db in
     ~ Expired res
     /\ res = json (TryOnBody "/uploads/clothing/shirt.png"
                      (Some "Demo mode - Gemini API key not configured"))
     /\ List.length (tryOnHistory Sample.db) = 0%nat
     /\ List.length (tryOnHistory db') = 1%nat
     /\ option_map ClothingItem.tryOnCount
          (getClothingItem "item-1" Sample.db) = Some 4
     /\ option_map ClothingItem.tryOnCount (getClothingItem "item-1" db')
        = Some 5
     /\ List.length (usageLogs db') = 1%nat.
Proof.
  split; [reflexivity|]. vm_compute.
  repeat split; try reflexivity. intros H. discriminate H.
Qed.

(** The manager's own reset, for comparison: the stored hash changes and
    the new password is the one that passes the login comparison. *)
Lemma manager_self_reset_authenticates :
  let w := Sample.at_instant 1000 in
  let (res, db') :=
    serve (post_api_auth_reset_password Sample.hash Sample.compare
             Sample.verify Sample.RawBody Sample.parseReset
             (Some "Bearer store_manager/u-mgr") ("secret1", "secret9") w)
          Sample.db in
  res = json (Message "Password updated successfully")
  /\ exists u',
       getUser "u-mgr" db' = Some u'
       /\ User.password u' = Sample.hash "salt" "secret9"
       /\ User.mustResetPassword u' = false
       /\ Sample.compare "secret9" (User.password u') = true.
Proof.
  apply (self_reset_replaces_hash Sample.hash Sample.compare Sample.verify
           Sample.RawBody Sample.parseReset
           (Some "Bearer store_manager/u-mgr") ("secret1", "secret9")
           (Sample.at_instant 1000) Sample.db Sample.manager
           (mkResetInput "secret1" "secret9")
           (User.mk "u-mgr" "mgr@boutique.example" "h:secret1"
                    "store_manager" (Some "store-1") true true)
           sample_hash_compares);
    reflexivity.
Qed.

(** C9: the owner resets the password of the manager of "store-1" and is
    answered 200 with a temporary password; no table has changed, the
    manager cannot log in with the temporary password, and the earlier
    password still logs in. *)
Lemma owner_reset_password_does_not_authenticate :
  let w := Sample.at_instant 1000 in
  let login (password : string) (db : Db) :=
    fst (serve (post_api_auth_login Sample.compare Sample.sign Sample.RawBody
                  Sample.parseLogin ("mgr@boutique.example", password) w)
               db) in
  let (res, db') :=
    serve (post_api_stores_id_reset_password Sample.hash Sample.verify
             (Some "Bearer company_owner/u-owner") "store-1" w)
          Sample.db in
  res = json (TempPasswordBody "9f3c2a1b" "Password reset successfully")
  /\ db' = Sample.db
  /\ login "9f3c2a1b" db' = refuse 401 "Invalid credentials"
  /\ status (login "secret1" db') = 200.
Proof.
  vm_compute. repeat split; reflexivity.
Qed.

(** ** The other routes on the sample databases *)

Lemma fresh_key_is_not_empty (used : list string) :
  Sample.fresh_key used <> EmptyString.
Proof. discriminate. Qed.

Lemma newest_first_rearranges (A : Type) (l : list A) :
  Permutation (Shop.newest_first A l) l.
Proof. symmetry. apply Permutation_rev. Qed.

Lemma createCustomerSession_then_get_witness :
  let (session, db') :=
    createCustomerSession Sample.fresh_key
      (CustomerSession.mkInsert "qr-1" "store-1" 5000) Sample.db in
  getCustomerSession (CustomerSession.id session) db' = Some session
  /\ CustomerSession.photoUrl session = None
  /\ CustomerSession.expiresAt session = 5000
  /\ (forall id, id <> CustomerSession.id session ->
        getCustomerSession id db' = getCustomerSession id Sample.db).
Proof.
  apply (createCustomerSession_then_get Sample.fresh_key
           (CustomerSession.mkInsert "qr-1" "store-1" 5000) Sample.db
           fresh_key_is_fresh).
Defined.

Lemma customer_visit_records_one_try_on_witness :
  let '(validated, uploaded, tried, db') :=
    customer_visit Sample.fresh_key Sample.generate "tok-1"
      (mkUploadedFile "selfie.png") "item-1"
      (Sample.at_instant 1000) (Sample.at_instant 2000)
      (Sample.at_instant 3000) Sample.db in
  status validated = 200
  /\ uploaded = json (PhotoBody "/uploads/customers/selfie.png")
  /\ tried = json (TryOnBody "/uploads/clothing/shirt.png"
                     (Some "Demo mode - Gemini API key not configured"))
  /\ List.length (tryOnHistory db') = 1%nat
  /\ option_map ClothingItem.tryOnCount (getClothingItem "item-1" db')
     = Some 5.
Proof.
  pose proof
    (customer_visit_records_one_try_on Sample.fresh_key Sample.generate
       "tok-1" (mkUploadedFile "selfie.png") "item-1"
       (Sample.at_instant 1000) (Sample.at_instant 2000)
       (Sample.at_instant 3000) Sample.db
       (QrSession.mk "qr-1" "store-1" "tok-1" 5000)
       (Store.mk "store-1" "Boutique" true)
       (ClothingItem.mk "item-1" "store-1" "Shirt" "tops" None
                        "/uploads/clothing/shirt.png" true 4)
       fresh_key_is_fresh fresh_key_is_not_empty sample_tokens_distinct) as H.
  destruct (customer_visit _ _ _ _ _ _ _ _ Sample.db)
    as [[[validated uploaded] tried] db'].
  destruct H as (sid & Hv & Hu & Ht & _ & (h & Hh & _) & (i & Hi & Hc));
    try solve [discriminate | reflexivity | left; reflexivity
               | exact sample_item_ids_distinct].
  split; [rewrite Hv; reflexivity|]. split; [exact Hu|].
  split; [exact Ht|]. split; [rewrite Hh; reflexivity|].
  rewrite Hi. cbn. rewrite Hc. reflexivity.
Defined.

Lemma toggle_status_twice_restores_witness :
  let (first, db1) :=
    answer (patch_api_stores_id_toggle_status Sample.verify
              (Some "Bearer company_owner/u-owner") "store-1"
              (Sample.at_instant 1000)) Sample.db in
  let (second, db2) :=
    answer (patch_api_stores_id_toggle_status Sample.verify
              (Some "Bearer company_owner/u-owner") "store-1"
              (Sample.at_instant 2000)) db1 in
  first = inl (Some (Store.mk "store-1" "Boutique" false))
  /\ second = inl (Some (Store.mk "store-1" "Boutique" true))
  /\ db2 = Sample.db.
Proof.
  apply (toggle_status_twice_restores Sample.verify
           (Some "Bearer company_owner/u-owner") "store-1"
           (Sample.at_instant 1000) (Sample.at_instant 2000) Sample.db
           Sample.owner Sample.owner (Store.mk "store-1" "Boutique" true));
    solve [reflexivity | exact sample_store_ids_distinct].
Defined.

Lemma deactivated_store_rejects_validation_witness :
  status (fst (serve (get_api_qr_token_validate Sample.fresh_key "tok-1"
                        (Sample.at_instant 2000)) Sample.db)) = 200
  /\ let (_, db1) :=
       answer (patch_api_stores_id_toggle_status Sample.verify
                 (Some "Bearer company_owner/u-owner") "store-1"
                 (Sample.at_instant 1000)) Sample.db in
     serve (get_api_qr_token_validate Sample.fresh_key "tok-1"
              (Sample.at_instant 2000)) db1
     = (refuse 404 "Store not available", db1).
Proof.
  apply (deactivated_store_rejects_validation Sample.fresh_key Sample.verify
           (Some "Bearer company_owner/u-owner") (Sample.at_instant 1000)
           (Sample.at_instant 2000) Sample.db Sample.owner "tok-1"
           (QrSession.mk "qr-1" "store-1" "tok-1" 5000)
           (Store.mk "store-1" "Boutique" true));
    reflexivity.
Defined.

Lemma staff_routes_need_a_token_witness :
  serve (delete_api_store_items_id Sample.verify (Some "Basic dXNlcg==")
           "item-1" (Sample.at_instant 1000)) Sample.db
  = (refuse 401 "Unauthorized", Sample.db)
  /\ serve (post_api_store_qr_generate Sample.fresh_key Sample.verify
              Sample.toDataURL (Some "Basic dXNlcg==") "https"
              "mirror.example" (Sample.at_instant 1000)) Sample.db
     = (refuse 401 "Unauthorized", Sample.db).
Proof.
  pose proof
    (staff_routes_need_a_token Sample.fresh_key Sample.hash Sample.compare
       Sample.verify Sample.RawBody Sample.parseReset Sample.toDataURL
       Shop.newest_first Shop.isCategory (Some "Basic dXNlcg==") "item-1"
       "https" "mirror.example" None ("secret1", "secret9")
       (Sample.at_instant 1000) Sample.db (refuse 401 "Unauthorized")
       eq_refl) as H.
  split; apply H.
Defined.

Lemma owner_routes_refuse_other_roles_witness :
  answer (patch_api_stores_id_toggle_status Sample.verify
            (Some "Bearer store_manager/u-mgr") "store-2"
            (Sample.at_instant 1000)) Sample.db
  = (inr (refuse 403 "Access denied"), Sample.db)
  /\ answer (get_api_analytics_global Sample.verify
               (Some "Bearer store_manager/u-mgr") (Sample.at_instant 1000))
            Sample.db
     = (inr (refuse 403 "Access denied"), Sample.db).
Proof.
  pose proof
    (owner_routes_refuse_other_roles Sample.hash Sample.verify
       Shop.newest_first (Some "Bearer store_manager/u-mgr") "store-2"
       (Sample.at_instant 1000) Sample.db Sample.manager eq_refl) as H.
  split; apply H; discriminate.
Defined.

Lemma manager_routes_refuse_other_roles_witness :
  serve (delete_api_store_items_id Sample.verify
           (Some "Bearer company_owner/u-owner") "item-1"
           (Sample.at_instant 1000)) Sample.db
  = (refuse 403 "Access denied", Sample.db)
  /\ serve (post_api_store_qr_generate Sample.fresh_key Sample.verify
              Sample.toDataURL (Some "Bearer company_owner/u-owner") "https"
              "mirror.example" (Sample.at_instant 1000)) Sample.db
     = (refuse 403 "Access denied", Sample.db).
Proof.
  pose proof
    (manager_routes_refuse_other_roles Sample.fresh_key Sample.verify
       Sample.toDataURL Shop.newest_first Shop.isCategory
       (Some "Bearer company_owner/u-owner") "item-1" "https"
       "mirror.example" None (Sample.at_instant 1000) Sample.db
       Sample.owner eq_refl) as H.
  split; apply H; discriminate.
Defined.

Lemma scan_barcode_is_scoped_witness :
  let (r, db') :=
    answer (post_api_customer_scan_barcode (Some "store-2")
              (Some "4006381333931")) Shop.db in
  db' = Shop.db
  /\ match r with
     | inl item =>
         In item (clothingItems Shop.db)
         /\ ClothingItem.storeId item = "store-2"
         /\ ClothingItem.barcode item = Some "4006381333931"
     | inr res =>
         res = refuse 404 "Item not found"
         /\ forall i, In i (clothingItems Shop.db) ->
                      ClothingItem.storeId i = "store-2" ->
                      ClothingItem.barcode i <> Some "4006381333931"
     end.
Proof.
  apply (scan_barcode_is_scoped "store-2" "4006381333931" Shop.db);
    discriminate.
Defined.

Lemma customer_clothes_lists_available_witness :
  let (r, db') :=
    answer (get_api_customer_clothes Shop.newest_first Shop.isCategory
              (Some "store-1") (Some "tops")) Shop.db in
  db' = Shop.db
  /\ exists items, r = inl items /\ Permutation items [Shop.shirt].
Proof.
  pose proof
    (customer_clothes_lists_available Shop.newest_first Shop.isCategory
       "store-1" (Some "tops") Shop.db newest_first_rearranges) as H.
  destruct (answer _ Shop.db) as [r db'].
  destruct H as [Hdb H]; [discriminate|].
  split; [exact Hdb | exact H].
Defined.

Lemma scan_answers_unavailable_items_witness :
  answer (post_api_customer_scan_barcode (Some "store-1")
            (Some "5901234123457")) Shop.db
  = (inl Shop.scarf, Shop.db)
  /\ forall items,
       fst (answer (get_api_customer_clothes Shop.newest_first
                      Shop.isCategory (Some "store-1") None) Shop.db)
       = inl items ->
       ~ In Shop.scarf items.
Proof.
  apply (scan_answers_unavailable_items Shop.newest_first Shop.isCategory
           "store-1" "5901234123457" None Shop.db Shop.scarf);
    solve [discriminate | reflexivity].
Defined.

Lemma delete_item_cross_tenant_is_not_found_witness :
  serve (delete_api_store_items_id Sample.verify
           (Some "Bearer store_manager/u-mgr") "item-2"
           (Sample.at_instant 1000)) Sample.db
  = (refuse 404 "Item not found", Sample.db).
Proof.
  refine (proj1 (delete_item_cross_tenant_is_not_found Sample.verify
                   (Some "Bearer store_manager/u-mgr") "item-2"
                   (Sample.at_instant 1000) Sample.db Sample.manager
                   (ClothingItem.mk "item-2" "store-2" "Coat" "outerwear" None
                                    "/uploads/clothing/coat.png" true 0)
                   _ _ _ _));
    solve [reflexivity | cbn; discriminate].
Defined.

Lemma delete_item_removes_it_witness :
  let (res, db') :=
    serve (delete_api_store_items_id Sample.verify
             (Some "Bearer store_manager/u-mgr") "item-1"
             (Sample.at_instant 1000)) Sample.db in
  res = json (Message "Item deleted")
  /\ getClothingItem "item-1" db' = None
  /\ status (fst (serve (post_api_tryon Sample.fresh_key Sample.generate
                           (Some "cs-1") (Some "item-1")
                           (Sample.at_instant 2000)) db')) <> 200.
Proof.
  pose proof
    (delete_item_removes_it Sample.fresh_key Sample.verify Sample.generate
       (Some "Bearer store_manager/u-mgr") "item-1" (Sample.at_instant 1000)
       (Sample.at_instant 2000) Sample.db Sample.manager
       (ClothingItem.mk "item-1" "store-1" "Shirt" "tops" None
                        "/uploads/clothing/shirt.png" true 4)
       (Some "cs-1")) as H.
  destruct (serve (delete_api_store_items_id _ _ _ _) Sample.db) as [res db'].
  destruct H as (Hres & Hgone & _ & _ & _ & _ & _ & _ & _ & _ & Htry);
    try solve [reflexivity | intros h []].
  split; [exact Hres|]. split; [exact Hgone | exact Htry].
Defined.

Lemma full_item_ids_distinct :
  NoDup (map ClothingItem.id (clothingItems Shop.db_full)).
Proof. cbn. repeat constructor; cbn; intuition discriminate. Defined.

Lemma try_on_shows_in_the_stats_witness :
  (let (_, db') :=
     serve (post_api_tryon Sample.fresh_key Sample.generate
              (Some "cs-1") (Some "item-1") (Sample.at_instant 1000))
           Sample.db in
   option_map StoreStats.tryOnCount (getStoreStats "store-1" db') = Some 5
   /\ option_map StoreStats.tryOnCount (getStoreStats "store-2" db') = Some 0
   /\ GlobalStats.totalApiCalls (getGlobalStats db') = 1)
  /\ (let (_, db') :=
        serve (post_api_tryon Sample.fresh_key Sample.generate
                 (Some "cs-1") (Some "item-1") (Sample.at_instant 1000))
              Shop.db_full in
      option_map StoreStats.tryOnCount (getStoreStats "store-1" Shop.db_full)
      = Some 2147483647
      /\ getStoreStats "store-1" db' = None
      /\ option_map StoreStats.tryOnCount (getStoreStats "store-2" db')
         = Some 0).
Proof.
  split.
  - pose proof
      (try_on_shows_in_the_stats Sample.fresh_key Sample.generate
         "cs-1" "item-1" (Sample.at_instant 1000) Sample.db
         (CustomerSession.mk "cs-1" "qr-1" "store-1" 5000
                             (Some "/uploads/customers/me.png"))
         (ClothingItem.mk "item-1" "store-1" "Shirt" "tops" None
                          "/uploads/clothing/shirt.png" true 4)
         sample_item_ids_distinct) as H.
    destruct (serve _ Sample.db) as [res db'].
    destruct H as [Hstore Hglobal]; try solve [discriminate | reflexivity].
    rewrite (Hstore "store-1" _ eq_refl), (Hstore "store-2" _ eq_refl),
      Hglobal.
    repeat split; reflexivity.
  - pose proof
      (try_on_shows_in_the_stats Sample.fresh_key Sample.generate
         "cs-1" "item-1" (Sample.at_instant 1000) Shop.db_full
         (CustomerSession.mk "cs-1" "qr-1" "store-1" 5000
                             (Some "/uploads/customers/me.png"))
         Shop.shirt full_item_ids_distinct) as H.
    destruct (serve _ Shop.db_full) as [res db'].
    destruct H as [Hstore _]; try solve [discriminate | reflexivity].
    rewrite (Hstore "store-1" _ eq_refl), (Hstore "store-2" _ eq_refl).
    repeat split; reflexivity.
Defined.

Lemma validation_shows_in_the_stats_witness :
  let (_, db') :=
    serve (get_api_qr_token_validate Sample.fresh_key "tok-1"
             (Sample.at_instant 1000)) Sample.db in
  option_map StoreStats.sessionCount (getStoreStats "store-1" db') = Some 3
  /\ GlobalStats.totalSessions (getGlobalStats db') = 3
  /\ GlobalStats.totalApiCalls (getGlobalStats db') = 0.
Proof.
  pose proof
    (validation_shows_in_the_stats Sample.fresh_key "tok-1"
       (Sample.at_instant 1000) Sample.db
       (QrSession.mk "qr-1" "store-1" "tok-1" 5000)
       (Store.mk "store-1" "Boutique" true) eq_refl eq_refl eq_refl) as H.
  destruct (serve _ Sample.db) as [res db'].
  destruct H as [Hstore Hglobal].
  rewrite (Hstore "store-1"), Hglobal. repeat split; reflexivity.
Defined.

Lemma owner_listing_agrees_with_manager_stats_witness :
  (let (theirs, _) :=
     answer (get_api_stores Sample.verify Shop.newest_first
               (Some "Bearer company_owner/u-owner") (Sample.at_instant 1000))
            Shop.db in
   let (mine, _) :=
     answer (get_api_store_stats Sample.verify
               (Some "Bearer store_manager/u-mgr") (Sample.at_instant 2000))
            Shop.db in
   exists listing,
     theirs = inl listing
     /\ Permutation (map fst listing) (stores Shop.db)
     /\ forall store stats,
          In (store, stats) listing ->
          Store.id store = "store-1" ->
          exists numbers,
            mine = inl numbers
            /\ StoreWithStats.clothingCount stats
               = StoreStats.clothingCount numbers
            /\ StoreWithStats.tryOnCount stats
               = StoreStats.tryOnCount numbers
            /\ StoreWithStats.sessionCount stats
               = StoreStats.sessionCount numbers)
  /\ (let (theirs, db1) :=
        answer (get_api_stores Sample.verify Shop.newest_first
                  (Some "Bearer company_owner/u-owner")
                  (Sample.at_instant 1000))
               Shop.db_at_limit in
      theirs = inr (refuse 500 "Failed to get stores")
      /\ db1 = Shop.db_at_limit).
Proof.
  split.
  - pose proof
      (owner_listing_agrees_with_manager_stats Sample.verify
         Shop.newest_first (Some "Bearer company_owner/u-owner")
         (Some "Bearer store_manager/u-mgr") (Sample.at_instant 1000)
         (Sample.at_instant 2000) Shop.db Sample.owner Sample.manager
         "store-1" newest_first_rearranges) as H.
    destruct (answer (get_api_stores _ _ _ _) Shop.db) as [theirs db1].
    destruct (answer (get_api_store_stats _ _ _) Shop.db) as [mine db2].
    destruct H as (_ & _ & _ & Hall & Hlisting);
      try solve [discriminate | reflexivity].
    destruct Hall as (listing & Htheirs).
    { intros store Hin. cbn in Hin.
      destruct Hin as [<-|[<-|[<-|[]]]]; discriminate. }
    exists listing. split; [exact Htheirs|].
    exact (Hlisting listing Htheirs).
  - pose proof
      (owner_listing_agrees_with_manager_stats Sample.verify
         Shop.newest_first (Some "Bearer company_owner/u-owner")
         (Some "Bearer store_manager/u-mgr") (Sample.at_instant 1000)
         (Sample.at_instant 2000) Shop.db_at_limit Sample.owner
         Sample.manager "store-1" newest_first_rearranges) as H.
    destruct (answer (get_api_stores _ _ _ _) Shop.db_at_limit)
      as [theirs db1].
    destruct (answer (get_api_store_stats _ _ _) Shop.db_at_limit)
      as [mine db2].
    destruct H as (Hdb1 & _ & Hfails & _);
      try solve [discriminate | reflexivity].
    split; [|exact Hdb1].
    apply Hfails. exists (Store.mk "store-1" "Boutique" true).
    split; [left; reflexivity | reflexivity].
Defined.

Lemma authMiddleware_verifies_second_word_witness :
  authMiddleware Sample.verify
    (Some "Bearer store_manager/u-mgr and more") (Sample.at_instant 1000)
    Sample.db
  = (Continue Sample.manager, Sample.db).
Proof.
  pose proof
    (authMiddleware_verifies_second_word Sample.verify "store_manager/u-mgr"
       "and more" (Sample.at_instant 1000) Sample.db eq_refl)
    as (_ & _ & Hword & Hjunk).
  exact (eq_trans Hjunk Hword).
Defined.

Lemma login_then_me_witness :
  exists view,
    serve (post_api_auth_login Sample.compare Sample.sign Sample.RawBody
             Sample.parseLogin ("mgr@boutique.example", "secret1")
             (Sample.at_instant 1000)) Sample.db
    = (json (LoginBody "store_manager/u-mgr" view), Sample.db)
    /\ answer (get_api_auth_me Sample.verify
                 (Some "Bearer store_manager/u-mgr") (Sample.at_instant 2000))
              Sample.db
       = (inl view, Sample.db)
    /\ view_id view = "u-mgr"
    /\ view_mustResetPassword view = true.
Proof.
  apply (login_then_me Sample.compare Sample.sign Sample.verify
           Sample.RawBody Sample.parseLogin
           ("mgr@boutique.example", "secret1") (Sample.at_instant 1000)
           (Sample.at_instant 2000) Sample.db
           (mkLoginInput "mgr@boutique.example" "secret1")
           (User.mk "u-mgr" "mgr@boutique.example" "h:secret1"
                    "store_manager" (Some "store-1") true true));
    reflexivity.
Defined.

Lemma self_reset_reaches_one_row_witness :
  let (res, db') :=
    serve (post_api_auth_reset_password Sample.hash Sample.compare
             Sample.verify Sample.RawBody Sample.parseReset
             (Some "Bearer store_manager/u-mgr") ("secret1", "secret9")
             (Sample.at_instant 1000)) Sample.db in
  getUser "u-owner" db' = getUser "u-owner" Sample.db
  /\ map User.role (users db') = map User.role (users Sample.db)
  /\ with_users db' (users Sample.db) = Sample.db.
Proof.
  pose proof
    (self_reset_reaches_one_row Sample.hash Sample.compare Sample.verify
       Sample.RawBody Sample.parseReset (Some "Bearer store_manager/u-mgr")
       ("secret1", "secret9") (Sample.at_instant 1000) Sample.db
       Sample.manager eq_refl) as H.
  destruct (serve _ Sample.db) as [res db'].
  destruct H as (Hother & _ & _ & Hrole & _ & _ & Hrest & _).
  split; [apply Hother; discriminate|]. split; [exact Hrole | exact Hrest].
Defined.

Lemma writes_to_a_missing_id_do_nothing_witness :
  updateUser "u-9" (User.mkPartial (Some "h:secret9") (Some false)) Sample.db
  = Some (None, Sample.db)
  /\ updateStore "store-9" (PartialStore.mk None (Some false)) Sample.db
     = Some (None, Sample.db)
  /\ updateCustomerSession "cs-9"
       (CustomerSession.mkPartial (Some "/uploads/customers/x.png")) Sample.db
     = Some (None, Sample.db)
  /\ updateCustomerSession "cs-9" (CustomerSession.mkPartial None) Sample.db
     = None
  /\ incrementTryOnCount "item-9" Sample.db = Some (tt, Sample.db)
  /\ deleteClothingItem "item-9" Sample.db = (tt, Sample.db).
Proof.
  pose proof
    (writes_to_a_missing_id_do_nothing "u-9" Sample.db
       (User.mkPartial (Some "h:secret9") (Some false))
       (PartialStore.mk None (Some false))
       (CustomerSession.mkPartial None)) as (Huser & _).
  pose proof
    (writes_to_a_missing_id_do_nothing "store-9" Sample.db
       (User.mkPartial (Some "h:secret9") (Some false))
       (PartialStore.mk None (Some false))
       (CustomerSession.mkPartial None)) as (_ & Hstore & _).
  pose proof
    (writes_to_a_missing_id_do_nothing "cs-9" Sample.db
       (User.mkPartial (Some "h:secret9") (Some false))
       (PartialStore.mk None (Some false))
       (CustomerSession.mkPartial (Some "/uploads/customers/x.png")))
    as (_ & _ & Hsession & _).
  pose proof
    (writes_to_a_missing_id_do_nothing "cs-9" Sample.db
       (User.mkPartial (Some "h:secret9") (Some false))
       (PartialStore.mk None (Some false))
       (CustomerSession.mkPartial None)) as (_ & _ & Hempty & _).
  pose proof
    (writes_to_a_missing_id_do_nothing "item-9" Sample.db
       (User.mkPartial (Some "h:secret9") (Some false))
       (PartialStore.mk None (Some false))
       (CustomerSession.mkPartial None)) as (_ & _ & _ & Hitem).
  split; [exact (Huser eq_refl)|].
  split; [exact (Hstore eq_refl)|].
  split; [exact (Hsession eq_refl)|].
  split; [exact (Hempty eq_refl)|].
  exact (Hitem eq_refl).
Defined.

Lemma timer_shows_the_time_left_witness :
  Client.updateTimer 1000 755321 = ("12:34"%string, Client.warning)
  /\ exists minutes seconds,
       0 <= seconds < 60
       /\ (minutes * 60 + seconds) * 1000 <= 755321 - 1000
          < (minutes * 60 + seconds + 1) * 1000.
Proof.
  split; [reflexivity|].
  pose proof (timer_shows_the_time_left 1000 755321) as H.
  destruct (Client.updateTimer 1000 755321) as [text urgency].
  destruct H as (_ & _ & _ & _ & H).
  destruct (H eq_refl) as (minutes & seconds & _ & _ & Hs & Hd & _).
  exists minutes, seconds. split; [exact Hs | exact Hd].
Defined.

Lemma page_and_server_on_expiry_witness :
  session_gone
    (Some (CustomerSession.mk "cs-1" "qr-1" "store-1" 5000
             (Some "/uploads/customers/me.png")))
    (Sample.at_instant 4999) = false.
Proof.
  apply (page_and_server_on_expiry
           (CustomerSession.mk "cs-1" "qr-1" "store-1" 5000
              (Some "/uploads/customers/me.png"))
           (Sample.at_instant 4999)).
  reflexivity.
Defined.

Lemma try_on_is_filed_under_its_session_witness :
  let (_, db') :=
    serve (post_api_tryon Sample.fresh_key Sample.generate
             (Some "cs-1") (Some "item-1") (Sample.at_instant 1000))
          Sample.db in
  getTryOnHistoryBySession Shop.newest_first "cs-2" db' = []
  /\ getUsageLogs Shop.newest_first "store-2" db' = []
  /\ exists h,
       Permutation (getTryOnHistoryBySession Shop.newest_first "cs-1" db')
                   [h]
       /\ TryOnHistory.clothingItemId h = "item-1".
Proof.
  pose proof
    (try_on_is_filed_under_its_session Sample.fresh_key Sample.generate
       Shop.newest_first "cs-1" "item-1" (Sample.at_instant 1000) Sample.db
       (CustomerSession.mk "cs-1" "qr-1" "store-1" 5000
                           (Some "/uploads/customers/me.png"))
       (ClothingItem.mk "item-1" "store-1" "Shirt" "tops" None
                        "/uploads/clothing/shirt.png" true 4)
       newest_first_rearranges sample_item_ids_distinct) as H.
  destruct (serve _ Sample.db) as [res db'].
  destruct H as ((h & Hperm & Hitem & _) & Hothers & _ & Hlogs);
    try solve [discriminate | reflexivity].
  split; [rewrite Hothers by discriminate; reflexivity|].
  split; [rewrite Hlogs by (cbn; discriminate); reflexivity|].
  exists h. split; [exact Hperm | exact Hitem].
Defined.

Lemma createQrSession_then_get_witness :
  let (grant, db') :=
    createQrSession Sample.fresh_key
      (QrSession.mkInsert "store-1" "9f3c2a1b" 3601000) Sample.db in
  getQrSession (QrSession.id grant) db' = Some grant
  /\ getQrSessionByToken "9f3c2a1b" 3600999 db' = Some grant
  /\ getQrSessionByToken "9f3c2a1b" 3601000 db' = None.
Proof.
  pose proof
    (createQrSession_then_get Sample.fresh_key
       (QrSession.mkInsert "store-1" "9f3c2a1b" 3601000) Sample.db
       fresh_key_is_fresh) as H.
  destruct (createQrSession _ _ Sample.db) as [grant db'].
  destruct H as [Hid Htoken]; [cbn; intuition discriminate|].
  split; [exact Hid|]. split; [apply (Htoken 3600999) | apply (Htoken 3601000)].
Defined.

Lemma customer_routes_require_their_fields_witness :
  serve (post_api_tryon Sample.fresh_key Sample.generate (Some "cs-1") None
           (Sample.at_instant 1000)) Sample.db
  = (refuse 400 "Session ID and clothing item ID required", Sample.db)
  /\ serve (post_api_customer_upload_photo (Some "cs-1") None
              (Sample.at_instant 1000)) Sample.db
     = (refuse 400 "No photo uploaded", Sample.db).
Proof.
  pose proof
    (customer_routes_require_their_fields Sample.fresh_key Sample.generate
       Shop.newest_first Shop.isCategory (Some "cs-1") None None None None
       None (Sample.at_instant 1000) Sample.db)
    as (Htry & _ & Hup & _).
  split.
  - apply Htry. right. reflexivity.
  - apply (Hup "cs-1" (CustomerSession.mk "cs-1" "qr-1" "store-1" 5000
                         (Some "/uploads/customers/me.png")));
      solve [reflexivity | discriminate].
Defined.
